(** * pgtool: the compressed-artifact lifecycle of [pgtool.go]

    A shallow embedding of [pgtool.go] (backup and restore of a PostgreSQL
    database through [pg_dump] and [pg_restore], gzip compression and a
    retention sweep) and the properties of its artifact lifecycle.

    The Go functions [main], [runBackup], [runRestore], [compressFile],
    [decompressFile] and [cleanupOldBackups] are written in a small monad
    over an explicit world (file system, clock, open gzip writers, trace of
    observable events).  What they call from the Go standard library and the
    operating system ([os], [path/filepath], [time], [compress/gzip],
    [os/exec], [log], [flag], [strconv]) is modelled in the first half of the
    file. *)

From Stdlib Require Import ZArith String Ascii List Lia Bool.
From Stdlib.Strings Require Import Byte.
From stdpp Require Import base gmap strings list.

Local Open Scope string_scope.

(** ** Errors of the standard library *)

Inductive Error : Type :=
| ENOENT            (* no such file or directory *)
| ENOTDIR           (* not a directory *)
| EISDIR            (* is a directory *)
| EPERM             (* operation not permitted *)
| ENOTEMPTY         (* directory not empty *)
| ELOOP             (* symbolic link that cannot be followed *)
| ENXIO             (* not a file that can be opened for data *)
| ENOSPC            (* no space left on device *)
| EIO               (* input/output error *)
| ErrHeader         (* gzip: invalid header *)
| ErrChecksum       (* gzip: invalid checksum *)
| ErrUnexpectedEOF  (* io: unexpected EOF *)
| ErrNotFound       (* exec: executable file not found in $PATH *)
| ExitError (code : Z). (* exec: the child exited with a non-zero status *)

(** [os.IsNotExist]. *)
Definition os_IsNotExist (err : option Error) : bool :=
  match err with
  | Some ENOENT => true
  | _ => false
  end.

(** ** Paths: [path/filepath] *)

Module filepath.

(** The elements of a path between its separators. *)
Fixpoint split (s : string) : list string :=
  match s with
  | EmptyString => [EmptyString]
  | String c s' =>
      if Ascii.eqb c "/" then EmptyString :: split s'
      else match split s' with
           | [] => [String c EmptyString]
           | x :: xs => String c x :: xs
           end
  end.

Definition rooted (s : string) : bool :=
  match s with
  | String c _ => Ascii.eqb c "/"
  | EmptyString => false
  end.

(** One element of the lexical processing of [Clean]: [dots] counts the
    [..] elements that could not be cancelled, [stack] holds the elements
    kept so far, last first. *)
Definition clean_step (is_rooted : bool) (st : nat * list string) (elem : string)
  : nat * list string :=
  let '(dots, stack) := st in
  if String.eqb elem "" || String.eqb elem "." then st
  else if String.eqb elem ".." then
    match stack with
    | _ :: rest => (dots, rest)
    | [] => if is_rooted then st else (S dots, [])
    end
  else (dots, elem :: stack).

Fixpoint join_with (sep : string) (l : list string) : string :=
  match l with
  | [] => ""
  | [x] => x
  | x :: xs => x +:+ sep +:+ join_with sep xs
  end.

(** [filepath.Clean]: the shortest path name equivalent to [path] by purely
    lexical processing. *)
Definition Clean (path : string) : string :=
  let is_rooted := rooted path in
  let '(dots, stack) := fold_left (clean_step is_rooted) (split path) (0%nat, []) in
  let body := join_with "/" (repeat ".." dots ++ rev stack) in
  if is_rooted then "/" +:+ body
  else if String.eqb body "" then "." else body.

(** [filepath.Join] of two elements: empty elements are ignored, the result
    is cleaned. *)
Definition Join (dir name : string) : string :=
  if String.eqb dir "" then
    if String.eqb name "" then "" else Clean name
  else Clean (dir +:+ "/" +:+ name).

(** [filepath.Ext]: the suffix beginning at the final dot in the final
    element of the path, empty if there is no dot.  The scan runs from the
    end of the path, [acc] is the part already passed. *)
Fixpoint ext_scan (rev_path : list ascii) (acc : string) : string :=
  match rev_path with
  | [] => ""
  | c :: rest =>
      if Ascii.eqb c "/" then ""
      else if Ascii.eqb c "." then String c acc
      else ext_scan rest (String c acc)
  end.

Definition Ext (path : string) : string :=
  ext_scan (rev (list_ascii_of_string path)) "".

(** Lexicographic order on element lists: the order in which [Walk] reaches
    the files of a tree (a directory before its entries, entries by name). *)
Fixpoint elems_leb (a b : list string) : bool :=
  match a, b with
  | [], _ => true
  | _ :: _, [] => false
  | x :: a', y :: b' =>
      if String.eqb x y then elems_leb a' b' else String.ltb x y
  end.

Definition walk_leb (p q : string) : bool := elems_leb (split p) (split q).

Fixpoint insert_sorted (p : string) (l : list string) : list string :=
  match l with
  | [] => [p]
  | q :: l' => if walk_leb p q then p :: l else q :: insert_sorted p l'
  end.

Definition sort_paths (l : list string) : list string :=
  fold_right insert_sorted [] l.

(** [strict_under root p]: [p] names something inside the directory [root]. *)
Definition dir_prefix (root : string) : string :=
  if String.eqb (Clean root) "/" then "/" else Clean root +:+ "/".

Definition strict_under (root p : string) : bool :=
  String.prefix (dir_prefix root) p && negb (String.eqb p (Clean root)).

End filepath.

(** ** Wall-clock time: [time] *)

Module time.

(** A [time.Time] without monotonic reading: the seconds elapsed since
    January 1 of year 1, 00:00:00 UTC (a signed 64-bit integer), the
    nanoseconds within the second, and the offset of its location in
    seconds east of UTC. *)
Record Time : Type := mkTime { sec : Z; nsec : Z; zone : Z }.

Definition wrap64 (x : Z) : Z := (x + 2 ^ 63) mod 2 ^ 64 - 2 ^ 63.

Definition unixToInternal : Z := 62135596800.
Definition secondsPerDay : Z := 86400.

Definition Unix (t : Time) : Z := sec t - unixToInternal.

(** [t.Before(u)]. *)
Definition Before (t u : Time) : bool :=
  (sec t <? sec u)%Z || ((sec t =? sec u)%Z && (nsec t <? nsec u)%Z).

(** [t.AddDate(0, 0, days)]: the clock fields are kept and the day is
    moved; in a location with a fixed offset that is [days] times 24 hours.
    The sum is computed on 64 bits. *)
Definition AddDays (t : Time) (days : Z) : Time :=
  mkTime (wrap64 (sec t + days * secondsPerDay)) (nsec t) (zone t).

(** Civil date of a day number counted from 1970-01-01 in the proleptic
    Gregorian calendar. *)
Definition civil_from_days (days : Z) : Z * Z * Z :=
  let z := (days + 719468)%Z in
  let era := (z / 146097)%Z in
  let doe := (z - era * 146097)%Z in
  let yoe := ((doe - doe / 1460 + doe / 36524 - doe / 146096) / 365)%Z in
  let doy := (doe - (365 * yoe + yoe / 4 - yoe / 100))%Z in
  let mp := ((5 * doy + 2) / 153)%Z in
  let d := (doy - (153 * mp + 2) / 5 + 1)%Z in
  let m := (if (mp <? 10)%Z then mp + 3 else mp - 9)%Z in
  let y := (yoe + era * 400 + (if (m <=? 2)%Z then 1 else 0))%Z in
  (y, m, d).

Definition local_seconds (t : Time) : Z := (Unix t + zone t)%Z.

Definition Year (t : Time) : Z := (civil_from_days (local_seconds t / secondsPerDay)).1.1.
Definition Month (t : Time) : Z := (civil_from_days (local_seconds t / secondsPerDay)).1.2.
Definition Day (t : Time) : Z := (civil_from_days (local_seconds t / secondsPerDay)).2.
Definition Hour (t : Time) : Z := (local_seconds t mod secondsPerDay / 3600)%Z.
Definition Minute (t : Time) : Z := (local_seconds t mod 3600 / 60)%Z.
Definition Second (t : Time) : Z := (local_seconds t mod 60)%Z.

Definition digit_char (d : Z) : ascii := ascii_of_nat (48 + Z.to_nat d).

Fixpoint decimal_digits (fuel : nat) (u : Z) (acc : string) : string :=
  match fuel with
  | O => acc
  | S fuel' =>
      let acc' := String (digit_char (u mod 10)) acc in
      if (u / 10 =? 0)%Z then acc' else decimal_digits fuel' (u / 10) acc'
  end.

Fixpoint pad_left (c : ascii) (n : nat) (s : string) : string :=
  match n with
  | O => s
  | S n' => String c (pad_left c n' s)
  end.

(** [appendInt]: the decimal form of [x], zero-padded to [width]. *)
Definition appendInt (x : Z) (width : nat) : string :=
  let u := Z.abs x in
  let ds := decimal_digits (S (Z.to_nat (Z.log2 u))) u "" in
  (if (x <? 0)%Z then "-" else "") +:+ pad_left "0" (width - String.length ds) ds.

Definition hour12 (t : Time) : Z :=
  let hr := (Hour t mod 12)%Z in if (hr =? 0)%Z then 12%Z else hr.

(** [nextStdChunk] at the head of [layout]: the text the chunk formats to
    and the number of layout characters it takes.  The numeric chunks are
    modelled; month and weekday names, the day of the year, AM/PM marks,
    zones and fractional seconds, which no layout of this program contains,
    are not. *)
Definition nextStdChunk (t : Time) (layout : string) : string * nat :=
  if String.prefix "2006" layout then (appendInt (Year t) 4, 4%nat)
  else if String.prefix "_2006" layout then ("_" +:+ appendInt (Year t) 4, 5%nat)
  else if String.prefix "_2" layout then
    (pad_left " " (2 - String.length (appendInt (Day t) 0)) (appendInt (Day t) 0), 2%nat)
  else if String.prefix "01" layout then (appendInt (Month t) 2, 2%nat)
  else if String.prefix "02" layout then (appendInt (Day t) 2, 2%nat)
  else if String.prefix "03" layout then (appendInt (hour12 t) 2, 2%nat)
  else if String.prefix "04" layout then (appendInt (Minute t) 2, 2%nat)
  else if String.prefix "05" layout then (appendInt (Second t) 2, 2%nat)
  else if String.prefix "06" layout then (appendInt (Year t mod 100) 2, 2%nat)
  else if String.prefix "15" layout then (appendInt (Hour t) 2, 2%nat)
  else if String.prefix "1" layout then (appendInt (Month t) 0, 1%nat)
  else if String.prefix "2" layout then (appendInt (Day t) 0, 1%nat)
  else if String.prefix "3" layout then (appendInt (hour12 t) 0, 1%nat)
  else if String.prefix "4" layout then (appendInt (Minute t) 0, 1%nat)
  else if String.prefix "5" layout then (appendInt (Second t) 0, 1%nat)
  else (String.substring 0 1 layout, 1%nat).

(** The formatting loop; [skip] counts the layout characters already taken
    by the last chunk. *)
Fixpoint format_loop (t : Time) (skip : nat) (layout : string) : string :=
  match layout with
  | EmptyString => ""
  | String _ rest =>
      match skip with
      | S k => format_loop t k rest
      | O => let '(text, n) := nextStdChunk t layout in
             text +:+ format_loop t (n - 1) rest
      end
  end.

(** [t.Format(layout)]. *)
Definition Format (t : Time) (layout : string) : string := format_loop t 0 layout.

(** The timestamp the specification calls YYYY-MM-DD_HHMMSS: four decimal
    digits of the year, two of each other field. *)
Definition two_digits (x : Z) : string :=
  String (digit_char (x / 10 mod 10)) (String (digit_char (x mod 10)) "").

Definition four_digits (x : Z) : string :=
  String (digit_char (x / 1000 mod 10)) (String (digit_char (x / 100 mod 10)) (two_digits x)).

Definition stamp_YYYY_MM_DD_HHMMSS (t : Time) : string :=
  four_digits (Year t) +:+ "-" +:+ two_digits (Month t) +:+ "-" +:+ two_digits (Day t)
  +:+ "_" +:+ two_digits (Hour t) +:+ two_digits (Minute t) +:+ two_digits (Second t).

(** A reading of the Unix clock in the location with offset [zone]. *)
Definition of_unix (unix_sec nanos zone_off : Z) : Time :=
  mkTime (unix_sec + unixToInternal) nanos zone_off.

End time.

(** The text of an error in a log line.  Go wraps the error of a file
    operation in a [*PathError] that also names the operation and the path;
    the model keeps the cause. *)
Definition error_string (e : Error) : string :=
  match e with
  | ENOENT => "no such file or directory"
  | ENOTDIR => "not a directory"
  | EISDIR => "is a directory"
  | EPERM => "operation not permitted"
  | ENOTEMPTY => "directory not empty"
  | ELOOP => "too many levels of symbolic links"
  | ENXIO => "no such device or address"
  | ENOSPC => "no space left on device"
  | EIO => "input/output error"
  | ErrHeader => "gzip: invalid header"
  | ErrChecksum => "gzip: invalid checksum"
  | ErrUnexpectedEOF => "unexpected EOF"
  | ErrNotFound => "executable file not found in $PATH"
  | ExitError code => "exit status " +:+ time.appendInt code 0
  end.

(** ** The file system, the environment and the world *)

(** The file system is a finite map from paths, as the program writes them,
    to directory entries: two spellings of one path are two keys, and a path
    is looked up through the directories its own spelling names.  Owners and
    permission bits are not modelled: what stands in the way of writing or
    unlinking a regular file is its immutable attribute.  Files are unlinked
    as POSIX does it, open or not. *)

(** The type bits of an [os.FileMode]. *)
Inductive FileMode : Type :=
| ModeRegular | ModeDir | ModeSymlink | ModeNamedPipe | ModeSocket | ModeDevice.

(** What [os.Lstat] reports of a directory entry. *)
Record FileInfo : Type := mkFileInfo { Mode : FileMode; ModTime : time.Time }.

Definition IsDir (info : FileInfo) : bool :=
  match Mode info with ModeDir => true | _ => false end.

Definition IsRegular (info : FileInfo) : bool :=
  match Mode info with ModeRegular => true | _ => false end.

(** A directory entry.  [node_immutable] is the immutable attribute of the
    file: it can then neither be opened for writing nor unlinked. *)
Record Node : Type := mkNode {
  node_mode : FileMode;
  node_data : list byte;
  node_mtime : time.Time;
  node_immutable : bool
}.

Definition info_of (n : Node) : FileInfo := mkFileInfo (node_mode n) (node_mtime n).

(** Where a child process writes one of its output streams. *)
Inductive Sink : Type :=
| SinkNone
| SinkFile (path : string)
| SinkStdout.

(** An [exec.Cmd]. *)
Record Cmd : Type := mkCmd {
  cmd_name : string;
  cmd_args : list string;
  cmd_env : option (list string);   (* [None]: the environment of the parent *)
  cmd_stdout : Sink;
  cmd_stderr : Sink
}.

(** What running a child process gives: its two output streams and the
    error of [cmd.Run] ([None] when it exits with status 0). *)
Record ProcResult : Type := mkProcResult {
  proc_stdout : list byte;
  proc_stderr : list byte;
  proc_err : option Error
}.

(** The gzip format, as far as this program depends on it: what the writer
    has emitted when [io.Copy] returns, what [Close] appends, whether the
    reader accepts the header, and what the reader delivers (with the error
    that stops it, if any). *)
Record Codec : Type := mkCodec {
  gz_body : list byte -> list byte;
  gz_trailer : list byte -> list byte;
  gz_open : list byte -> option Error;
  gz_inflate : list byte -> list byte * option Error
}.

(** The law of the format: a complete stream is read back as written. *)
Definition codec_sound (c : Codec) : Prop :=
  forall data : list byte,
    gz_open c (gz_body c data ++ gz_trailer c data) = None /\
    gz_inflate c (gz_body c data ++ gz_trailer c data) = (data, None).

(** Everything a run depends on and does not decide: the clock, the process
    environment, the external programs, the gzip codec and the failures of
    the devices. *)
Record Env : Type := mkEnv {
  clock : nat -> time.Time;                       (* successive readings *)
  getenv : string -> string;
  environ : list string;
  run_program : Cmd -> gmap string Node -> ProcResult;
  gzip : Codec;
  copy_fault : string -> option (nat * Error);    (* writing the file at this path
                                                     fails after so many bytes *)
  flush_fault : string -> option Error;           (* the last write of a gzip
                                                     writer to this file fails *)
  lstat_fault : string -> option Error;
  readdir_fault : string -> option Error
}.

(** What an observer of the run sees besides the files. *)
Inductive Event : Type :=
| EvStdout (text : string)
| EvExec (cmd : Cmd) (err : option Error)
| EvRemove (path : string) (err : option Error).

(** The state of a gzip writer: the bytes it accepted, or the error that
    stopped it. *)
Abbreviation GzState := (list byte + Error)%type (only parsing).

Record World : Type := mkWorld {
  fs : gmap string Node;          (* path, as written, to directory entry *)
  ticks : nat;                    (* clock readings taken by the process *)
  gzw : gmap string GzState;      (* gzip writers, by destination file *)
  events : list Event             (* oldest first *)
}.

Definition set_fs (f : gmap string Node -> gmap string Node) (w : World) : World :=
  mkWorld (f (fs w)) (ticks w) (gzw w) (events w).

Definition set_gzw (f : gmap string GzState -> gmap string GzState) (w : World) : World :=
  mkWorld (fs w) (ticks w) (f (gzw w)) (events w).

Definition add_event (e : Event) (w : World) : World :=
  mkWorld (fs w) (ticks w) (gzw w) (events w ++ [e]).

Definition tick (w : World) : World :=
  mkWorld (fs w) (S (ticks w)) (gzw w) (events w).

(** ** The monad of the program *)

(** A Go function returns, or the process ends in [os.Exit], or it panics. *)
Inductive Outcome (A : Type) : Type :=
| Ret (a : A)
| Exited (code : Z)
| Panicked (msg : string).

Arguments Ret {A} a.
Arguments Exited {A} code.
Arguments Panicked {A} msg.

Definition M (A : Type) : Type := Env -> World -> Outcome A * World.

Definition ret {A} (a : A) : M A := fun _ w => (Ret a, w).

Definition bind {A B} (m : M A) (k : A -> M B) : M B :=
  fun env w =>
    match m env w with
    | (Ret a, w') => k a env w'
    | (Exited c, w') => (Exited c, w')
    | (Panicked msg, w') => (Panicked msg, w')
    end.

Declare Scope prog_scope.
Delimit Scope prog_scope with prog.
Bind Scope prog_scope with M.

Notation "x ← y ; z" := (bind y (fun x => z))
  (at level 20, y at level 100, z at level 200, only parsing) : prog_scope.
Notation "y ;; z" := (bind y (fun _ => z))
  (at level 100, z at level 200, only parsing, right associativity) : prog_scope.

Local Open Scope prog_scope.

(** [os.Exit]: the process ends at once, deferred calls are not run. *)
Definition os_Exit {A} (code : Z) : M A := fun _ w => (Exited code, w).

Definition panic {A} (msg : string) : M A := fun _ w => (Panicked msg, w).

(** [defer d] before [body]: [d] runs when [body] returns or panics, and
    not when the process exits inside [body]. *)
Definition defer {A} (d : M unit) (body : M A) : M A :=
  fun env w =>
    match body env w with
    | (Exited c, w') => (Exited c, w')
    | (Ret a, w') =>
        match d env w' with
        | (Ret _, w'') => (Ret a, w'')
        | (Exited c, w'') => (Exited c, w'')
        | (Panicked msg, w'') => (Panicked msg, w'')
        end
    | (Panicked msg, w') =>
        match d env w' with
        | (Exited c, w'') => (Exited c, w'')
        | (_, w'') => (Panicked msg, w'')
        end
    end.

(** ** The standard library as the program uses it *)

Definition NL : string := String (ascii_of_nat 10) "".

(** An open [os.File] is known by the path it was opened at. *)
Abbreviation File := string (only parsing).

(** The time the kernel stamps on a file it modifies. *)
Definition kernel_time (env : Env) (w : World) : time.Time := clock env (ticks w).

(** [time.Now()]: the next reading of the clock. *)
Definition time_Now : M time.Time :=
  fun env w => (Ret (clock env (ticks w)), tick w).

(** [fmt.Print], [fmt.Println] and [fmt.Printf] write to standard output. *)
Definition fmt_Print (text : string) : M unit :=
  fun _ w => (Ret tt, add_event (EvStdout text) w).

Definition fmt_Println (text : string) : M unit := fmt_Print (text +:+ NL).

Definition os_Getenv (key : string) : M string :=
  fun env w => (Ret (getenv env key), w).

Definition os_Environ : M (list string) :=
  fun env w => (Ret (environ env), w).

(** The directories a path goes through, outermost first: [/a] and [/a/b]
    for [/a/b/c].  The root and the working directory are always there. *)
Fixpoint dirs_from (seen rest : string) (after_separator : bool) : list string :=
  match rest with
  | EmptyString => []
  | String c rest' =>
      if Ascii.eqb c "/"
      then (if after_separator then [] else [seen]) ++ dirs_from (seen +:+ "/") rest' true
      else dirs_from (seen +:+ String c "") rest' false
  end.

Definition path_dirs (path : string) : list string := dirs_from "" path true.

(** Looking a path up fails when a directory on the way is missing
    ([ENOENT]) or is not a directory ([ENOTDIR]). *)
Fixpoint dirs_error (m : gmap string Node) (dirs : list string) : option Error :=
  match dirs with
  | [] => None
  | d :: rest =>
      match m !! d with
      | None => Some ENOENT
      | Some n => match node_mode n with
                  | ModeDir => dirs_error m rest
                  | ModeSymlink => Some ENOENT
                  | _ => Some ENOTDIR
                  end
      end
  end.

Definition lookup_error (m : gmap string Node) (path : string) : option Error :=
  if String.eqb path "" then Some ENOENT else dirs_error m (path_dirs path).

(** [os.Stat], of which the program keeps the error only.  Symbolic links
    and special files are entries that [Lstat] and [Remove] see; going
    through one to a file is not modelled and reported as an error. *)
Definition stat_error (m : gmap string Node) (path : string) : option Error :=
  match lookup_error m path with
  | Some e => Some e
  | None =>
      match m !! path with
      | None => Some ENOENT
      | Some n => match node_mode n with
                  | ModeSymlink => Some ENOENT
                  | _ => None
                  end
      end
  end.

Definition os_Stat (path : string) : M (option Error) :=
  fun _ w => (Ret (stat_error (fs w) path), w).

(** Whether an existing entry can be opened for writing. *)
Definition write_check (n : Node) : option Error :=
  match node_mode n with
  | ModeRegular => if node_immutable n then Some EPERM else None
  | ModeDir => Some EISDIR
  | ModeSymlink => Some ELOOP
  | _ => Some ENXIO
  end.

Definition write_error (m : gmap string Node) (path : string) : option Error :=
  match lookup_error m path with
  | Some e => Some e
  | None =>
      match m !! path with
      | None => None
      | Some n => write_check n
      end
  end.

(** The file a successful creation leaves. *)
Definition new_file (t : time.Time) : Node := mkNode ModeRegular [] t false.

(** [os.OpenFile(path, os.O_APPEND|os.O_CREATE|os.O_WRONLY, 0644)]: the
    file is created if it is missing and left as it is otherwise. *)
Definition create_missing (path : string) (n : Node) (m : gmap string Node)
  : gmap string Node :=
  match m !! path with
  | None => <[path := n]> m
  | Some _ => m
  end.

Definition os_OpenFile_append (path : string) : M (File + Error) :=
  fun env w =>
    match write_error (fs w) path with
    | Some e => (Ret (inr e), w)
    | None => (Ret (inl path), set_fs (create_missing path (new_file (kernel_time env w))) w)
    end.

(** [os.Create]: the file is created, or truncated if it exists. *)
Definition os_Create (path : string) : M (File + Error) :=
  fun env w =>
    match write_error (fs w) path with
    | Some e => (Ret (inr e), w)
    | None => (Ret (inl path), set_fs (insert path (new_file (kernel_time env w))) w)
    end.

(** [os.Open], for reading.  A directory can be opened; reading it fails. *)
Definition open_error (m : gmap string Node) (path : string) : option Error :=
  match lookup_error m path with
  | Some e => Some e
  | None =>
      match m !! path with
      | None => Some ENOENT
      | Some n =>
          match node_mode n with
          | ModeRegular | ModeDir => None
          | ModeSymlink => Some ENOENT
          | _ => Some ENXIO
          end
      end
  end.

Definition os_Open (path : string) : M (File + Error) :=
  fun _ w =>
    match open_error (fs w) path with
    | Some e => (Ret (inr e), w)
    | None => (Ret (inl path), w)
    end.

(** [f.Close()]. *)
Definition file_Close (f : File) : M unit := ret tt.

(** All the bytes that reading [f] to its end delivers.  The bytes of a
    file unlinked while open are not kept by the model. *)
Definition read_all (f : File) (w : World) : list byte + Error :=
  match fs w !! f with
  | None => inr EIO
  | Some n => match node_mode n with
              | ModeDir => inr EISDIR
              | _ => inl (node_data n)
              end
  end.

(** Writing [data] at the end of the open file [f]; nothing happens in the
    directory when the file has been unlinked meanwhile. *)
Definition append_node (data : list byte) (t : time.Time) (n : Node) : Node :=
  mkNode (node_mode n) (node_data n ++ data) t (node_immutable n).

Definition file_Write (f : File) (data : list byte) : M unit :=
  fun env w => (Ret tt, set_fs (alter (append_node data (kernel_time env w)) f) w).

(** Whether the directory [path] has entries. *)
Definition has_entries (m : gmap string Node) (path : string) : bool :=
  existsb (filepath.strict_under path) (elements (dom m)).

(** [os.Remove]: an entry is unlinked, a directory if it is empty. *)
Definition remove_result (m : gmap string Node) (path : string) : option Error :=
  match m !! path with
  | None => Some ENOENT
  | Some n =>
      if node_immutable n then Some EPERM
      else match node_mode n with
           | ModeDir => if has_entries m path then Some ENOTEMPTY else None
           | _ => None
           end
  end.

Definition remove_entry (path : string) (m : gmap string Node) : gmap string Node :=
  match remove_result m path with
  | None => delete path m
  | Some _ => m
  end.

Definition os_Remove (path : string) : M (option Error) :=
  fun _ w =>
    (Ret (remove_result (fs w) path),
     add_event (EvRemove path (remove_result (fs w) path)) (set_fs (remove_entry path) w)).

(** [log.New(f, "", log.LstdFlags)] and the [Printf] and [Println] of the
    logger: one line with the date and time of the call. *)
Abbreviation Logger := string (only parsing).

Definition log_New (f : File) : Logger := f.

Definition logger_Printf (logger : Logger) (msg : string) : M unit :=
  now ← time_Now;
  file_Write logger
    (list_byte_of_string (time.Format now "2006/01/02 15:04:05" +:+ " " +:+ msg +:+ NL)).

Definition logger_Println (logger : Logger) (msg : string) : M unit :=
  logger_Printf logger msg.

(** [exec.Command] and [cmd.Run].  The child writes its streams where the
    command says and touches no other file. *)
Definition exec_Command (name : string) (args : list string) : Cmd :=
  mkCmd name args None SinkNone SinkNone.

Definition write_sink (s : Sink) (data : list byte) : M unit :=
  match data with
  | [] => ret tt
  | _ :: _ =>
      match s with
      | SinkNone => ret tt
      | SinkFile f => file_Write f data
      | SinkStdout => fmt_Print (string_of_list_byte data)
      end
  end.

Definition cmd_Run (cmd : Cmd) : M (option Error) :=
  fun env w =>
    let r := run_program env cmd (fs w) in
    (write_sink (cmd_stdout cmd) (proc_stdout r) ;;
     write_sink (cmd_stderr cmd) (proc_stderr r) ;;
     ret (proc_err r)) env (add_event (EvExec cmd (proc_err r)) w).

(** [gzip.NewWriter(out)], [io.Copy(gw, in)] and [gw.Close()]. *)
Definition gzip_NewWriter (out : File) : M File :=
  fun _ w => (Ret out, set_gzw (insert out (inl [] : GzState)) w).

Definition io_Copy_to_gzip (gw : File) (src : File) : M (option Error) :=
  fun env w =>
    match read_all src w with
    | inr e => (Ret (Some e), w)
    | inl data =>
        match copy_fault env gw with
        | Some (n, e) =>
            (file_Write gw (firstn n (gz_body (gzip env) data)) ;;
             ret (Some e)) env (set_gzw (insert gw (inr e : GzState)) w)
        | None =>
            (file_Write gw (gz_body (gzip env) data) ;;
             ret None) env (set_gzw (insert gw (inl data : GzState)) w)
        end
    end.

Definition gzip_Writer_Close (gw : File) : M (option Error) :=
  fun env w =>
    match gzw w !! gw with
    | None => (Ret None, w)
    | Some (inr e) => (Ret (Some e), set_gzw (delete gw) w)
    | Some (inl data) =>
        match flush_fault env gw with
        | Some e => (Ret (Some e), set_gzw (delete gw) w)
        | None =>
            (file_Write gw (gz_trailer (gzip env) data) ;; ret None)
              env (set_gzw (delete gw) w)
        end
    end.

(** [gzip.NewReader(in)], [io.Copy(out, gr)] and [gr.Close()].  The reader
    takes the bytes of its file when they are copied. *)
Definition gzip_NewReader (src : File) : M (File + Error) :=
  fun env w =>
    match read_all src w with
    | inr e => (Ret (inr e), w)
    | inl data =>
        match gz_open (gzip env) data with
        | Some e => (Ret (inr e), w)
        | None => (Ret (inl src), w)
        end
    end.

Definition io_Copy_from_gzip (out : File) (gr : File) : M (option Error) :=
  fun env w =>
    match read_all gr w with
    | inr e => (Ret (Some e), w)
    | inl data =>
        let '(plain, err) := gz_inflate (gzip env) data in
        match copy_fault env out with
        | Some (n, e) => (file_Write out (firstn n plain) ;; ret (Some e)) env w
        | None => (file_Write out plain ;; ret err) env w
        end
    end.

Definition gzip_Reader_Close (gr : File) : M unit := ret tt.

(** [s[:hi]]: out of range, the program panics. *)
Definition slice_to (s : string) (hi : Z) : M string :=
  if (hi <? 0)%Z || (Z.of_nat (String.length s) <? hi)%Z
  then panic "slice bounds out of range"
  else ret (String.substring 0 (Z.to_nat hi) s).

(** [-x] on an [int]. *)
Definition neg_int (x : Z) : Z := time.wrap64 (- x).

(** [filepath.Walk(root, fn)] over the paths of the file system: [root],
    then what is inside it if it is a directory, a directory before its
    entries and entries by name.  An entry is examined when it is reached;
    the first error [fn] returns ends the walk.  When an entry cannot be
    examined or a directory cannot be read and [fn] lets the walk go on,
    what is inside it is left out. *)
Definition WalkFunc : Type := string -> option FileInfo -> option Error -> M (option Error).

Definition walk_targets (m : gmap string Node) (root : string) : list string :=
  filepath.sort_paths (filter (fun p => Is_true (filepath.strict_under root p)) (elements (dom m))).

Fixpoint walk_loop (fn : WalkFunc) (skipped : list string) (paths : list string)
  : M (option Error) :=
  match paths with
  | [] => ret None
  | p :: rest =>
      if existsb (fun d => filepath.strict_under d p) skipped then walk_loop fn skipped rest
      else
        fun env w =>
          match lstat_fault env p, fs w !! p with
          | Some e, _ =>
              (r ← fn p None (Some e);
               match r with
               | Some e' => ret (Some e')
               | None => walk_loop fn (p :: skipped) rest
               end) env w
          | None, None =>
              (r ← fn p None (Some ENOENT);
               match r with
               | Some e' => ret (Some e')
               | None => walk_loop fn (p :: skipped) rest
               end) env w
          | None, Some n =>
              if IsDir (info_of n) then
                (r ← fn p (Some (info_of n)) (readdir_fault env p);
                 match r with
                 | Some e' => ret (Some e')
                 | None =>
                     walk_loop fn (match readdir_fault env p with
                                   | Some _ => p :: skipped
                                   | None => skipped
                                   end) rest
                 end) env w
              else
                (r ← fn p (Some (info_of n)) None;
                 match r with Some e' => ret (Some e') | None => walk_loop fn skipped rest end) env w
          end
  end.

Definition filepath_Walk (root : string) (fn : WalkFunc) : M (option Error) :=
  fun env w =>
    let inside :=
      match lstat_fault env root, fs w !! root with
      | None, Some n => if IsDir (info_of n) then walk_targets (fs w) root else []
      | _, _ => []
      end in
    walk_loop fn [] (root :: inside) env w.

(** ** The program *)

Definition quoted (s : string) : string := "'" +:+ s +:+ "'".

(** [compressFile(src, dst)]. *)
Definition compressFile (src dst : string) : M (option Error) :=
  r ← os_Open src;
  match r with
  | inr err => ret (Some err)
  | inl in_ =>
      defer (file_Close in_) (
        r ← os_Create dst;
        match r with
        | inr err => ret (Some err)
        | inl out =>
            defer (file_Close out) (
              gw ← gzip_NewWriter out;
              defer (gzip_Writer_Close gw ;; ret tt) (
                io_Copy_to_gzip gw in_))
        end)
  end.

(** [decompressFile(src, dst)]. *)
Definition decompressFile (src dst : string) : M (option Error) :=
  r ← os_Open src;
  match r with
  | inr err => ret (Some err)
  | inl in_ =>
      defer (file_Close in_) (
        r ← gzip_NewReader in_;
        match r with
        | inr err => ret (Some err)
        | inl gr =>
            defer (gzip_Reader_Close gr) (
              r ← os_Create dst;
              match r with
              | inr err => ret (Some err)
              | inl out =>
                  defer (file_Close out) (
                    io_Copy_from_gzip out gr)
              end)
        end)
  end.

(** The function [cleanupOldBackups] hands to [filepath.Walk]. *)
Definition cleanupOldBackups_visit (cutoff : time.Time) (logger : Logger) : WalkFunc :=
  fun path info err =>
    match err with
    | Some e => ret (Some e)
    | None =>
        match info with
        | None => panic "invalid memory address or nil pointer dereference"
        | Some info =>
            if negb (IsDir info) && String.eqb (filepath.Ext path) ".gz" then
              if time.Before (ModTime info) cutoff then
                rmErr ← os_Remove path;
                match rmErr with
                | None => logger_Printf logger ("INFO: Deleted old backup: " +:+ path)
                | Some e =>
                    logger_Printf logger
                      ("WARNING: Failed to delete " +:+ path +:+ ": " +:+ error_string e)
                end ;;
                ret None
              else ret None
            else ret None
        end
    end.

(** [cleanupOldBackups(backupDir, retentionDays, logger)]. *)
Definition cleanupOldBackups (backupDir : string) (retentionDays : Z) (logger : Logger)
  : M unit :=
  logger_Printf logger
    ("INFO: Cleaning up backups older than " +:+ time.appendInt retentionDays 0 +:+ " days.") ;;
  fmt_Println "Cleaning up old backups..." ;;
  now ← time_Now;
  let cutoff := time.AddDays now (neg_int retentionDays) in
  filepath_Walk backupDir (cleanupOldBackups_visit cutoff logger) ;;
  logger_Println logger "SUCCESS: Cleanup complete." ;;
  fmt_Println "Cleanup complete.".

(** The names of a backup taken at [now] (lines 74, 75 and 110). *)
Definition backupFile_at (backupDir dbName : string) (now : time.Time) : string :=
  let timestamp := time.Format now "2006-01-02_150405" in
  filepath.Join backupDir (dbName +:+ "_" +:+ timestamp +:+ ".dump").

Definition compressedFile_of (backupFile : string) : string := backupFile +:+ ".gz".

(** The child process of a backup and of a restore, with the password of
    the environment when there is one. *)
Definition with_password (cmd : Cmd) : M Cmd :=
  pw ← os_Getenv "PGPASSWORD";
  if negb (String.eqb pw "") then
    vars ← os_Environ;
    ret (mkCmd (cmd_name cmd) (cmd_args cmd) (Some (vars ++ ["PGPASSWORD=" +:+ pw])%list)
            (cmd_stdout cmd) (cmd_stderr cmd))
  else ret cmd.

Definition set_streams (cmd : Cmd) (out err : Sink) : Cmd :=
  mkCmd (cmd_name cmd) (cmd_args cmd) (cmd_env cmd) out err.

(** [runBackup(dbName, dbUser, dbHost, backupDir, logFile, retentionDays)]. *)
Definition runBackup (dbName dbUser dbHost backupDir logFile : string) (retentionDays : Z)
  : M unit :=
  if String.eqb dbName "" then
    fmt_Println "Error: Database name is required." ;;
    os_Exit 1
  else
    err ← os_Stat backupDir;
    if os_IsNotExist err then
      fmt_Println ("Error: Backup directory " +:+ quoted backupDir +:+ " not found.") ;;
      os_Exit 1
    else
      r ← os_OpenFile_append logFile;
      match r with
      | inr err =>
          fmt_Println ("Error: Cannot open log file " +:+ quoted logFile +:+ ": "
                       +:+ error_string err) ;;
          os_Exit 1
      | inl logF =>
          defer (file_Close logF) (
            let logger := log_New logF in
            now ← time_Now;
            let backupFile := backupFile_at backupDir dbName now in
            logger_Printf logger
              ("INFO: Starting backup for database " +:+ quoted dbName +:+ ".") ;;
            fmt_Println ("Starting backup for database " +:+ quoted dbName +:+ "...") ;;
            let cmd := exec_Command "pg_dump" ["-U"; dbUser; "-h"; dbHost; "-Fc"; dbName] in
            r ← os_Create backupFile;
            match r with
            | inr err =>
                logger_Printf logger
                  ("ERROR: Cannot create backup file: " +:+ error_string err) ;;
                fmt_Println "Backup failed." ;;
                os_Exit 1
            | inl outFile =>
                defer (file_Close outFile) (
                  let cmd := set_streams cmd (SinkFile outFile) (SinkFile logF) in
                  cmd ← with_password cmd;
                  err ← cmd_Run cmd;
                  match err with
                  | Some e =>
                      logger_Printf logger ("ERROR: Backup failed: " +:+ error_string e) ;;
                      fmt_Println "Backup failed. Check log for details." ;;
                      os_Remove backupFile ;;
                      os_Exit 1
                  | None =>
                      let compressedFile := compressedFile_of backupFile in
                      err ← compressFile backupFile compressedFile;
                      match err with
                      | Some e =>
                          logger_Printf logger
                            ("ERROR: Compression failed: " +:+ error_string e) ;;
                          fmt_Println "Compression failed." ;;
                          os_Exit 1
                      | None =>
                          os_Remove backupFile ;;
                          logger_Printf logger
                            ("SUCCESS: Backup completed. File: " +:+ compressedFile) ;;
                          fmt_Println ("Backup successful: " +:+ compressedFile) ;;
                          cleanupOldBackups backupDir retentionDays logger
                      end
                  end)
            end)
      end.

(** [runRestore(dbName, dbUser, dbHost, backupFile, logFile)]. *)
Definition runRestore (dbName dbUser dbHost backupFile logFile : string) : M unit :=
  if String.eqb dbName "" || String.eqb backupFile "" then
    fmt_Println "Error: Database name and backup file are required." ;;
    os_Exit 1
  else
    r ← os_OpenFile_append logFile;
    match r with
    | inr err =>
        fmt_Println ("Error: Cannot open log file " +:+ quoted logFile +:+ ": "
                     +:+ error_string err) ;;
        os_Exit 1
    | inl logF =>
        defer (file_Close logF) (
          let logger := log_New logF in
          logger_Printf logger
            ("INFO: Starting restore for database " +:+ quoted dbName +:+ " from "
             +:+ quoted backupFile +:+ ".") ;;
          fmt_Println ("Restoring database " +:+ quoted dbName +:+ " from "
                       +:+ quoted backupFile +:+ "...") ;;
          tempFile ← slice_to backupFile (Z.of_nat (String.length backupFile) - 3);
          err ← decompressFile backupFile tempFile;
          match err with
          | Some e =>
              logger_Printf logger ("ERROR: Decompression failed: " +:+ error_string e) ;;
              fmt_Println "Decompression failed." ;;
              os_Exit 1
          | None =>
              defer (os_Remove tempFile ;; ret tt) (
                let cmd :=
                  exec_Command "pg_restore"
                    ["-U"; dbUser; "-h"; dbHost; "-d"; dbName; "--clean"; tempFile] in
                let cmd := set_streams cmd SinkStdout (SinkFile logF) in
                cmd ← with_password cmd;
                err ← cmd_Run cmd;
                match err with
                | Some e =>
                    logger_Printf logger ("ERROR: Restore failed: " +:+ error_string e) ;;
                    fmt_Println "Restore failed. Check log for details." ;;
                    os_Exit 1
                | None =>
                    logger_Printf logger
                      ("SUCCESS: Restore completed for database " +:+ quoted dbName +:+ ".") ;;
                    fmt_Println "Restore completed successfully."
                end)
          end)
    end.

(** ** Invocations *)






(** ** Vocabulary of the properties *)

(** An entry at [p] with the property [Q]. *)
Definition holds (Q : Node -> Prop) (m : gmap string Node) (p : string) : Prop :=
  exists n, m !! p = Some n /\ Q n.

(** Properties of an entry that creating it and writing to it keep, when
    the kernel stamps the [k]-th reading of the clock, and at any time. *)
Definition stable_at (env : Env) (k : nat) (Q : Node -> Prop) : Prop :=
  Q (new_file (clock env k)) /\
  (forall n data, Q n -> Q (append_node data (clock env k) n)).

Definition stable (env : Env) (Q : Node -> Prop) : Prop :=
  forall k, stable_at env k Q.

(** A directory. *)
Definition directory (n : Node) : Prop := node_mode n = ModeDir.

(** A regular file that can be written and unlinked. *)
Definition plain (n : Node) : Prop :=
  node_mode n = ModeRegular /\ node_immutable n = false.

(** Every entry with a stable property keeps it. *)
Definition grows (env : Env) (m m' : gmap string Node) : Prop :=
  forall Q p, stable env Q -> holds Q m p -> holds Q m' p.

(** A stretch of a run that removes nothing: it adds the events [tr] and
    touches the paths [T] only. *)
Record evolves (env : Env) (w w' : World) (tr : list Event) (T : list string) : Prop := {
  ev_events : events w' = (events w ++ tr)%list;
  ev_grows : grows env (fs w) (fs w');
  ev_frame : forall p, p ∉ T -> fs w' !! p = fs w !! p
}.

(** The two lines the sweep prints. *)
Definition sweep_message (s : string) : Prop :=
  s = "Cleaning up old backups..." +:+ NL \/ s = "Cleanup complete." +:+ NL.

(** The cutoff of a sweep that reads the clock at its [j]-th reading. *)
Definition cutoff_at (env : Env) (retentionDays : Z) (j : nat) : time.Time :=
  time.AddDays (clock env j) (neg_int retentionDays).

(** Invariants of the retention sweep: kept by a reading of the clock, by a
    line of the log, by the two printed lines and by the removal of an entry
    that is not a directory, has the extension [.gz] and was modified before
    the cutoff of a reading already taken. *)
Record sweep_closed (env : Env) (retentionDays : Z) (I : World -> Prop) : Prop := {
  sc_tick : forall w, I w -> I (tick w);
  sc_write : forall w f data,
    I w -> I (set_fs (alter (append_node data (kernel_time env w)) f) w);
  sc_print : forall w s, sweep_message s -> I w -> I (add_event (EvStdout s) w);
  sc_remove : forall w p n j,
    I w -> (j < ticks w)%nat ->
    fs w !! p = Some n -> IsDir (info_of n) = false ->
    filepath.Ext p = ".gz" ->
    time.Before (node_mtime n) (cutoff_at env retentionDays j) = true ->
    I (add_event (EvRemove p (remove_result (fs w) p)) (set_fs (remove_entry p) w))
}.

Definition is_print (e : Event) : Prop :=
  match e with EvStdout _ => True | _ => False end.

Definition sweep_event (e : Event) : Prop :=
  match e with
  | EvStdout s => sweep_message s
  | EvRemove _ _ => True
  | EvExec _ _ => False
  end.

(** None of the readings of the clock up to the [hi]-th is before the cutoff
    a sweep computes from one of them: up to that reading, the process has
    run no longer than the retention period. *)
Definition within_retention (env : Env) (retentionDays : Z) (hi : nat) : Prop :=
  forall i j, (i <= hi)%nat -> (j <= hi)%nat ->
    time.Before (clock env i) (cutoff_at env retentionDays j) = false.

(** An entry no such sweep finds old. *)
Definition young (env : Env) (retentionDays : Z) (hi : nat) (n : Node) : Prop :=
  forall j, (j <= hi)%nat ->
    time.Before (node_mtime n) (cutoff_at env retentionDays j) = false.

(** The child process of a backup. *)
Definition dump_cmd (dbName dbUser dbHost backupFile logFile : string) (cmd : Cmd) : Prop :=
  cmd_name cmd = "pg_dump" /\
  cmd_args cmd = ["-U"; dbUser; "-h"; dbHost; "-Fc"; dbName] /\
  cmd_stdout cmd = SinkFile backupFile /\
  cmd_stderr cmd = SinkFile logFile.

Definition starting_message (dbName : string) : string :=
  ("Starting backup for database " +:+ quoted dbName +:+ "...") +:+ NL.

(** The ways a backup run can go: it stops before the dump is launched, the
    dump fails, the compression fails, or it runs to its end.  Each comes
    with the outcome, the final world and the events of the run. *)
Inductive BackupPath (env : Env) (w : World) (dbName dbUser dbHost logFile : string)
    (retentionDays : Z) (backupFile : string)
  : Outcome unit -> World -> list Event -> Prop :=
| StoppedEarly w' tr :
    Forall is_print tr ->
    (forall p, p <> logFile -> fs w' !! p = fs w !! p) ->
    BackupPath env w dbName dbUser dbHost logFile retentionDays backupFile (Exited 1) w' tr
| DumpFailed w' cmd e s :
    dump_cmd dbName dbUser dbHost backupFile logFile cmd ->
    fs w' !! backupFile = None ->
    (forall p, p <> backupFile -> p <> logFile -> fs w' !! p = fs w !! p) ->
    BackupPath env w dbName dbUser dbHost logFile retentionDays backupFile (Exited 1) w'
      [EvStdout (starting_message dbName); EvExec cmd (Some e); EvStdout s;
       EvRemove backupFile None]
| CompressFailed w' cmd :
    dump_cmd dbName dbUser dbHost backupFile logFile cmd ->
    holds plain (fs w') backupFile ->
    BackupPath env w dbName dbUser dbHost logFile retentionDays backupFile (Exited 1) w'
      [EvStdout (starting_message dbName); EvExec cmd None;
       EvStdout ("Compression failed." +:+ NL)]
| Completed w' cmd tr :
    dump_cmd dbName dbUser dbHost backupFile logFile cmd ->
    fs w' !! backupFile = None ->
    (within_retention env retentionDays (ticks w') ->
     is_Some (fs w' !! compressedFile_of backupFile)) ->
    Forall sweep_event tr ->
    BackupPath env w dbName dbUser dbHost logFile retentionDays backupFile (Ret tt) w'
      ([EvStdout (starting_message dbName); EvExec cmd None; EvRemove backupFile None;
        EvStdout (("Backup successful: " +:+ compressedFile_of backupFile) +:+ NL)] ++ tr).


(** The visit of [path] attempts its removal, once. *)
Definition attempts_removal (w w' : World) (path : string) : Prop :=
  exists err, events w' = (events w ++ [EvRemove path err])%list.

(** [P] holds of the [n] integers from [x] on. *)
Fixpoint all_from (P : Z -> bool) (n : nat) (x : Z) : bool :=
  match n with
  | O => true
  | S k => P x && all_from P k (x + 1)
  end.

(** ** A scenario *)

(** A codec for the examples: the bytes stored as they are between a magic
    number of two bytes and an end mark of one byte. *)
Definition stored_body (data : list byte) : list byte := x1f :: x8b :: data.

Definition stored_trailer (data : list byte) : list byte := [x00].

Definition stored_open (s : list byte) : option Error :=
  match s with
  | [] => Some ErrUnexpectedEOF
  | b1 :: rest =>
      match rest with
      | [] => Some ErrUnexpectedEOF
      | b2 :: _ => if Byte.eqb b1 x1f && Byte.eqb b2 x8b then None else Some ErrHeader
      end
  end.

Fixpoint stored_payload (s : list byte) : list byte * option Error :=
  match s with
  | [] => ([], Some ErrUnexpectedEOF)
  | b :: s' =>
      match s' with
      | [] => if Byte.eqb b x00 then ([], None) else ([b], Some ErrUnexpectedEOF)
      | _ :: _ => let '(p, e) := stored_payload s' in (b :: p, e)
      end
  end.

Definition stored_inflate (s : list byte) : list byte * option Error :=
  match s with
  | _ :: _ :: s' => stored_payload s'
  | _ => ([], Some ErrUnexpectedEOF)
  end.

Definition stored_codec : Codec :=
  mkCodec stored_body stored_trailer stored_open stored_inflate.

(** A clock that starts on 2025-08-09 at 11:42:00 UTC and advances by a
    second at each reading. *)
Definition scenario_clock (i : nat) : time.Time :=
  time.of_unix (1754739720 + Z.of_nat i) 0 0.

(** An environment without password in which [pg_dump] writes four bytes;
    [pg_dump] and [pg_restore] end as given, and so do the writes. *)
Definition scenario_env (dump_err restore_err : option Error)
    (copy : string -> option (nat * Error)) (flush : string -> option Error) : Env :=
  mkEnv scenario_clock (fun _ => "") []
    (fun cmd _ =>
       if String.eqb (cmd_name cmd) "pg_dump"
       then mkProcResult (list_byte_of_string "DUMP") [] dump_err
       else mkProcResult [] [] restore_err)
    stored_codec copy flush (fun _ => None) (fun _ => None).

Definition no_fault {A} (_ : string) : option A := None.

Definition quiet_env : Env := scenario_env None None no_fault no_fault.

Definition last_week : time.Time := time.of_unix (1754739720 - 8 * 86400) 0 0.

Definition empty_world (m : gmap string Node) : World := mkWorld m 0 ∅ [].

(** A backup directory. *)
Definition backup_dir_only : World :=
  empty_world {[ "/b" := mkNode ModeDir [] last_week false ]}.

(** A backup directory with an artifact of the four bytes. *)
Definition with_artifact : World :=
  empty_world
    (<[ "/b/db.dump.gz" :=
          mkNode ModeRegular (stored_body (list_byte_of_string "DUMP") ++ [x00]) last_week false ]>
       {[ "/b" := mkNode ModeDir [] last_week false ]}).

(** A backup directory with a dump of the four bytes. *)
Definition with_dump : World :=
  empty_world
    (<[ "/b/db.dump" := mkNode ModeRegular (list_byte_of_string "DUMP") last_week false ]>
       {[ "/b" := mkNode ModeDir [] last_week false ]}).

(** A symbolic link to the latest artifact, eight days old. *)
Definition latest_link : Node := mkNode ModeSymlink [] last_week false.

Definition with_link : World :=
  empty_world
    (<[ "/b/latest.gz" := latest_link ]> {[ "/b" := mkNode ModeDir [] last_week false ]}).

(** The child process of the backups of the scenario. *)
Definition scenario_dump_cmd (backupFile : string) : Cmd :=
  mkCmd "pg_dump" ["-U"; "postgres"; "-h"; "localhost"; "-Fc"; "db"] None
    (SinkFile backupFile) (SinkFile "/log").

(** The child process of the restores of the scenario. *)
Definition scenario_restore_cmd (tempFile : string) : Cmd :=
  mkCmd "pg_restore"
    ["-U"; "postgres"; "-h"; "localhost"; "-d"; "db"; "--clean"; tempFile] None
    SinkStdout (SinkFile "/log").

(** A backup directory with an artifact cut short: the end mark is missing. *)
Definition with_truncated_artifact : World :=
  empty_world
    (<[ "/b/db.dump.gz" :=
          mkNode ModeRegular (stored_body (list_byte_of_string "DUMP")) last_week false ]>
       {[ "/b" := mkNode ModeDir [] last_week false ]}).

(** [pg_restore] exits with status 1. *)
Definition failing_restore_env : Env :=
  scenario_env None (Some (ExitError 1)) no_fault no_fault.

(** The device is full when a gzip writer is closed. *)
Definition full_at_close_env : Env :=
  scenario_env None None no_fault (fun _ => Some ENOSPC).
(** ** Vocabulary of the runs as a whole *)

(** The environment [cmd.Env] of a child process: that of the parent when
    [PGPASSWORD] is unset or empty ([nil]), and otherwise the parent's
    variables followed by the password (lines 98 to 100 and 164 to 166). *)
Definition child_env (env : Env) : option (list string) :=
  if String.eqb (getenv env "PGPASSWORD") "" then None
  else Some (environ env ++ ["PGPASSWORD=" +:+ getenv env "PGPASSWORD"])%list.

(** The command a backup runs (lines 81 to 100). *)
Definition backup_cmd (env : Env) (dbName dbUser dbHost backupFile logFile : string) : Cmd :=
  mkCmd "pg_dump" ["-U"; dbUser; "-h"; dbHost; "-Fc"; dbName] (child_env env)
    (SinkFile backupFile) (SinkFile logFile).

(** The command a restore runs (lines 153 to 166). *)
Definition restore_cmd (env : Env) (dbName dbUser dbHost tempFile logFile : string) : Cmd :=
  mkCmd "pg_restore" ["-U"; dbUser; "-h"; dbHost; "-d"; dbName; "--clean"; tempFile]
    (child_env env) SinkStdout (SinkFile logFile).

Definition is_exec (e : Event) : Prop :=
  match e with EvExec _ _ => True | _ => False end.

Definition is_remove (e : Event) : Prop :=
  match e with EvRemove _ _ => True | _ => False end.

(** The path a restore decompresses to: the backup file without its last
    three characters (line 144), for a backup file of three characters or
    more. *)
Definition tempFile_of (backupFile : string) : string :=
  String.substring 0 (String.length backupFile - 3) backupFile.

Definition restoring_message (dbName backupFile : string) : string :=
  ("Restoring database " +:+ quoted dbName +:+ " from " +:+ quoted backupFile +:+ "...")
  +:+ NL.

(** The ways a restore run can go: it is refused (an argument is missing or
    the log file cannot be opened), it panics on a backup file that is too
    short, the decompression fails, [pg_restore] fails, or it runs to its
    end.  Each comes with the outcome, the final world and the events of the
    run; [out] is what [pg_restore] prints on the standard output it shares
    with the program. *)
Inductive RestorePath (env : Env) (w : World) (dbName dbUser dbHost backupFile logFile : string)
  : Outcome unit -> World -> list Event -> Prop :=
| RestoreRefused msg :
    RestorePath env w dbName dbUser dbHost backupFile logFile
      (Exited 1) (add_event (EvStdout msg) w) [EvStdout msg]
| RestorePanicked w' :
    (String.length backupFile < 3)%nat ->
    (forall p, p <> logFile -> fs w' !! p = fs w !! p) ->
    RestorePath env w dbName dbUser dbHost backupFile logFile
      (Panicked "slice bounds out of range") w' [EvStdout (restoring_message dbName backupFile)]
| DecompressFailed w' :
    (3 <= String.length backupFile)%nat ->
    (forall p, p <> tempFile_of backupFile -> p <> logFile -> fs w' !! p = fs w !! p) ->
    RestorePath env w dbName dbUser dbHost backupFile logFile
      (Exited 1) w'
      [EvStdout (restoring_message dbName backupFile); EvStdout ("Decompression failed." +:+ NL)]
| RestoreFailed w' e out :
    (3 <= String.length backupFile)%nat ->
    Forall is_print out ->
    holds plain (fs w') (tempFile_of backupFile) ->
    (forall p, p <> tempFile_of backupFile -> p <> logFile -> fs w' !! p = fs w !! p) ->
    RestorePath env w dbName dbUser dbHost backupFile logFile
      (Exited 1) w'
      ([EvStdout (restoring_message dbName backupFile);
        EvExec (restore_cmd env dbName dbUser dbHost (tempFile_of backupFile) logFile) (Some e)]
       ++ out ++ [EvStdout ("Restore failed. Check log for details." +:+ NL)])
| RestoreCompleted w' out :
    (3 <= String.length backupFile)%nat ->
    Forall is_print out ->
    fs w' !! tempFile_of backupFile = None ->
    (forall p, p <> tempFile_of backupFile -> p <> logFile -> fs w' !! p = fs w !! p) ->
    RestorePath env w dbName dbUser dbHost backupFile logFile
      (Ret tt) w'
      ([EvStdout (restoring_message dbName backupFile);
        EvExec (restore_cmd env dbName dbUser dbHost (tempFile_of backupFile) logFile) None]
       ++ out ++ [EvStdout ("Restore completed successfully." +:+ NL);
                  EvRemove (tempFile_of backupFile) None]).

(** Invariants of the walk of a sweep with the cutoff [cutoff] that logs to
    [logger]: kept by a reading of the clock, by a line of the log and by the
    removal of an entry that is not a directory, has the extension [.gz] and
    was modified before the cutoff. *)
Record walk_closed (env : Env) (cutoff : time.Time) (logger : string) (I : World -> Prop)
  : Prop := {
  wc_tick : forall w, I w -> I (tick w);
  wc_log : forall w data,
    I w -> I (set_fs (alter (append_node data (kernel_time env w)) logger) w);
  wc_remove : forall w p n,
    I w -> fs w !! p = Some n -> IsDir (info_of n) = false ->
    filepath.Ext p = ".gz" -> time.Before (node_mtime n) cutoff = true ->
    I (add_event (EvRemove p (remove_result (fs w) p)) (set_fs (remove_entry p) w))
}.

(** The removal of a path with the extension [.gz]. *)
Definition removes_gz (e : Event) : Prop :=
  match e with
  | EvRemove p _ => filepath.Ext p = ".gz"
  | _ => False
  end.


(** ** The command line: [strconv], [flag] and [main] *)

Module strconv.

(** The error of a conversion: [ErrSyntax] or [ErrRange]. *)
Inductive NumError : Type := ErrSyntax | ErrRange.

Definition maxUint64 : Z := 2 ^ 64 - 1.

(** [lower(c)], that is [c | ('x' - 'X')], on the code of a character. *)
Definition lower (c : nat) : nat := Nat.lor c 32.

(** The value of a character as a digit, in any base up to 36. *)
Definition digit_of (c : ascii) : option Z :=
  let n := nat_of_ascii c in
  if (48 <=? n)%nat && (n <=? 57)%nat then Some (Z.of_nat (n - 48))
  else if (97 <=? lower n)%nat && (lower n <=? 122)%nat then Some (Z.of_nat (lower n - 97 + 10))
  else None.

(** The loop of [ParseUint] over the digits, with [cutoff] the smallest
    number whose product with [base] exceeds [maxUint64]; the overflow of the
    64-bit sum is the comparison with [maxUint64].  The result comes with
    whether underscores were met. *)
Fixpoint digits_loop (base0 : bool) (base cutoff : Z) (s : string) (n : Z) (underscores : bool)
  : Z * bool + NumError :=
  match s with
  | EmptyString => inl (n, underscores)
  | String c s' =>
      if Ascii.eqb c "_" && base0 then digits_loop base0 base cutoff s' n true
      else
        match digit_of c with
        | None => inr ErrSyntax
        | Some d =>
            if (base <=? d)%Z then inr ErrSyntax
            else if (cutoff <=? n)%Z then inr ErrRange
            else
              let n1 := (n * base + d)%Z in
              if (maxUint64 <? n1)%Z then inr ErrRange
              else digits_loop base0 base cutoff s' n1 underscores
        end
  end.

(** [underscoreOK]: underscores only between digits, or between a base
    prefix and a digit.  [saw] is the last character seen. *)
Inductive Saw : Type := SawStart | SawDigit | SawUnderscore | SawOther.

Fixpoint underscore_scan (hex : bool) (saw : Saw) (s : string) : bool :=
  match s with
  | EmptyString => match saw with SawUnderscore => false | _ => true end
  | String c s' =>
      let n := nat_of_ascii c in
      if ((48 <=? n)%nat && (n <=? 57)%nat)
         || (hex && (97 <=? lower n)%nat && (lower n <=? 102)%nat)
      then underscore_scan hex SawDigit s'
      else if Ascii.eqb c "_" then
        match saw with
        | SawDigit => underscore_scan hex SawUnderscore s'
        | _ => false
        end
      else
        match saw with
        | SawUnderscore => false
        | _ => underscore_scan hex SawOther s'
        end
  end.

Definition is_prefix_letter (c : ascii) : bool :=
  let l := lower (nat_of_ascii c) in
  (l =? 98)%nat || (l =? 111)%nat || (l =? 120)%nat.

Definition underscoreOK (s : string) : bool :=
  let s :=
    match s with
    | String c rest => if Ascii.eqb c "-" || Ascii.eqb c "+" then rest else s
    | EmptyString => s
    end in
  match s with
  | String c0 (String c1 rest) =>
      if Ascii.eqb c0 "0" && is_prefix_letter c1
      then underscore_scan (lower (nat_of_ascii c1) =? 120)%nat SawDigit rest
      else underscore_scan false SawStart s
  | _ => underscore_scan false SawStart s
  end.

(** [ParseUint(s, 0, 64)]: the base is read off the prefix. *)
Definition ParseUint (s0 : string) : Z + NumError :=
  match s0 with
  | EmptyString => inr ErrSyntax
  | String c0 rest0 =>
      let '(base, s) :=
        if Ascii.eqb c0 "0" then
          match rest0 with
          | String c1 (String c2 rest2) =>
              let l := lower (nat_of_ascii c1) in
              if (l =? 98)%nat then (2%Z, String c2 rest2)
              else if (l =? 111)%nat then (8%Z, String c2 rest2)
              else if (l =? 120)%nat then (16%Z, String c2 rest2)
              else (8%Z, rest0)
          | _ => (8%Z, rest0)
          end
        else (10%Z, s0) in
      match digits_loop true base (maxUint64 / base + 1) s 0 false with
      | inr e => inr e
      | inl (n, underscores) =>
          if underscores && negb (underscoreOK s0) then inr ErrSyntax else inl n
      end
  end.

(** [ParseInt(s, 0, 64)]. *)
Definition ParseInt (s0 : string) : Z + NumError :=
  match s0 with
  | EmptyString => inr ErrSyntax
  | String c rest =>
      let '(neg, s) :=
        if Ascii.eqb c "+" then (false, rest)
        else if Ascii.eqb c "-" then (true, rest)
        else (false, s0) in
      match ParseUint s with
      | inr ErrSyntax => inr ErrSyntax
      | r =>
          let un := match r with inl n => n | inr _ => maxUint64 end in
          if negb neg && (2 ^ 63 <=? un)%Z then inr ErrRange
          else if neg && (2 ^ 63 <? un)%Z then inr ErrRange
          else inl (if neg then - un else un)%Z
      end
  end.

End strconv.

Module flag.

(** The value of a flag; this program defines string and integer flags. *)
Inductive Value : Type :=
| StringValue (s : string)
| IntValue (n : Z).

(** A flag set: the flags defined, by name, with their current values. *)
Definition FlagSet : Type := list (string * Value).

Fixpoint lookup (name : string) (f : FlagSet) : option Value :=
  match f with
  | [] => None
  | (k, v) :: f' => if String.eqb k name then Some v else lookup name f'
  end.

Fixpoint update (name : string) (v : Value) (f : FlagSet) : FlagSet :=
  match f with
  | [] => []
  | (k, v0) :: f' => if String.eqb k name then (k, v) :: f' else (k, v0) :: update name v f'
  end.

(** [Value.Set]: a string is taken as it is, an integer is parsed. *)
Definition Set_ (old : Value) (s : string) : option Value :=
  match old with
  | StringValue _ => Some (StringValue s)
  | IntValue _ =>
      match strconv.ParseInt s with
      | inl n => Some (IntValue n)
      | inr _ => None
      end
  end.

(** What [parseOne] makes of the next argument. *)
Inductive Arg : Type :=
| NotFlag                                        (* the flags end here *)
| Terminator                                     (* [--] *)
| BadSyntax
| FlagArg (name : string) (value : option string).

(** The name up to the first [=] that is not its first character. *)
Fixpoint split_value (name : string) : string * option string :=
  match name with
  | EmptyString => (EmptyString, None)
  | String c rest =>
      if Ascii.eqb c "=" then (EmptyString, Some rest)
      else let '(n, v) := split_value rest in (String c n, v)
  end.

Definition flag_name (name : string) : Arg :=
  match name with
  | EmptyString => BadSyntax
  | String c rest =>
      if Ascii.eqb c "-" || Ascii.eqb c "=" then BadSyntax
      else let '(n, v) := split_value rest in FlagArg (String c n) v
  end.

Definition classify (s : string) : Arg :=
  match s with
  | String c0 (String c1 rest) =>
      if negb (Ascii.eqb c0 "-") then NotFlag
      else if Ascii.eqb c1 "-" then
        match rest with
        | EmptyString => Terminator
        | _ => flag_name rest
        end
      else flag_name (String c1 rest)
  | _ => NotFlag
  end.

(** Why the parsing stops without result: help was asked for, or an
    argument is not accepted. *)
Inductive ParseError : Type := ErrHelp | ErrFailed.

(** [f.Parse(arguments)], one argument or two at a time as [parseOne]
    takes them. *)
Fixpoint Parse (f : FlagSet) (args : list string) : FlagSet + ParseError :=
  match args with
  | [] => inl f
  | s :: rest =>
      match classify s with
      | NotFlag | Terminator => inl f
      | BadSyntax => inr ErrFailed
      | FlagArg name value =>
          match lookup name f with
          | None =>
              if String.eqb name "help" || String.eqb name "h" then inr ErrHelp
              else inr ErrFailed
          | Some old =>
              match value with
              | Some v =>
                  match Set_ old v with
                  | Some new => Parse (update name new f) rest
                  | None => inr ErrFailed
                  end
              | None =>
                  match rest with
                  | [] => inr ErrFailed
                  | v :: rest' =>
                      match Set_ old v with
                      | Some new => Parse (update name new f) rest'
                      | None => inr ErrFailed
                      end
                  end
              end
          end
      end
  end.

(** The value of a string flag and of an integer flag. *)
Definition String_ (f : FlagSet) (name : string) : string :=
  match lookup name f with
  | Some (StringValue s) => s
  | _ => ""
  end.

Definition Int (f : FlagSet) (name : string) : Z :=
  match lookup name f with
  | Some (IntValue n) => n
  | _ => 0%Z
  end.

End flag.

(** [Parse] of a flag set made with [flag.ExitOnError]: the process exits
    with status 0 when help is asked for and with status 2 when an argument
    is not accepted.  What the package then writes on the standard error is
    not part of the events. *)
Definition flag_Parse (f : flag.FlagSet) (args : list string) : M flag.FlagSet :=
  fun _ w =>
    match flag.Parse f args with
    | inl f' => (Ret f', w)
    | inr flag.ErrHelp => (Exited 0, w)
    | inr flag.ErrFailed => (Exited 2, w)
    end.

Definition usage : string := "Usage: pgtool <backup|restore> [options]".

(** The flags of the two commands, with their defaults (lines 24 to 29 and
    36 to 40). *)
Definition backup_flags : flag.FlagSet :=
  [("db", flag.StringValue "");
   ("user", flag.StringValue "postgres");
   ("host", flag.StringValue "localhost");
   ("backup-dir", flag.StringValue "/var/backups/postgresql");
   ("log-file", flag.StringValue "/var/log/postgres_backup.log");
   ("retention", flag.IntValue 7)].

Definition restore_flags : flag.FlagSet :=
  [("db", flag.StringValue "");
   ("user", flag.StringValue "postgres");
   ("host", flag.StringValue "localhost");
   ("file", flag.StringValue "");
   ("log-file", flag.StringValue "/var/log/postgres_backup.log")].

(** [main], on [os.Args]. *)
Definition main (args : list string) : M unit :=
  match args with
  | [] | [_] =>
      fmt_Println usage ;;
      os_Exit 1
  | _ :: command :: rest =>
      if String.eqb command "backup" then
        f ← flag_Parse backup_flags rest;
        runBackup (flag.String_ f "db") (flag.String_ f "user") (flag.String_ f "host")
          (flag.String_ f "backup-dir") (flag.String_ f "log-file") (flag.Int f "retention")
      else if String.eqb command "restore" then
        f ← flag_Parse restore_flags rest;
        runRestore (flag.String_ f "db") (flag.String_ f "user") (flag.String_ f "host")
          (flag.String_ f "file") (flag.String_ f "log-file")
      else
        fmt_Println ("Unknown command: " +:+ command) ;;
        fmt_Println usage ;;
        os_Exit 1
  end.

(** * Properties *)

(** ** Strings and time stamps *)

Lemma length_append s1 s2 :
  String.length (s1 +:+ s2) = (String.length s1 + String.length s2)%nat.
Proof. induction s1 as [|c s1 IH]; simpl; [done|]. by rewrite IH. Qed.

Lemma append_empty_r s : s +:+ "" = s.
Proof.
  induction s as [|c s IH]; [done|].
  change (String c s +:+ "") with (String c (s +:+ "")). by rewrite IH.
Qed.

Lemma append_neq_self s suffix : suffix <> "" -> s +:+ suffix <> s.
Proof.
  intros Hs Heq. apply (f_equal String.length) in Heq. rewrite length_append in Heq.
  destruct suffix; [done|]. simpl in Heq. lia.
Qed.

Lemma compressedFile_neq backupFile : compressedFile_of backupFile <> backupFile.
Proof. by apply append_neq_self. Qed.




Section Calendar.
Local Open Scope Z_scope.

Lemma civil_month_day_range days :
  let '(y, m, d) := time.civil_from_days days in 1 <= m <= 12 /\ 1 <= d <= 31.
Proof.
  unfold time.civil_from_days.
  set (z := days + 719468).
  set (era := z / 146097).
  set (doe := z - era * 146097).
  set (yoe := (doe - doe / 1460 + doe / 36524 - doe / 146096) / 365).
  set (doy := doe - (365 * yoe + yoe / 4 - yoe / 100)).
  set (mp := (5 * doy + 2) / 153).
  assert (Hdoe : 0 <= doe <= 146096).
  { subst doe era. pose proof (Z.mod_pos_bound z 146097 ltac:(lia)) as H.
    rewrite Z.mod_eq in H by lia. lia. }
  clearbody doe. clear era z.
  assert (Hdoy : 0 <= doy <= 365).
  { subst doy yoe. Z.to_euclidean_division_equations; lia. }
  clearbody doy. clear yoe.
  assert (Hmp : 0 <= mp <= 11).
  { subst mp. Z.to_euclidean_division_equations; lia. }
  split.
  - destruct (mp <? 10) eqn:E; [apply Z.ltb_lt in E|apply Z.ltb_ge in E]; lia.
  - subst mp. Z.to_euclidean_division_equations; lia.
Qed.

Lemma Month_range t : 1 <= time.Month t <= 12.
Proof.
  unfold time.Month.
  pose proof (civil_month_day_range (time.local_seconds t / time.secondsPerDay)) as H.
  destruct (time.civil_from_days _) as [[y m] d]. cbn. lia.
Qed.

Lemma Day_range t : 1 <= time.Day t <= 31.
Proof.
  unfold time.Day.
  pose proof (civil_month_day_range (time.local_seconds t / time.secondsPerDay)) as H.
  destruct (time.civil_from_days _) as [[y m] d]. cbn. lia.
Qed.

Lemma Hour_range t : 0 <= time.Hour t <= 23.
Proof. unfold time.Hour, time.secondsPerDay. Z.to_euclidean_division_equations; lia. Qed.

Lemma Minute_range t : 0 <= time.Minute t <= 59.
Proof. unfold time.Minute. Z.to_euclidean_division_equations; lia. Qed.

Lemma Second_range t : 0 <= time.Second t <= 59.
Proof. unfold time.Second. Z.to_euclidean_division_equations; lia. Qed.

Lemma all_from_spec P n x y :
  all_from P n x = true -> x <= y < x + Z.of_nat n -> P y = true.
Proof.
  revert x. induction n as [|n IH]; intros x H Hy; [lia|].
  cbn [all_from] in H. apply andb_true_iff in H as [H1 H2].
  destruct (decide (y = x)) as [->|Hne]; [done|]. apply (IH (x + 1)); [done|lia].
Qed.

Lemma appendInt_two_digits x : 0 <= x <= 99 -> time.appendInt x 2 = time.two_digits x.
Proof.
  intros Hx. apply String.eqb_eq.
  apply (all_from_spec (fun n => String.eqb (time.appendInt n 2) (time.two_digits n))
           (Z.to_nat 100) 0); [vm_compute; reflexivity | lia].
Qed.

Lemma appendInt_four_digits x : 0 <= x <= 9999 -> time.appendInt x 4 = time.four_digits x.
Proof.
  intros Hx. apply String.eqb_eq.
  apply (all_from_spec (fun n => String.eqb (time.appendInt n 4) (time.four_digits n))
           (Z.to_nat 10000) 0); [vm_compute; reflexivity | lia].
Qed.

(** The layout of the backup names read chunk by chunk. *)
Lemma Format_backup_layout t :
  time.Format t "2006-01-02_150405"
  = time.appendInt (time.Year t) 4 +:+ "-" +:+ time.appendInt (time.Month t) 2 +:+ "-"
    +:+ time.appendInt (time.Day t) 2 +:+ "_" +:+ time.appendInt (time.Hour t) 2
    +:+ time.appendInt (time.Minute t) 2 +:+ time.appendInt (time.Second t) 2 +:+ "".
Proof.
  cbv - [time.appendInt time.Year time.Month time.Day time.Hour time.Minute time.Second
         String.append].
  reflexivity.
Qed.

Lemma Format_is_stamp t :
  0 <= time.Year t <= 9999 ->
  time.Format t "2006-01-02_150405" = time.stamp_YYYY_MM_DD_HHMMSS t.
Proof.
  intros Hy. rewrite Format_backup_layout, append_empty_r.
  unfold time.stamp_YYYY_MM_DD_HHMMSS.
  pose proof (Month_range t). pose proof (Day_range t). pose proof (Hour_range t).
  pose proof (Minute_range t). pose proof (Second_range t).
  rewrite appendInt_four_digits by done. rewrite !appendInt_two_digits by lia. reflexivity.
Qed.

End Calendar.

(** ** Running the program step by step *)

Arguments String.append : simpl never.
Arguments String.eqb : simpl never.
Arguments String.length : simpl never.
Arguments String.substring : simpl never.
Arguments list_byte_of_string : simpl never.
Arguments string_of_list_byte : simpl never.
Arguments time.Format : simpl never.
Arguments time.appendInt : simpl never.
Arguments time.AddDays : simpl never.
Arguments filepath.Join : simpl never.
Arguments backupFile_at : simpl never.
Arguments compressedFile_of : simpl never.
Arguments neg_int : simpl never.
Arguments stat_error : simpl never.
Arguments write_error : simpl never.
Arguments open_error : simpl never.
Arguments remove_result : simpl never.
Arguments remove_entry : simpl never.
Arguments create_missing : simpl never.
Arguments new_file : simpl never.
Arguments append_node : simpl never.
Arguments kernel_time : simpl never.

Section Steps.
Context {B : Type} (env : Env) (w : World).

Lemma step_bind {A} (m : M A) (k : A -> M B) a w' :
  m env w = (Ret a, w') -> bind m k env w = k a env w'.
Proof. intros H. unfold bind. by rewrite H. Qed.

Lemma step_OpenFile_ok path (k : File + Error -> M B) :
  write_error (fs w) path = None ->
  bind (os_OpenFile_append path) k env w
  = k (inl path) env (set_fs (create_missing path (new_file (kernel_time env w))) w).
Proof. intros H. unfold bind, os_OpenFile_append. by rewrite H. Qed.

Lemma step_OpenFile_err path e (k : File + Error -> M B) :
  write_error (fs w) path = Some e ->
  bind (os_OpenFile_append path) k env w = k (inr e) env w.
Proof. intros H. unfold bind, os_OpenFile_append. by rewrite H. Qed.

Lemma step_Create_ok path (k : File + Error -> M B) :
  write_error (fs w) path = None ->
  bind (os_Create path) k env w
  = k (inl path) env (set_fs (insert path (new_file (kernel_time env w))) w).
Proof. intros H. unfold bind, os_Create. by rewrite H. Qed.

Lemma step_Create_err path e (k : File + Error -> M B) :
  write_error (fs w) path = Some e ->
  bind (os_Create path) k env w = k (inr e) env w.
Proof. intros H. unfold bind, os_Create. by rewrite H. Qed.

Lemma step_Open_ok path (k : File + Error -> M B) :
  open_error (fs w) path = None ->
  bind (os_Open path) k env w = k (inl path) env w.
Proof. intros H. unfold bind, os_Open. by rewrite H. Qed.

Lemma step_Open_err path e (k : File + Error -> M B) :
  open_error (fs w) path = Some e ->
  bind (os_Open path) k env w = k (inr e) env w.
Proof. intros H. unfold bind, os_Open. by rewrite H. Qed.

End Steps.

Tactic Notation "run_step" constr(H) "as" ident(w) ident(He) :=
  let Hr := fresh "Hrun" in
  destruct H as (w & Hr & He); rewrite (step_bind _ _ _ _ _ _ Hr); clear Hr.

Lemma defer_run {A} (d : M unit) (body : M A) env w :
  defer d body env w =
    match body env w with
    | (Exited c, w') => (Exited c, w')
    | (Ret a, w') =>
        match d env w' with
        | (Ret _, w'') => (Ret a, w'')
        | (Exited c, w'') => (Exited c, w'')
        | (Panicked msg, w'') => (Panicked msg, w'')
        end
    | (Panicked msg, w') =>
        match d env w' with
        | (Exited c, w'') => (Exited c, w'')
        | (_, w'') => (Panicked msg, w'')
        end
    end.
Proof. reflexivity. Qed.

(** Closing a file changes nothing the model keeps. *)
Lemma defer_Close {A} f (body : M A) env w :
  defer (file_Close f) body env w = body env w.
Proof. unfold defer. destruct (body env w) as [[a|c|msg] w']; reflexivity. Qed.

Lemma with_password_run cmd env w :
  exists cmd', with_password cmd env w = (Ret cmd', w) /\
    cmd_name cmd' = cmd_name cmd /\ cmd_stdout cmd' = cmd_stdout cmd /\
    cmd_stderr cmd' = cmd_stderr cmd /\ cmd_args cmd' = cmd_args cmd.
Proof. unfold with_password. cbn. destruct (negb _); cbn; eauto 10. Qed.

Lemma logger_Printf_run logger msg env w :
  exists data, logger_Printf logger msg env w
  = (Ret tt, set_fs (alter (append_node data (kernel_time env (tick w))) logger) (tick w)).
Proof. eexists. reflexivity. Qed.

(** ** Entries and their properties *)

Lemma stable_plain env : stable env plain.
Proof. intros k. split; [done|]. by intros n data [??]. Qed.

(** What the kernel stamps within the retention period is young. *)
Lemma stable_at_young env retentionDays hi k :
  within_retention env retentionDays hi -> (k <= hi)%nat ->
  stable_at env k (young env retentionDays hi).
Proof. intros H Hk. split; [intros j Hj | intros n data _ j Hj]; by apply H. Qed.

Section Holds.
Context (env : Env) (Q : Node -> Prop) (i : nat) (HQ : stable_at env i Q).

Lemma holds_insert_eq m p : holds Q (<[p := new_file (clock env i)]> m) p.
Proof. exists (new_file (clock env i)). split; [apply lookup_insert_eq | apply HQ]. Qed.

Lemma holds_insert m p q :
  holds Q m q -> holds Q (<[p := new_file (clock env i)]> m) q.
Proof.
  intros [n [Hn Hq]]. destruct (decide (p = q)) as [->|Hne].
  - apply holds_insert_eq.
  - exists n. by rewrite lookup_insert_ne.
Qed.

Lemma holds_alter m p q data :
  holds Q m q -> holds Q (alter (append_node data (clock env i)) p m) q.
Proof.
  intros [n [Hn Hq]]. destruct (decide (p = q)) as [->|Hne].
  - exists (append_node data (clock env i) n). split; [|by apply HQ].
    by rewrite lookup_alter_eq, Hn.
  - exists n. by rewrite lookup_alter_ne.
Qed.

Lemma holds_create_missing m p q :
  holds Q m q -> holds Q (create_missing p (new_file (clock env i)) m) q.
Proof.
  intros H. unfold create_missing. destruct (m !! p); [done|]. by apply holds_insert.
Qed.

End Holds.

Lemma holds_remove_entry_ne (Q : Node -> Prop) m p q :
  p <> q -> holds Q m q -> holds Q (remove_entry p m) q.
Proof.
  intros Hne [n [Hn Hq]]. unfold remove_entry. destruct (remove_result m p); [by exists n|].
  exists n. by rewrite lookup_delete_ne.
Qed.

Lemma holds_is_Some Q m p : holds Q m p -> is_Some (m !! p).
Proof. intros [n [-> _]]. eauto. Qed.

Lemma write_error_nonempty m p : write_error m p = None -> p <> "".
Proof. unfold write_error. intros H ->. done. Qed.

Lemma plain_remove_result m p : holds plain m p -> remove_result m p = None.
Proof. intros [n [Hn [Hm Hi]]]. unfold remove_result. by rewrite Hn, Hi, Hm. Qed.

Lemma plain_remove_entry m p : holds plain m p -> remove_entry p m = delete p m.
Proof. intros H. unfold remove_entry. by rewrite plain_remove_result. Qed.

Lemma os_Remove_plain p env w :
  holds plain (fs w) p ->
  os_Remove p env w = (Ret None, add_event (EvRemove p None) (set_fs (delete p) w)).
Proof.
  intros H. unfold os_Remove. rewrite (plain_remove_result _ _ H).
  unfold set_fs. by rewrite (plain_remove_entry _ _ H).
Qed.

Lemma lookup_create_missing_ne m p q n : p <> q -> create_missing p n m !! q = m !! q.
Proof.
  intros H. unfold create_missing. destruct (m !! p); [done|]. by rewrite lookup_insert_ne.
Qed.

Lemma lookup_remove_entry_None m p q : m !! q = None -> remove_entry p m !! q = None.
Proof.
  intros H. unfold remove_entry. destruct (remove_result m p); [done|].
  rewrite lookup_delete. by case_decide.
Qed.

Lemma lookup_alter_None {A} (f : A -> A) (m : gmap string A) p q :
  m !! q = None -> alter f p m !! q = None.
Proof. intros H. rewrite lookup_alter. case_decide; subst; by rewrite ?H. Qed.

Lemma grows_refl env m : grows env m m.
Proof. by intros Q p. Qed.

Lemma grows_trans env m1 m2 m3 : grows env m1 m2 -> grows env m2 m3 -> grows env m1 m3.
Proof. intros H1 H2 Q p HQ H. eauto. Qed.

Lemma grows_insert env m p i : grows env m (<[p := new_file (clock env i)]> m).
Proof. intros Q q HQ H. by eapply holds_insert. Qed.

Lemma grows_alter env m p data i : grows env m (alter (append_node data (clock env i)) p m).
Proof. intros Q q HQ H. by eapply holds_alter. Qed.

Lemma grows_create_missing env m p i :
  grows env m (create_missing p (new_file (clock env i)) m).
Proof. intros Q q HQ H. by eapply holds_create_missing. Qed.

(** ** Stretches of a run that remove nothing *)

Ltac untouched :=
  rewrite ?not_elem_of_app, ?not_elem_of_cons in *;
  repeat split; first [apply not_elem_of_nil | tauto | congruence].

Lemma evolves_seq env w1 w2 w3 tr1 tr2 T1 T2 tr T :
  evolves env w1 w2 tr1 T1 -> evolves env w2 w3 tr2 T2 ->
  tr = (tr1 ++ tr2)%list -> T = (T1 ++ T2)%list ->
  evolves env w1 w3 tr T.
Proof.
  intros [E1 G1 F1] [E2 G2 F2] -> ->. split.
  - by rewrite E2, E1, app_assoc.
  - by eapply grows_trans.
  - intros p Hp. apply not_elem_of_app in Hp as [Hp1 Hp2]. by rewrite F2, F1.
Qed.

Lemma evolves_tick env w : evolves env w (tick w) [] [].
Proof. split; cbn; [by rewrite app_nil_r | apply grows_refl | done]. Qed.

Lemma evolves_event env w e : evolves env w (add_event e w) [e] [].
Proof. split; cbn; [done | apply grows_refl | done]. Qed.

Lemma evolves_write env w f data :
  evolves env w (set_fs (alter (append_node data (kernel_time env w)) f) w) [] [f].
Proof.
  split; cbn.
  - by rewrite app_nil_r.
  - apply grows_alter.
  - intros p Hp. apply lookup_alter_ne. intros ->. apply Hp, list_elem_of_here.
Qed.

Lemma evolves_create_missing env w p :
  evolves env w (set_fs (create_missing p (new_file (kernel_time env w))) w) [] [p].
Proof.
  split; cbn.
  - by rewrite app_nil_r.
  - apply grows_create_missing.
  - intros q Hq. apply lookup_create_missing_ne. intros ->. apply Hq, list_elem_of_here.
Qed.

Lemma evolves_create env w p :
  evolves env w (set_fs (insert p (new_file (kernel_time env w))) w) [] [p].
Proof.
  split; cbn.
  - by rewrite app_nil_r.
  - apply grows_insert.
  - intros q Hq. apply lookup_insert_ne. intros ->. apply Hq, list_elem_of_here.
Qed.

Lemma logger_Printf_evolves logger msg env w :
  exists w', logger_Printf logger msg env w = (Ret tt, w') /\ evolves env w w' [] [logger].
Proof.
  destruct (logger_Printf_run logger msg env w) as [data ->]. eexists. split; [done|].
  eapply evolves_seq; [apply evolves_tick | apply evolves_write | done..].
Qed.

Lemma fmt_Println_evolves s env w :
  exists w', fmt_Println s env w = (Ret tt, w') /\ evolves env w w' [EvStdout (s +:+ NL)] [].
Proof. eexists. split; [reflexivity|]. apply evolves_event. Qed.

Lemma write_sink_file_evolves f data env w :
  exists w', write_sink (SinkFile f) data env w = (Ret tt, w') /\ evolves env w w' [] [f].
Proof.
  destruct data; cbn.
  - eexists. split; [done|]. split; cbn; [by rewrite app_nil_r | apply grows_refl | done].
  - eexists. split; [done|]. apply evolves_write.
Qed.

Lemma cmd_Run_evolves cmd f1 f2 env w :
  cmd_stdout cmd = SinkFile f1 -> cmd_stderr cmd = SinkFile f2 ->
  exists w', cmd_Run cmd env w = (Ret (proc_err (run_program env cmd (fs w))), w') /\
    evolves env w w' [EvExec cmd (proc_err (run_program env cmd (fs w)))] [f1; f2].
Proof.
  intros H1 H2. unfold cmd_Run. rewrite H1, H2. cbv zeta.
  set (r := run_program env cmd (fs w)).
  destruct (write_sink_file_evolves f1 (proc_stdout r) env
              (add_event (EvExec cmd (proc_err r)) w)) as [w1 [Hr1 He1]].
  destruct (write_sink_file_evolves f2 (proc_stderr r) env w1) as [w2 [Hr2 He2]].
  unfold bind. rewrite Hr1, Hr2. eexists. split; [done|].
  eapply evolves_seq; [apply evolves_event| |done..].
  eapply evolves_seq; [exact He1|exact He2|done..].
Qed.

(** ** [compressFile] *)

(** Whatever happens, [compressFile] returns; it prints and launches
    nothing, removes nothing, does not read the clock and touches its
    destination only.  When it returns no error the destination is a file
    just written. *)
Lemma compressFile_evolves src dst env w :
  exists r w', compressFile src dst env w = (Ret r, w') /\
    evolves env w w' [] [dst] /\
    ticks w' = ticks w /\
    (r = None -> forall Q, stable_at env (ticks w) Q -> holds Q (fs w') dst).
Proof.
  assert (Hframe : forall (m : gmap string Node) n, forall p, p ∉ [dst] -> <[dst := n]> m !! p = m !! p).
  { intros m n p Hp. apply lookup_insert_ne. intros ->. apply Hp, list_elem_of_here. }
  assert (Hframe' : forall (m : gmap string Node) f, forall p, p ∉ [dst] -> alter f dst m !! p = m !! p).
  { intros m f p Hp. apply lookup_alter_ne. intros ->. apply Hp, list_elem_of_here. }
  unfold compressFile.
  destruct (open_error (fs w) src) as [e|] eqn:Ho.
  { rewrite (step_Open_err _ _ _ e) by done. cbn. exists (Some e), w.
    split_and!; [done| |done..]. split; [by rewrite app_nil_r|apply grows_refl|done]. }
  rewrite step_Open_ok by done. rewrite defer_Close.
  destruct (write_error (fs w) dst) as [e|] eqn:Hw.
  { rewrite (step_Create_err _ _ _ e) by done. cbn. exists (Some e), w.
    split_and!; [done| |done..]. split; [by rewrite app_nil_r|apply grows_refl|done]. }
  rewrite step_Create_ok by done. rewrite defer_Close.
  unfold gzip_NewWriter, bind at 1. cbn [set_gzw set_fs fs ticks gzw events].
  rewrite defer_run. unfold io_Copy_to_gzip.
  match goal with |- context [read_all src ?W] => destruct (read_all src W) as [data|e] eqn:Hr end.
  2: { unfold bind at 1, gzip_Writer_Close. cbn. rewrite lookup_insert_eq.
       destruct (flush_fault env dst) as [e'|] eqn:Hf; cbn.
       - eexists _, _. split; [reflexivity|]. split_and!; [|done..]. split; cbn.
         + by rewrite app_nil_r.
         + apply grows_insert.
         + apply Hframe.
       - eexists _, _. split; [reflexivity|]. split_and!; [|done..]. split; cbn.
         + by rewrite app_nil_r.
         + eapply grows_trans; [apply grows_insert | apply grows_alter].
         + intros p Hp. by rewrite Hframe', Hframe. }
  destruct (copy_fault env dst) as [[n e]|] eqn:Hc.
  - cbn. unfold gzip_Writer_Close, bind. cbn. rewrite lookup_insert_eq. cbn.
    eexists _, _. split; [reflexivity|]. split_and!; [|done..]. split; cbn.
    + by rewrite app_nil_r.
    + eapply grows_trans; [apply grows_insert | apply grows_alter].
    + intros p Hp. by rewrite Hframe', Hframe.
  - cbn. unfold gzip_Writer_Close, bind. cbn. rewrite lookup_insert_eq. cbn.
    destruct (flush_fault env dst) as [e'|] eqn:Hf; cbn.
    + eexists _, _. split; [reflexivity|]. split_and!; [split; cbn| |].
      * by rewrite app_nil_r.
      * eapply grows_trans; [apply grows_insert | apply grows_alter].
      * intros p Hp. by rewrite Hframe', Hframe.
      * done.
      * intros _ Q HQ. cbn. eapply holds_alter; [exact HQ|]. by apply holds_insert_eq.
    + eexists _, _. split; [reflexivity|]. split_and!; [split; cbn| |].
      * by rewrite app_nil_r.
      * eapply grows_trans; [apply grows_insert |].
        eapply grows_trans; apply grows_alter.
      * intros p Hp. by rewrite !Hframe', Hframe.
      * done.
      * intros _ Q HQ. cbn. eapply holds_alter; [exact HQ|]. eapply holds_alter; [exact HQ|].
        by apply holds_insert_eq.
Qed.

(** ** The retention sweep *)

Lemma sweep_closed_and env retentionDays (I J : World -> Prop) :
  sweep_closed env retentionDays I -> sweep_closed env retentionDays J ->
  sweep_closed env retentionDays (fun w => I w /\ J w).
Proof.
  intros HI HJ. split.
  - intros w [??]. split; by eapply sc_tick.
  - intros w f data [??]. split; by eapply sc_write.
  - intros w s ? [??]. split; by eapply sc_print.
  - intros w p n j [??] ?????. split; by eapply sc_remove.
Qed.

Lemma sweep_closed_impl env retentionDays (P : Prop) I :
  (P -> sweep_closed env retentionDays I) -> sweep_closed env retentionDays (fun w => P -> I w).
Proof.
  intros H. split; intros.
  - eapply sc_tick; eauto.
  - eapply sc_write; eauto.
  - eapply sc_print; eauto.
  - eapply sc_remove; eauto.
Qed.

Lemma sweep_closed_forall {A} env retentionDays (I : A -> World -> Prop) :
  (forall x, sweep_closed env retentionDays (I x)) ->
  sweep_closed env retentionDays (fun w => forall x, I x w).
Proof.
  intros H. split; intros.
  - eapply sc_tick; eauto.
  - eapply sc_write; eauto.
  - eapply sc_print; eauto.
  - eapply sc_remove; eauto.
Qed.

(** What is absent stays absent. *)
Lemma sweep_closed_absent env retentionDays p :
  sweep_closed env retentionDays (fun w => fs w !! p = None).
Proof.
  split; cbn.
  - by intros w H.
  - intros w f data H. by apply lookup_alter_None.
  - by intros w s _ H.
  - intros w q n j H _ _ _ _ _. by apply lookup_remove_entry_None.
Qed.

(** A reading of the clock that was taken stays taken. *)
Lemma sweep_closed_ticks env retentionDays j :
  sweep_closed env retentionDays (fun w => (j < ticks w)%nat).
Proof. split; cbn; intros; lia. Qed.

(** As long as the process has run no longer than the retention period, a
    file it has written stays. *)
Lemma sweep_closed_young env retentionDays hi p :
  within_retention env retentionDays hi ->
  sweep_closed env retentionDays
    (fun w => (ticks w <= hi)%nat -> holds (young env retentionDays hi) (fs w) p).
Proof.
  intros Hp. split; cbn.
  - intros w H Hle. apply H. lia.
  - intros w f data H Hle. eapply holds_alter; [by apply stable_at_young|by apply H].
  - by intros w s _ H.
  - intros w q n j H Hj Hn _ _ Hb Hle. eapply holds_remove_entry_ne; [|by apply H].
    intros ->. destruct (H Hle) as (n' & Hn' & Hy). assert (n' = n) as -> by congruence.
    rewrite Hy in Hb; [done|lia].
Qed.

(** The sweep prints its two lines and removes; it launches nothing. *)
Lemma sweep_closed_events env retentionDays ev0 :
  sweep_closed env retentionDays
    (fun w => exists tr, events w = (ev0 ++ tr)%list /\ Forall sweep_event tr).
Proof.
  split; cbn.
  - by intros w H.
  - by intros w f data H.
  - intros w s Hs (tr & -> & Htr). exists (tr ++ [EvStdout s])%list.
    split; [by rewrite app_assoc|]. apply Forall_app. split; [done|].
    constructor; [exact Hs|constructor].
  - intros w p n j (tr & -> & Htr) _ _ _ _ _.
    exists (tr ++ [EvRemove p (remove_result (fs w) p)])%list.
    split; [by rewrite app_assoc|]. apply Forall_app. split; [done|].
    constructor; [exact Logic.I|constructor].
Qed.

Section Sweep.
Context (env : Env) (retentionDays : Z) (j : nat) (I : World -> Prop) (logger : string).
Hypothesis HI : sweep_closed env retentionDays I.
Hypothesis Hj : forall w, I w -> (j < ticks w)%nat.

Lemma logger_Printf_closed msg w :
  I w -> exists w', logger_Printf logger msg env w = (Ret tt, w') /\ I w'.
Proof.
  intros Hw. destruct (logger_Printf_run logger msg env w) as [data ->].
  eexists. split; [done|]. eapply sc_write; [done|]. by eapply sc_tick.
Qed.

(** A visit by the walk of the sweep that read the clock at its [j]-th
    reading: with an error, or with the entry found at [p]. *)
Lemma visit_closed p info err w :
  I w ->
  (err = None -> exists n, info = Some (info_of n) /\ fs w !! p = Some n) ->
  exists r w',
    cleanupOldBackups_visit (cutoff_at env retentionDays j) logger p info err env w
    = (Ret r, w') /\ I w'.
Proof.
  intros Hw Hinfo. unfold cleanupOldBackups_visit.
  destruct err as [e|]; [by eexists _, _|].
  destruct Hinfo as [n [-> Hn]]; [done|].
  destruct (negb (IsDir (info_of n))) eqn:Hd; cbn [andb]; [|by eexists _, _].
  destruct (String.eqb_spec (filepath.Ext p) ".gz") as [Hext|]; [|by eexists _, _].
  destruct (time.Before (ModTime (info_of n)) (cutoff_at env retentionDays j)) eqn:Hb;
    [|by eexists _, _].
  apply negb_true_iff in Hd.
  pose proof (sc_remove _ _ _ HI w p n j Hw (Hj w Hw) Hn Hd Hext Hb) as Hrm.
  unfold bind at 1. unfold os_Remove at 1. cbv beta iota.
  destruct (remove_result (fs w) p) as [e|].
  - edestruct logger_Printf_closed as [w' [Hrun Hw']]; [exact Hrm|].
    unfold bind. rewrite Hrun. by eexists _, _.
  - edestruct logger_Printf_closed as [w' [Hrun Hw']]; [exact Hrm|].
    unfold bind. rewrite Hrun. by eexists _, _.
Qed.

Lemma walk_loop_closed paths :
  forall skipped w, I w ->
  exists r w',
    walk_loop (cleanupOldBackups_visit (cutoff_at env retentionDays j) logger)
      skipped paths env w = (Ret r, w') /\ I w'.
Proof.
  induction paths as [|p rest IH]; intros skipped w Hw.
  { by eexists _, _. }
  cbn [walk_loop]. destruct (existsb _ skipped); [by apply IH|].
  assert (Hgo : forall info err skipped',
    (err = None -> exists n, info = Some (info_of n) /\ fs w !! p = Some n) ->
    exists r w',
      bind (cleanupOldBackups_visit (cutoff_at env retentionDays j) logger p info err)
        (fun r => match r with
                  | Some e' => ret (Some e')
                  | None =>
                      walk_loop (cleanupOldBackups_visit (cutoff_at env retentionDays j) logger)
                        skipped' rest
                  end) env w = (Ret r, w') /\ I w').
  { intros info err skipped' Hinfo.
    destruct (visit_closed p info err w Hw Hinfo) as (r & w1 & Hrun & Hw1).
    unfold bind. rewrite Hrun. destruct r; [by eexists _, _|by apply IH]. }
  destruct (lstat_fault env p) as [e|] eqn:Hl; [by apply Hgo|].
  destruct (fs w !! p) as [n|] eqn:Hn; [|by apply Hgo].
  destruct (IsDir (info_of n)) eqn:Hd; apply Hgo; eauto.
Qed.

End Sweep.

(** The sweep returns, and keeps what its removals keep. *)
Lemma cleanupOldBackups_closed env I backupDir retentionDays logger w :
  sweep_closed env retentionDays I ->
  I w ->
  exists w', cleanupOldBackups backupDir retentionDays logger env w = (Ret tt, w') /\ I w'.
Proof.
  intros HI Hw. unfold cleanupOldBackups.
  destruct (logger_Printf_closed env retentionDays I logger HI
              ("INFO: Cleaning up backups older than " +:+ time.appendInt retentionDays 0
               +:+ " days.") w Hw) as [w1 [Hrun1 Hw1]].
  rewrite (step_bind _ _ _ _ _ _ Hrun1).
  unfold bind at 1. cbn [fmt_Println fmt_Print]. unfold bind at 1. cbn [time_Now].
  set (w2 := add_event _ w1).
  set (I' := fun v => I v /\ (ticks w2 < ticks v)%nat).
  assert (HI' : sweep_closed env retentionDays I')
    by (apply sweep_closed_and; [done|apply sweep_closed_ticks]).
  assert (Hw2 : I' (tick w2)).
  { split; [|cbn; lia]. eapply sc_tick; [done|]. eapply sc_print; [done|by left|done]. }
  unfold filepath_Walk, bind at 1.
  match goal with |- context [walk_loop ?fn ?sk ?ps env ?W] =>
    assert (Hwalk : exists r w3, walk_loop fn sk ps env W = (Ret r, w3) /\ I' w3)
      by (apply (walk_loop_closed env retentionDays (ticks w2) I' logger HI'
                   (fun v Hv => proj2 Hv) ps sk W Hw2))
  end.
  destruct Hwalk as (r & w3 & Hrun3 & [Hw3 _]). rewrite Hrun3.
  destruct (logger_Printf_closed env retentionDays I logger HI "SUCCESS: Cleanup complete."
              w3 Hw3) as [w4 [Hrun4 Hw4]].
  unfold logger_Println. rewrite (step_bind _ _ _ _ _ _ Hrun4).
  eexists. split; [reflexivity|]. eapply sc_print; [done|by right|done].
Qed.

(** ** The paths of a backup run *)

Lemma with_password_child_env name args out err env w :
  with_password (mkCmd name args None out err) env w
  = (Ret (mkCmd name args (child_env env) out err), w).
Proof.
  unfold with_password, child_env, bind, os_Getenv, os_Environ, ret. cbn.
  by destruct (String.eqb (getenv env "PGPASSWORD") "").
Qed.

(** No process is launched in a stretch that only prints, or only prints
    and removes. *)
Lemma prints_launch_nothing tr (P : Prop) cmd err :
  Forall is_print tr -> In (EvExec cmd err) tr -> P.
Proof.
  intros H Hin. rewrite Forall_forall in H. apply list_elem_of_In in Hin.
  destruct (H _ Hin).
Qed.

Lemma sweep_launches_nothing tr (P : Prop) cmd err :
  Forall sweep_event tr -> In (EvExec cmd err) tr -> P.
Proof.
  intros H Hin. rewrite Forall_forall in H. apply list_elem_of_In in Hin.
  destruct (H _ Hin).
Qed.

(** A backup run, path by path, with the command it launches. *)
Lemma runBackup_run dbName dbUser dbHost backupDir logFile retentionDays env w o w' :
  runBackup dbName dbUser dbHost backupDir logFile retentionDays env w = (o, w') ->
  exists tr, events w' = (events w ++ tr)%list /\
    BackupPath env w dbName dbUser dbHost logFile retentionDays
      (backupFile_at backupDir dbName (clock env (ticks w))) o w' tr /\
    forall cmd err, In (EvExec cmd err) tr ->
      cmd = backup_cmd env dbName dbUser dbHost
              (backupFile_at backupDir dbName (clock env (ticks w))) logFile.
Proof.
  unfold runBackup. set (bf := backupFile_at backupDir dbName (clock env (ticks w))).
  destruct (String.eqb dbName "").
  { cbn. intros [= <- <-]. eexists. split; [done|]. split.
    - apply StoppedEarly; [by repeat constructor|done].
    - intros cmd err. apply prints_launch_nothing. by repeat constructor. }
  unfold bind at 1. cbn [os_Stat].
  destruct (os_IsNotExist _).
  { cbn. intros [= <- <-]. eexists. split; [done|]. split.
    - apply StoppedEarly; [by repeat constructor|done].
    - intros cmd err. apply prints_launch_nothing. by repeat constructor. }
  destruct (write_error (fs w) logFile) as [e|] eqn:Hlog.
  { rewrite (step_OpenFile_err _ _ _ e) by done. cbn. intros [= <- <-].
    eexists. split; [done|]. split.
    - apply StoppedEarly; [by repeat constructor|done].
    - intros cmd err. apply prints_launch_nothing. by repeat constructor. }
  rewrite step_OpenFile_ok by done. rewrite defer_Close.
  unfold bind at 1. cbn [time_Now set_fs ticks]. fold bf.
  pose proof (evolves_seq _ _ _ _ _ _ _ _ _ _ (evolves_create_missing env w logFile)
                (evolves_tick env _) eq_refl eq_refl) as Hev1.
  set (w1 := tick _) in *. clearbody w1. unfold log_New.
  run_step (logger_Printf_evolves logFile
              ("INFO: Starting backup for database " +:+ quoted dbName +:+ ".") env w1)
    as w2 Hev2.
  run_step (fmt_Println_evolves
              ("Starting backup for database " +:+ quoted dbName +:+ "...") env w2)
    as w3 Hev3.
  fold (starting_message dbName) in Hev3.
  pose proof (evolves_seq _ _ _ _ _ _ _ _ _ _ Hev1
    (evolves_seq _ _ _ _ _ _ _ _ _ _ Hev2 Hev3 eq_refl eq_refl) eq_refl eq_refl) as Hev.
  cbn [app] in Hev. clear Hev1 Hev2 Hev3 w1 w2.
  destruct (write_error (fs w3) bf) as [e|] eqn:Hbf.
  { rewrite (step_Create_err _ _ _ e) by done.
    run_step (logger_Printf_evolves logFile
                ("ERROR: Cannot create backup file: " +:+ error_string e) env w3)
      as w4 Hev4.
    run_step (fmt_Println_evolves "Backup failed." env w4) as w5 Hev5.
    cbn. intros [= <- <-].
    pose proof (evolves_seq _ _ _ _ _ _ _ _ _ _ Hev
      (evolves_seq _ _ _ _ _ _ _ _ _ _ Hev4 Hev5 eq_refl eq_refl) eq_refl eq_refl)
      as [He _ Hf].
    eexists. split; [exact He|]. split.
    - apply StoppedEarly; [by repeat constructor|].
      intros p Hp. apply Hf. untouched.
    - intros cmd err. apply prints_launch_nothing. by repeat constructor. }
  rewrite step_Create_ok by done. rewrite defer_Close.
  pose proof (evolves_seq _ _ _ _ _ _ _ _ _ _ Hev (evolves_create env w3 bf) eq_refl eq_refl)
    as Hev4.
  assert (Hplain4 : holds plain (fs (set_fs (insert bf (new_file (kernel_time env w3))) w3)) bf).
  { cbn. apply (holds_insert_eq env). apply stable_plain. }
  set (w4 := set_fs _ w3) in *. clearbody w4. clear Hev Hbf w3. cbn [app] in Hev4.
  pose proof (with_password_child_env "pg_dump"
                ["-U"; dbUser; "-h"; dbHost; "-Fc"; dbName] (SinkFile bf) (SinkFile logFile)
                env w4) as Hpw.
  fold (backup_cmd env dbName dbUser dbHost bf logFile) in Hpw.
  set (cmd := backup_cmd env dbName dbUser dbHost bf logFile) in *.
  change (set_streams (exec_Command "pg_dump" ["-U"; dbUser; "-h"; dbHost; "-Fc"; dbName])
            (SinkFile bf) (SinkFile logFile))
    with (mkCmd "pg_dump" ["-U"; dbUser; "-h"; dbHost; "-Fc"; dbName] None
            (SinkFile bf) (SinkFile logFile)).
  rewrite (step_bind _ _ _ _ _ _ Hpw).
  assert (Hcmd : dump_cmd dbName dbUser dbHost bf logFile cmd) by done.
  destruct (cmd_Run_evolves cmd bf logFile env w4 eq_refl eq_refl) as (w5 & Hrun5 & Hev5).
  rewrite (step_bind _ _ _ _ _ _ Hrun5).
  pose proof (ev_grows _ _ _ _ _ Hev5 _ _ (stable_plain env) Hplain4) as Hplain5.
  pose proof (evolves_seq _ _ _ _ _ _ _ _ _ _ Hev4 Hev5 eq_refl eq_refl) as Hev.
  cbn [app] in Hev. clear Hev4 Hev5 Hrun5 Hplain4 Hpw.
  destruct (proc_err (run_program env cmd (fs w4))) as [e|].
  { (* the dump failed *)
    run_step (logger_Printf_evolves logFile
                ("ERROR: Backup failed: " +:+ error_string e) env w5) as w6 Hev6.
    run_step (fmt_Println_evolves "Backup failed. Check log for details." env w6) as w7 Hev7.
    pose proof (ev_grows _ _ _ _ _ Hev7 _ _ (stable_plain env)
                  (ev_grows _ _ _ _ _ Hev6 _ _ (stable_plain env) Hplain5)) as Hplain7.
    pose proof (evolves_seq _ _ _ _ _ _ _ _ _ _ Hev
      (evolves_seq _ _ _ _ _ _ _ _ _ _ Hev6 Hev7 eq_refl eq_refl) eq_refl eq_refl)
      as [He _ Hf].
    unfold bind. rewrite (os_Remove_plain _ _ _ Hplain7). cbn. intros [= <- <-].
    eexists. split; [cbn; rewrite He, <- app_assoc; reflexivity|]. split.
    - apply DumpFailed; [done| |].
      + cbn. apply lookup_delete_eq.
      + intros p Hp1 Hp2. cbn. rewrite lookup_delete_ne by done. apply Hf. untouched.
    - intros cmd0 err Hin. cbn in Hin.
      destruct Hin as [H|[H|[H|[H|[]]]]]; try discriminate H. by injection H. }
  destruct (compressFile_evolves bf (compressedFile_of bf) env w5)
    as (r & w6 & Hrun6 & Hev6 & Ht6 & Hgz).
  rewrite (step_bind _ _ _ _ _ _ Hrun6).
  pose proof (ev_grows _ _ _ _ _ Hev6 _ _ (stable_plain env) Hplain5) as Hplain6.
  pose proof (evolves_seq _ _ _ _ _ _ _ _ _ _ Hev Hev6 eq_refl eq_refl) as Hev'.
  cbn [app] in Hev'. clear Hev Hev6 Hrun6 Hplain5.
  destruct r as [e|].
  { (* the compression failed *)
    run_step (logger_Printf_evolves logFile
                ("ERROR: Compression failed: " +:+ error_string e) env w6) as w7 Hev7.
    run_step (fmt_Println_evolves "Compression failed." env w7) as w8 Hev8.
    pose proof (ev_grows _ _ _ _ _ Hev8 _ _ (stable_plain env)
                  (ev_grows _ _ _ _ _ Hev7 _ _ (stable_plain env) Hplain6)) as Hplain8.
    pose proof (evolves_seq _ _ _ _ _ _ _ _ _ _ Hev'
      (evolves_seq _ _ _ _ _ _ _ _ _ _ Hev7 Hev8 eq_refl eq_refl) eq_refl eq_refl)
      as [He _ Hf].
    cbn. intros [= <- <-].
    eexists. split; [exact He|]. split; [by apply CompressFailed|].
    intros cmd0 err Hin. cbn in Hin.
    destruct Hin as [H|[H|[H|[]]]]; try discriminate H. by injection H. }
  (* the artifact is written *)
  specialize (Hgz eq_refl).
  unfold bind at 1. rewrite (os_Remove_plain _ _ _ Hplain6).
  destruct (logger_Printf_run logFile
              ("SUCCESS: Backup completed. File: " +:+ compressedFile_of bf) env
              (add_event (EvRemove bf None) (set_fs (delete bf) w6))) as [data Hrun8].
  rewrite (step_bind _ _ _ _ _ _ Hrun8). clear Hrun8.
  unfold bind at 1. cbn [fmt_Println fmt_Print].
  set (w9 := add_event _ _).
  set (I := fun v : World =>
              (fs v !! bf = None /\
               forall hi, within_retention env retentionDays hi -> (ticks v <= hi)%nat ->
                 holds (young env retentionDays hi) (fs v) (compressedFile_of bf)) /\
              exists tr, events v = (events w9 ++ tr)%list /\ Forall sweep_event tr).
  assert (HI : sweep_closed env retentionDays I).
  { apply sweep_closed_and; [apply sweep_closed_and|].
    - apply sweep_closed_absent.
    - apply sweep_closed_forall. intros hi. apply sweep_closed_impl. intros Hp.
      by apply sweep_closed_young.
    - apply sweep_closed_events. }
  assert (Hw9 : I w9).
  { split; [split|].
    - cbn. apply lookup_alter_None, lookup_delete_eq.
    - intros hi Hp Hle. cbn in Hle. cbn.
      eapply holds_alter; [by apply stable_at_young|].
      destruct (Hgz (young env retentionDays hi)) as (n & Hn & Hy).
      { apply stable_at_young; [done|lia]. }
      exists n. split; [|done].
      rewrite lookup_delete_ne; [done|]. apply not_eq_sym, compressedFile_neq.
    - exists []. split; [by rewrite app_nil_r|constructor]. }
  destruct (cleanupOldBackups_closed env I backupDir retentionDays logFile w9 HI Hw9)
    as (w10 & Hrun10 & [[Habs Hyoung] (tr2 & Hev2 & Hne)]).
  rewrite Hrun10. intros [= <- <-].
  eexists. split; [|split; [apply Completed with (cmd := cmd) (tr := tr2); try done|]].
  - rewrite Hev2. cbn. destruct Hev' as [-> _ _]. rewrite <- !app_assoc. reflexivity.
  - intros Hp. eapply holds_is_Some. by apply (Hyoung (ticks w10)).
  - intros cmd0 err Hin. cbn in Hin.
    destruct Hin as [H|[H|[H|[H|Hin]]]]; try discriminate H; [by injection H|].
    by apply (sweep_launches_nothing tr2 _ cmd0 err).
Qed.

Lemma runBackup_paths dbName dbUser dbHost backupDir logFile retentionDays env w o w' :
  runBackup dbName dbUser dbHost backupDir logFile retentionDays env w = (o, w') ->
  exists tr, events w' = (events w ++ tr)%list /\
    BackupPath env w dbName dbUser dbHost logFile retentionDays
      (backupFile_at backupDir dbName (clock env (ticks w))) o w' tr.
Proof.
  intros Hrun. destruct (runBackup_run _ _ _ _ _ _ _ _ _ _ Hrun) as (tr & Hev & Hpath & _).
  by exists tr.
Qed.

(** ** The scenario *)

Lemma stored_payload_sound data : stored_payload (data ++ [x00])%list = (data, None).
Proof.
  induction data as [|b data IH]; [reflexivity|].
  change ((b :: data) ++ [x00])%list with (b :: (data ++ [x00]))%list.
  cbn [stored_payload]. rewrite IH. by destruct data.
Qed.

Lemma stored_codec_sound : codec_sound stored_codec.
Proof. intros data. split; [reflexivity|]. apply stored_payload_sound. Qed.


(** Membership in the events of a run of the scenario. *)
Ltac in_trace := vm_compute; repeat (first [left; reflexivity | right]).

(** ** Backup runs *)


(** C3. When the dump process of a backup run fails (a non-zero exit or a
    launch error), the run exits with status 1; the removal of the dump file
    is the last thing it does, the dump file is not on disk afterwards, and no
    path other than the dump file and the log file has changed: the run has
    made no compressed artifact. *)
Theorem failed_dump_removes_dump_file
    dbName dbUser dbHost backupDir logFile retentionDays env w o w' tr cmd e :
  runBackup dbName dbUser dbHost backupDir logFile retentionDays env w = (o, w') ->
  events w' = (events w ++ tr)%list ->
  In (EvExec cmd (Some e)) tr ->
  let backupFile := backupFile_at backupDir dbName (clock env (ticks w)) in
  o = Exited 1 /\
  (exists before, tr = (before ++ [EvRemove backupFile None])%list) /\
  fs w' !! backupFile = None /\
  (forall p, p <> backupFile -> p <> logFile -> fs w' !! p = fs w !! p) /\
  (compressedFile_of backupFile <> logFile ->
   fs w !! compressedFile_of backupFile = None ->
   fs w' !! compressedFile_of backupFile = None).
Proof.
  intros Hrun Hev Hin backupFile.
  destruct (runBackup_paths _ _ _ _ _ _ _ _ _ _ Hrun) as (tr' & Hev' & Hpath).
  assert (tr' = tr) as -> by (apply (app_inv_head (events w)); congruence).
  fold backupFile in Hpath.
  destruct Hpath as [w' tr Hprint _ | w' cmd' e' s Hcmd Hgone Hframe | w' cmd' Hcmd _
                    | w' cmd' tr Hcmd _ _ Hsweep].
  - rewrite Forall_forall in Hprint. apply list_elem_of_In in Hin. destruct (Hprint _ Hin).
  - split_and!; [done| |done|done|].
    + by exists [EvStdout (starting_message dbName); EvExec cmd' (Some e'); EvStdout s].
    + intros Hne Habs. rewrite Hframe; [done| |done]. apply compressedFile_neq.
  - cbn in Hin. destruct Hin as [[=]|[[=]|[[=]|[]]]].
  - cbn in Hin. destruct Hin as [[=]|[[=]|[[=]|[[=]|Hin]]]].
    rewrite Forall_forall in Hsweep. apply list_elem_of_In in Hin. destruct (Hsweep _ Hin).
Qed.

Lemma failed_dump_witness :
  let env := scenario_env (Some (ExitError 1)) None no_fault no_fault in
  let r := runBackup "db" "postgres" "localhost" "/b" "/log" 7 env backup_dir_only in
  let backupFile := backupFile_at "/b" "db" (clock env 0) in
  In (EvExec (scenario_dump_cmd backupFile) (Some (ExitError 1))) (events r.2) /\
  r.1 = Exited 1 /\ fs r.2 !! backupFile = None /\
  fs r.2 !! compressedFile_of backupFile = None.
Proof.
  intros env r backupFile.
  assert (Hrun : runBackup "db" "postgres" "localhost" "/b" "/log" 7 env backup_dir_only
                 = (r.1, r.2)) by apply surjective_pairing.
  assert (Hev : events r.2 = (events backup_dir_only ++ events r.2)%list) by reflexivity.
  assert (Hin : In (EvExec (scenario_dump_cmd backupFile) (Some (ExitError 1))) (events r.2)).
  { in_trace. }
  destruct (failed_dump_removes_dump_file _ _ _ _ _ _ _ _ _ _ _ _ _ Hrun Hev Hin)
    as (Ho & _ & Hgone & _ & Hgz).
  split_and!; [exact Hin|exact Ho|exact Hgone|]. apply Hgz; [|reflexivity].
  vm_compute. discriminate.
Defined.






(** With a retention of zero days the cutoff is the reading of the clock by
    the sweep, which comes after the artifact was written: the artifact is
    deleted as well. *)
Lemma zero_retention_deletes_artifact :
  let r := runBackup "db" "postgres" "localhost" "/b" "/log" 0 quiet_env backup_dir_only in
  let backupFile := backupFile_at "/b" "db" (clock quiet_env 0) in
  r.1 = Ret tt /\
  fs r.2 !! compressedFile_of backupFile = None.
Proof. split; vm_compute; reflexivity. Qed.

(** C7. For a database name, a backup directory and a time whose year has
    four digits, the path of the uncompressed dump is the backup directory
    joined with the database name, an underscore, the time as
    YYYY-MM-DD_HHMMSS and [.dump], and the path of the compressed artifact
    is that path with [.gz] appended.  These are the paths of a backup run
    started at that time: its dump process writes to the first, and a run
    that goes on to its end reports the second. *)
Theorem backup_paths_follow_naming
    dbName dbUser dbHost backupDir logFile retentionDays env w o w' tr :
  runBackup dbName dbUser dbHost backupDir logFile retentionDays env w = (o, w') ->
  events w' = (events w ++ tr)%list ->
  let now := clock env (ticks w) in
  (0 <= time.Year now <= 9999)%Z ->
  let backupFile :=
    filepath.Join backupDir
      (dbName +:+ "_" +:+ time.stamp_YYYY_MM_DD_HHMMSS now +:+ ".dump") in
  backupFile_at backupDir dbName now = backupFile /\
  compressedFile_of (backupFile_at backupDir dbName now) = backupFile +:+ ".gz" /\
  (forall cmd err, In (EvExec cmd err) tr -> cmd_stdout cmd = SinkFile backupFile) /\
  (o = Ret tt ->
   In (EvStdout (("Backup successful: " +:+ (backupFile +:+ ".gz")) +:+ NL)) tr).
Proof.
  intros Hrun Hev now Hyear backupFile.
  assert (Hname : backupFile_at backupDir dbName now = backupFile).
  { unfold backupFile_at, backupFile. by rewrite Format_is_stamp. }
  split; [exact Hname|]. split; [by rewrite Hname|].
  destruct (runBackup_paths _ _ _ _ _ _ _ _ _ _ Hrun) as (tr' & Hev' & Hpath).
  assert (tr' = tr) as -> by (apply (app_inv_head (events w)); congruence).
  fold now in Hpath. rewrite Hname in Hpath.
  destruct Hpath as [w' tr Hprint _ | w' cmd' e' s Hcmd _ _ | w' cmd' Hcmd _
                    | w' cmd' tr Hcmd _ _ Hsweep].
  - split; [|done]. intros cmd err Hin.
    rewrite Forall_forall in Hprint. apply list_elem_of_In in Hin. destruct (Hprint _ Hin).
  - split; [|done]. intros cmd err Hin. destruct Hcmd as (_ & _ & Hout & _).
    cbn in Hin. destruct Hin as [H|[H|[H|[H|[]]]]]; try discriminate H. congruence.
  - split; [|done]. intros cmd err Hin. destruct Hcmd as (_ & _ & Hout & _).
    cbn in Hin. destruct Hin as [H|[H|[H|[]]]]; try discriminate H. congruence.
  - split.
    + intros cmd err Hin. destruct Hcmd as (_ & _ & Hout & _).
      cbn in Hin. destruct Hin as [H|[H|[H|[H|Hin]]]]; try discriminate H; [congruence|].
      rewrite Forall_forall in Hsweep. apply list_elem_of_In in Hin. destruct (Hsweep _ Hin).
    + intros _. cbn. auto.
Qed.

Lemma backup_paths_witness :
  let r := runBackup "db" "postgres" "localhost" "/b" "/log" 7 quiet_env backup_dir_only in
  (0 <= time.Year (clock quiet_env 0) <= 9999)%Z /\
  backupFile_at "/b" "db" (clock quiet_env 0) = "/b/db_2025-08-09_114200.dump" /\
  In (EvExec (scenario_dump_cmd "/b/db_2025-08-09_114200.dump") None) (events r.2) /\
  In (EvStdout (("Backup successful: " +:+ "/b/db_2025-08-09_114200.dump.gz") +:+ NL))
    (events r.2).
Proof.
  intros r.
  assert (Hrun : runBackup "db" "postgres" "localhost" "/b" "/log" 7 quiet_env backup_dir_only
                 = (Ret tt, r.2)) by (vm_compute; reflexivity).
  assert (Hev : events r.2 = (events backup_dir_only ++ events r.2)%list) by reflexivity.
  assert (Hyear : (0 <= time.Year (clock quiet_env (ticks backup_dir_only)) <= 9999)%Z)
    by (vm_compute; split; discriminate).
  destruct (backup_paths_follow_naming _ _ _ _ _ _ _ _ _ _ _ Hrun Hev Hyear)
    as (Hname & _ & _ & Hdone).
  split; [exact Hyear|]. split; [exact Hname|].
  split; [in_trace|]. exact (Hdone eq_refl).
Defined.

(** ** Refused invocations *)

(** Where nothing is at a path, [os.Stat] reports that the path does not
    exist, or that it goes through something that is not a directory. *)
Lemma dirs_error_kind m dirs e :
  dirs_error m dirs = Some e -> e = ENOENT \/ e = ENOTDIR.
Proof.
  induction dirs as [|d dirs IH]; cbn; [done|].
  destruct (m !! d) as [n|]; [|intros [= <-]; by left].
  destruct (node_mode n); first [exact IH | intros [= <-]; auto].
Qed.

Lemma stat_error_missing m p :
  m !! p = None -> stat_error m p = Some ENOENT \/ stat_error m p = Some ENOTDIR.
Proof.
  intros Hp. unfold stat_error, lookup_error. rewrite Hp.
  destruct (String.eqb p ""); [by left|].
  destruct (dirs_error m (path_dirs p)) as [e|] eqn:He; [|by left].
  destruct (dirs_error_kind _ _ _ He) as [-> | ->]; auto.
Qed.




(** ** Restore runs *)

(** C10. For a restore with a database name and a backup file of fewer than
    three characters, the slice that derives the temporary path is out of
    range and panics.  The run reaches it once the arguments are accepted (the
    backup file is not empty) and the log file is open, and then ends in that
    panic, not in an exit with status 1. *)
Theorem short_backup_file_panics env w dbName dbUser dbHost backupFile logFile :
  dbName <> "" ->
  (String.length backupFile < 3)%nat ->
  (forall w0,
     slice_to backupFile (Z.of_nat (String.length backupFile) - 3) env w0
     = (Panicked "slice bounds out of range", w0)) /\
  (backupFile <> "" -> write_error (fs w) logFile = None ->
   (runRestore dbName dbUser dbHost backupFile logFile env w).1
   = Panicked "slice bounds out of range").
Proof.
  intros Hdb Hlen.
  assert (Hslice : forall w0,
    slice_to backupFile (Z.of_nat (String.length backupFile) - 3) env w0
    = (Panicked "slice bounds out of range", w0)).
  { intros w0. unfold slice_to.
    destruct (Z.ltb_spec (Z.of_nat (String.length backupFile) - 3) 0); [done|lia]. }
  split; [exact Hslice|]. intros Hfile Hlog. unfold runRestore.
  destruct (String.eqb_spec dbName ""); [done|].
  destruct (String.eqb_spec backupFile ""); [done|].
  cbn [orb]. rewrite step_OpenFile_ok by done. rewrite defer_Close.
  destruct (logger_Printf_run logFile
              ("INFO: Starting restore for database " +:+ quoted dbName +:+ " from "
               +:+ quoted backupFile +:+ ".") env
              (set_fs (create_missing logFile (new_file (kernel_time env w))) w))
    as [data Hrun].
  unfold log_New. rewrite (step_bind _ _ _ _ _ _ Hrun).
  unfold bind at 1. cbn [fmt_Println fmt_Print].
  unfold bind at 1. by rewrite Hslice.
Qed.

Lemma short_backup_file_witness :
  "db" <> "" /\ (String.length "ab" < 3)%nat /\
  (runRestore "db" "postgres" "localhost" "ab" "/log" quiet_env backup_dir_only).1
  = Panicked "slice bounds out of range".
Proof.
  assert (Hdb : "db" <> "") by discriminate.
  assert (Hlen : (String.length "ab" < 3)%nat) by (vm_compute; lia).
  split; [exact Hdb|]. split; [exact Hlen|].
  apply (short_backup_file_panics quiet_env backup_dir_only "db" "postgres" "localhost"
           "ab" "/log" Hdb Hlen); [discriminate | vm_compute; reflexivity].
Defined.

(** ** The codec *)

Lemma dirs_error_None m dirs :
  dirs_error m dirs = None <-> Forall (holds directory m) dirs.
Proof.
  induction dirs as [|d dirs IH]; cbn; [by split|].
  rewrite Forall_cons, <- IH. unfold holds, directory. split.
  - destruct (m !! d) as [n|]; [|done].
    destruct (node_mode n) eqn:Hm; try done. intros H. split; [by exists n|done].
  - intros [(n & -> & ->) H]. done.
Qed.

(** The directories of a path that can be looked up are still there when
    no directory has gone. *)
Lemma lookup_error_persists (m m' : gmap string Node) p :
  (forall d, holds directory m d -> holds directory m' d) ->
  lookup_error m p = None -> lookup_error m' p = None.
Proof.
  unfold lookup_error. intros Hdirs. destruct (String.eqb p ""); [done|].
  rewrite !dirs_error_None. intros H. eapply Forall_impl; [exact H|exact Hdirs].
Qed.

Lemma write_error_lookup m p : write_error m p = None -> lookup_error m p = None.
Proof. unfold write_error. by destruct (lookup_error m p). Qed.

(** What can be opened for writing is not a directory. *)
Lemma write_error_not_directory m p : write_error m p = None -> ~ holds directory m p.
Proof.
  unfold write_error, write_check, holds, directory. intros H (n & Hn & Hm).
  rewrite Hn, Hm in H. by destruct (lookup_error m p).
Qed.

Lemma regular_open_error m p n :
  lookup_error m p = None -> m !! p = Some n -> node_mode n = ModeRegular ->
  open_error m p = None.
Proof. intros Hp Hn Hm. unfold open_error. by rewrite Hp, Hn, Hm. Qed.

Lemma regular_read_all w p n :
  fs w !! p = Some n -> node_mode n = ModeRegular -> read_all p w = inl (node_data n).
Proof. intros Hn Hm. unfold read_all. by rewrite Hn, Hm. Qed.

Lemma write_error_frame (m m' : gmap string Node) p :
  (forall d, holds directory m d -> holds directory m' d) ->
  m' !! p = m !! p -> write_error m p = None -> write_error m' p = None.
Proof.
  intros Hdirs Hp H. unfold write_error.
  rewrite (lookup_error_persists m m' p Hdirs (write_error_lookup _ _ H)), Hp.
  unfold write_error in H. by destruct (lookup_error m p).
Qed.

(** What a compression without failure leaves: the complete stream of the
    source, in a regular file at the destination. *)
Lemma compressFile_writes_stream env w src dst n :
  open_error (fs w) src = None -> fs w !! src = Some n -> node_mode n = ModeRegular ->
  src <> dst ->
  write_error (fs w) dst = None ->
  copy_fault env dst = None -> flush_fault env dst = None ->
  exists w1 n1,
    compressFile src dst env w = (Ret None, w1) /\
    fs w1 !! dst = Some n1 /\ node_mode n1 = ModeRegular /\
    node_data n1
    = (gz_body (gzip env) (node_data n) ++ gz_trailer (gzip env) (node_data n))%list /\
    (forall p, p <> dst -> fs w1 !! p = fs w !! p).
Proof.
  intros Hsrc Hn Hmode Hneq Hdst Hcopy Hflush. unfold compressFile.
  rewrite step_Open_ok by done.
  rewrite defer_Close, step_Create_ok by done. rewrite defer_Close.
  unfold gzip_NewWriter, bind at 1. cbn [set_gzw set_fs fs ticks gzw events].
  rewrite defer_run. unfold io_Copy_to_gzip.
  erewrite regular_read_all; [|cbn; rewrite lookup_insert_ne by done; exact Hn|done].
  rewrite Hcopy. cbn. unfold gzip_Writer_Close, bind. cbn.
  rewrite lookup_insert_eq, Hflush. cbn.
  eexists _, _. split; [reflexivity|]. cbn.
  split; [by rewrite !lookup_alter_eq, lookup_insert_eq|].
  split; [done|]. split; [done|].
  intros p Hp. by rewrite !lookup_alter_ne, lookup_insert_ne.
Qed.

(** C6. Decompressing what was compressed gives the bytes back: when the
    gzip format reads back a complete stream as written and no operation on
    the files fails, [compressFile] from a source to a destination followed by
    [decompressFile] from that destination to an output leaves in the output
    exactly the bytes of the source, whatever they are. *)
Theorem compress_then_decompress_is_identity env w src dst out n :
  codec_sound (gzip env) ->
  open_error (fs w) src = None -> fs w !! src = Some n -> node_mode n = ModeRegular ->
  src <> dst -> out <> dst ->
  write_error (fs w) dst = None -> write_error (fs w) out = None ->
  copy_fault env dst = None -> flush_fault env dst = None -> copy_fault env out = None ->
  exists w1 w2 n2,
    compressFile src dst env w = (Ret None, w1) /\
    decompressFile dst out env w1 = (Ret None, w2) /\
    fs w2 !! out = Some n2 /\
    node_data n2 = node_data n.
Proof.
  intros Hcodec Hsrc Hn Hmode Hneq Hout Hwdst Hwout Hcopy Hflush Hcopy'.
  destruct (compressFile_writes_stream env w src dst n) as (w1 & n1 & Hrun1 & Hn1 & Hm1 & Hd1 & Hf1);
    [done..|].
  destruct (Hcodec (node_data n)) as [Hopen Hinflate]. rewrite <- Hd1 in Hopen, Hinflate.
  assert (Hdirs : forall d, holds directory (fs w) d -> holds directory (fs w1) d).
  { intros d Hd. unfold holds. rewrite Hf1; [done|].
    intros ->. by apply (write_error_not_directory _ _ Hwdst). }
  exists w1. unfold decompressFile.
  rewrite step_Open_ok
    by (eapply regular_open_error;
        [by eapply lookup_error_persists, write_error_lookup|done..]).
  rewrite defer_Close. unfold bind at 1, gzip_NewReader.
  rewrite (regular_read_all _ _ _ Hn1 Hm1), Hopen. unfold gzip_Reader_Close.
  rewrite defer_run.
  rewrite step_Create_ok by (by apply (write_error_frame (fs w)), Hwout; [|apply Hf1]).
  rewrite defer_Close. unfold io_Copy_from_gzip.
  erewrite regular_read_all; [|cbn; rewrite lookup_insert_ne by done; exact Hn1|done].
  rewrite Hinflate, Hcopy'. cbn.
  eexists _, _. split; [done|]. split; [reflexivity|]. cbn.
  split; [by rewrite lookup_alter_eq, lookup_insert_eq|done].
Qed.

Lemma compress_then_decompress_witness :
  codec_sound (gzip quiet_env) /\
  exists w1 w2 n2,
    compressFile "/b/db.dump" "/b/db.dump.gz" quiet_env with_dump = (Ret None, w1) /\
    decompressFile "/b/db.dump.gz" "/b/restored.dump" quiet_env w1 = (Ret None, w2) /\
    fs w2 !! "/b/restored.dump" = Some n2 /\
    node_data n2 = list_byte_of_string "DUMP".
Proof.
  split; [exact stored_codec_sound|].
  apply (compress_then_decompress_is_identity quiet_env with_dump
           "/b/db.dump" "/b/db.dump.gz" "/b/restored.dump"
           (mkNode ModeRegular (list_byte_of_string "DUMP") last_week false));
    first [exact stored_codec_sound | discriminate | vm_compute; reflexivity].
Defined.

(** ** The retention sweep, file by file *)

Lemma app_singleton_neq {A} (l : list A) (x : A) : l <> (l ++ [x])%list.
Proof.
  intros H. apply (f_equal length) in H. rewrite length_app in H. cbn in H. lia.
Qed.

(** A visit without error returns and lets the walk go on; it attempts the
    removal when its three tests pass and does nothing otherwise. *)
Lemma cleanupOldBackups_visit_run env w cutoff logger path info :
  exists w',
    cleanupOldBackups_visit cutoff logger path (Some info) None env w = (Ret None, w') /\
    if negb (IsDir info) && String.eqb (filepath.Ext path) ".gz"
       && time.Before (ModTime info) cutoff
    then events w' = (events w ++ [EvRemove path (remove_result (fs w) path)])%list
    else w' = w.
Proof.
  unfold cleanupOldBackups_visit.
  destruct (negb (IsDir info) && String.eqb (filepath.Ext path) ".gz"); cbn [andb];
    [|by eexists].
  destruct (time.Before (ModTime info) cutoff); [|by eexists].
  unfold bind at 1, os_Remove. cbv beta iota.
  destruct (remove_result (fs w) path) as [e|].
  - destruct (logger_Printf_run logger
                ("WARNING: Failed to delete " +:+ path +:+ ": " +:+ error_string e) env
                (add_event (EvRemove path (Some e)) (set_fs (remove_entry path) w)))
      as [data Hrun].
    unfold bind. rewrite Hrun. by eexists.
  - destruct (logger_Printf_run logger ("INFO: Deleted old backup: " +:+ path) env
                (add_event (EvRemove path None) (set_fs (remove_entry path) w)))
      as [data Hrun].
    unfold bind. rewrite Hrun. by eexists.
Qed.

(** C5, as the program has it.  For a file the sweep visits, with the cutoff
    [now] minus [retentionDays] days: its removal is attempted if and only if
    it is not a directory, its extension is [.gz] and it was modified
    strictly before the cutoff.  A visit that does not attempt the removal
    changes nothing: directories and files without the extension are left
    alone whatever their age.  The walk goes on in either case. *)
Theorem sweep_visit_removes_old_gz_entries env w now retentionDays logger path info :
  let cutoff := time.AddDays now (neg_int retentionDays) in
  let r := cleanupOldBackups_visit cutoff logger path (Some info) None env w in
  r.1 = Ret None /\
  (attempts_removal w r.2 path <->
   IsDir info = false /\ filepath.Ext path = ".gz" /\
   time.Before (ModTime info) cutoff = true) /\
  (IsDir info = true \/ filepath.Ext path <> ".gz" -> r.2 = w).
Proof.
  intros cutoff r.
  destruct (cleanupOldBackups_visit_run env w cutoff logger path info) as (w' & Hrun & Hw').
  subst r. rewrite Hrun. cbn [fst snd]. split; [done|].
  destruct (IsDir info); cbn [negb andb] in Hw'.
  { subst w'. split; [|done]. split; [|by intros [? _]].
    intros [err H]. by apply app_singleton_neq in H. }
  destruct (String.eqb_spec (filepath.Ext path) ".gz") as [Hext|Hext]; cbn [andb] in Hw'.
  2: { subst w'. split; [|done]. split; [|by intros (_ & ? & _)].
       intros [err H]. by apply app_singleton_neq in H. }
  destruct (time.Before (ModTime info) cutoff).
  2: { subst w'. split; [|done]. split; [|by intros (_ & _ & ?)].
       intros [err H]. by apply app_singleton_neq in H. }
  split; [|intros [?|?]; [discriminate|contradiction]].
  split; [done|]. intros _. by eexists.
Qed.

(** C5, as stated, fails: a symbolic link named [latest.gz], eight days old,
    is not a regular file, and the sweep of a backup with a retention of
    seven days removes it. *)
Lemma sweep_removes_old_symlink :
  let r := cleanupOldBackups "/b" 7 "/log" quiet_env with_link in
  fs with_link !! "/b/latest.gz" = Some latest_link /\
  IsRegular (info_of latest_link) = false /\
  r.1 = Ret tt /\
  In (EvRemove "/b/latest.gz" None) (events r.2) /\
  fs r.2 !! "/b/latest.gz" = None.
Proof.
  split_and!; [vm_compute; reflexivity..| |vm_compute; reflexivity].
  in_trace.
Qed.

(** ** Where the program misses what it attempts *)

(** An exit inside the body skips the deferred call. *)
Lemma defer_skipped_by_exit {A} (d : M unit) (body : M A) env w code w' :
  body env w = (Exited code, w') -> defer d body env w = (Exited code, w').
Proof. intros H. unfold defer. by rewrite H. Qed.

(** C1 fails on the program.  When [pg_restore] fails, [runRestore] leaves
    through [os.Exit], which does not run the deferred [os.Remove]: the run
    exits with status 1, attempts no removal, and the temporary decompressed
    file is on disk afterwards, with the bytes of the dump. *)
Theorem failed_restore_leaves_temporary_file :
  let r := runRestore "db" "postgres" "localhost" "/b/db.dump.gz" "/log"
             failing_restore_env with_artifact in
  r.1 = Exited 1 /\
  In (EvExec (scenario_restore_cmd "/b/db.dump") (Some (ExitError 1))) (events r.2) /\
  (forall err, ~ In (EvRemove "/b/db.dump" err) (events r.2)) /\
  fs with_artifact !! "/b/db.dump" = None /\
  exists n, fs r.2 !! "/b/db.dump" = Some n /\ node_data n = list_byte_of_string "DUMP".
Proof.
  split_and!.
  - vm_compute. reflexivity.
  - in_trace.
  - intros err H. vm_compute in H.
    repeat (destruct H as [H|H]; [discriminate H|]). destruct H.
  - vm_compute. reflexivity.
  - eexists. split; vm_compute; reflexivity.
Qed.

(** The same when the decompression fails after the temporary file has been
    created: the run exits with status 1 before the removal is even deferred,
    and what was decompressed so far stays on disk. *)
Lemma failed_decompression_leaves_temporary_file :
  let r := runRestore "db" "postgres" "localhost" "/b/db.dump.gz" "/log"
             quiet_env with_truncated_artifact in
  r.1 = Exited 1 /\
  events r.2
  = [EvStdout (("Restoring database " +:+ quoted "db" +:+ " from "
                +:+ quoted "/b/db.dump.gz" +:+ "...") +:+ NL);
     EvStdout ("Decompression failed." +:+ NL)] /\
  fs with_truncated_artifact !! "/b/db.dump" = None /\
  is_Some (fs r.2 !! "/b/db.dump").
Proof.
  split_and!; [vm_compute; reflexivity..|].
  eexists. vm_compute. reflexivity.
Qed.

(** The removal is run when the restore succeeds. *)
Lemma completed_restore_removes_temporary_file :
  let r := runRestore "db" "postgres" "localhost" "/b/db.dump.gz" "/log"
             quiet_env with_artifact in
  r.1 = Ret tt /\
  In (EvRemove "/b/db.dump" None) (events r.2) /\
  fs r.2 !! "/b/db.dump" = None.
Proof.
  split_and!; [vm_compute; reflexivity| |vm_compute; reflexivity].
  in_trace.
Qed.

(** The error of the deferred [gw.Close()] is dropped: whenever the source
    is read and the stream copied, [compressFile] returns no error, also
    when closing the compressor fails, and the destination then holds a
    stream without its trailer. *)
Lemma compressFile_drops_close_error env w src dst n e :
  open_error (fs w) src = None -> fs w !! src = Some n -> node_mode n = ModeRegular ->
  src <> dst ->
  write_error (fs w) dst = None ->
  copy_fault env dst = None -> flush_fault env dst = Some e ->
  exists w1 n1,
    compressFile src dst env w = (Ret None, w1) /\
    fs w1 !! dst = Some n1 /\
    node_data n1 = gz_body (gzip env) (node_data n).
Proof.
  intros Hsrc Hn Hmode Hneq Hdst Hcopy Hflush. unfold compressFile.
  rewrite step_Open_ok by done.
  rewrite defer_Close, step_Create_ok by done. rewrite defer_Close.
  unfold gzip_NewWriter, bind at 1. cbn [set_gzw set_fs fs ticks gzw events].
  rewrite defer_run. unfold io_Copy_to_gzip.
  erewrite regular_read_all; [|cbn; rewrite lookup_insert_ne by done; exact Hn|done].
  rewrite Hcopy. cbn. unfold gzip_Writer_Close, bind. cbn.
  rewrite lookup_insert_eq, Hflush. cbn.
  eexists _, _. split; [reflexivity|]. cbn.
  split; [by rewrite lookup_alter_eq, lookup_insert_eq|done].
Qed.

(** The errors of the three stages that are checked are returned. *)
Lemma compressFile_returns_checked_errors env w src dst :
  (forall e, open_error (fs w) src = Some e ->
     (compressFile src dst env w).1 = Ret (Some e)) /\
  (forall e, open_error (fs w) src = None -> write_error (fs w) dst = Some e ->
     (compressFile src dst env w).1 = Ret (Some e)) /\
  (forall n k e, open_error (fs w) src = None ->
     fs w !! src = Some n -> node_mode n = ModeRegular ->
     src <> dst -> write_error (fs w) dst = None -> copy_fault env dst = Some (k, e) ->
     (compressFile src dst env w).1 = Ret (Some e)).
Proof.
  split_and!.
  - intros e Ho. unfold compressFile. by rewrite (step_Open_err _ _ _ e).
  - intros e Ho Hw. unfold compressFile. rewrite step_Open_ok by done.
    by rewrite defer_Close, (step_Create_err _ _ _ e).
  - intros n k e Hsrc Hn Hmode Hneq Hdst Hcopy. unfold compressFile.
    rewrite step_Open_ok by done.
    rewrite defer_Close, step_Create_ok by done. rewrite defer_Close.
    unfold gzip_NewWriter, bind at 1. cbn [set_gzw set_fs fs ticks gzw events].
    rewrite defer_run. unfold io_Copy_to_gzip.
    erewrite regular_read_all; [|cbn; rewrite lookup_insert_ne by done; exact Hn|done].
    rewrite Hcopy. cbn. unfold gzip_Writer_Close, bind. cbn.
    by rewrite lookup_insert_eq.
Qed.

(** C9 fails on the program.  With a device that is full when the
    compressor is closed, the last stage of the compression fails and
    [compressFile] returns no error; the destination holds a stream without
    its trailer, which does not decompress.  A backup run then deletes the
    dump, reports success and keeps that artifact. *)
Theorem compressFile_returns_nil_when_close_fails :
  let r := compressFile "/b/db.dump" "/b/db.dump.gz" full_at_close_env with_dump in
  let b := runBackup "db" "postgres" "localhost" "/b" "/log" 7 full_at_close_env
             backup_dir_only in
  flush_fault full_at_close_env "/b/db.dump.gz" = Some ENOSPC /\
  r.1 = Ret None /\
  (exists n, fs r.2 !! "/b/db.dump.gz" = Some n /\
             node_data n = stored_body (list_byte_of_string "DUMP")) /\
  (decompressFile "/b/db.dump.gz" "/b/restored.dump" full_at_close_env r.2).1
  = Ret (Some ErrUnexpectedEOF) /\
  b.1 = Ret tt /\
  fs b.2 !! "/b/db_2025-08-09_114200.dump" = None /\
  (exists n, fs b.2 !! "/b/db_2025-08-09_114200.dump.gz" = Some n /\
             node_data n = stored_body (list_byte_of_string "DUMP")).
Proof.
  split_and!; try (vm_compute; reflexivity); eexists; split; vm_compute; reflexivity.
Qed.

(** ** Examples of the library models *)
Example Clean_examples :
  map filepath.Clean ["/var/backups/"; "a//b/./c/.."; "/../a"; "../../x"; ""; "/"; "a/../.."]
  = ["/var/backups"; "a/b"; "/a"; "../../x"; "."; "/"; ".."].
Proof. reflexivity. Qed.

Example Join_examples :
  [filepath.Join "/var/backups/postgresql" "mydatabase_2025-08-09_114200.dump";
   filepath.Join "/var/backups/" "db.dump"; filepath.Join "" "db.dump";
   filepath.Join "rel" "../db.dump"]
  = ["/var/backups/postgresql/mydatabase_2025-08-09_114200.dump";
     "/var/backups/db.dump"; "db.dump"; "db.dump"].
Proof. reflexivity. Qed.

Example Ext_examples :
  map filepath.Ext ["/b/db_1.dump.gz"; "/b/db_1.dump"; "/b.gz/plain"; ".gz"; "x."; "nodot"]
  = [".gz"; ".dump"; ""; ".gz"; "."; ""].
Proof. reflexivity. Qed.

(** 2025-08-09 11:42:00 UTC is Unix second 1754739720. *)
Example Format_example :
  time.Format (time.of_unix 1754739720 0 0) "2006-01-02_150405" = "2025-08-09_114200".
Proof. reflexivity. Qed.

Example Format_zone_example :
  time.Format (time.of_unix 951782399 0 7200) "2006/01/02 15:04:05" = "2000/02/29 01:59:59".
Proof. reflexivity. Qed.

Example AddDays_example :
  time.Unix (time.AddDays (time.of_unix 1754739720 5 0) (-7)) = (1754739720 - 7 * 86400)%Z.
Proof. reflexivity. Qed.


(** * Further properties of the program *)

(** ** Names *)

Lemma list_ascii_of_string_app s1 s2 :
  list_ascii_of_string (s1 +:+ s2)
  = (list_ascii_of_string s1 ++ list_ascii_of_string s2)%list.
Proof.
  induction s1 as [|c s1 IH]; [done|].
  change (list_ascii_of_string (String c (s1 +:+ s2))
          = (c :: list_ascii_of_string s1 ++ list_ascii_of_string s2)%list).
  cbn [list_ascii_of_string]. by rewrite IH.
Qed.

Lemma Ext_gz p : filepath.Ext (p +:+ ".gz") = ".gz".
Proof.
  unfold filepath.Ext. by rewrite list_ascii_of_string_app, rev_app_distr.
Qed.

Lemma Ext_dump p : filepath.Ext (p +:+ ".dump") = ".dump".
Proof.
  unfold filepath.Ext. by rewrite list_ascii_of_string_app, rev_app_distr.
Qed.

Lemma append_assoc s1 s2 s3 : (s1 +:+ s2) +:+ s3 = s1 +:+ (s2 +:+ s3).
Proof.
  induction s1 as [|c s1 IH]; [done|].
  change (String c ((s1 +:+ s2) +:+ s3) = String c (s1 +:+ (s2 +:+ s3))). by rewrite IH.
Qed.

(** The last element of a path that ends in a suffix without separator
    ends in that suffix. *)
Lemma split_snoc y :
  exists l e, filepath.split y = (l ++ [e])%list /\
    forall t, filepath.split t = [t] -> filepath.split (y +:+ t) = (l ++ [e +:+ t])%list.
Proof.
  induction y as [|c y (l & e & Hy & Ht)].
  - exists [], "". split; [done|]. intros t Hs. done.
  - cbn [filepath.split]. change (String c y +:+ ?t) with (String c (y +:+ t)).
    destruct (Ascii.eqb c "/") eqn:Hc.
    + exists ("" :: l), e. split; [by rewrite Hy|].
      intros t Hs. cbn [filepath.split append]. by rewrite Hc, (Ht t Hs).
    + destruct l as [|x l].
      * exists [], (String c e). split; [by rewrite Hy|].
        intros t Hs. cbn [filepath.split append]. by rewrite Hc, (Ht t Hs).
      * exists (String c x :: l), e. split; [by rewrite Hy|].
        intros t Hs. cbn [filepath.split append]. by rewrite Hc, (Ht t Hs).
Qed.

Lemma join_with_cons sep x (r : list string) :
  r <> [] -> filepath.join_with sep (x :: r) = x +:+ sep +:+ filepath.join_with sep r.
Proof. by destruct r. Qed.

Lemma join_with_snoc sep l z : exists pre, filepath.join_with sep (l ++ [z]) = pre +:+ z.
Proof.
  induction l as [|x l [pre IH]]; [by exists ""|].
  cbn [app]. rewrite join_with_cons by (by destruct l). rewrite IH.
  exists (x +:+ sep +:+ pre). by rewrite !append_assoc.
Qed.

(** Cleaning a path keeps the extension [.dump] of its last element. *)
Lemma Clean_dump y : exists q, filepath.Clean (y +:+ ".dump") = q +:+ ".dump".
Proof.
  destruct (split_snoc y) as (l & e & _ & Hs). specialize (Hs ".dump" eq_refl).
  unfold filepath.Clean. rewrite Hs, fold_left_app. cbn [fold_left].
  destruct (fold_left _ l _) as [dots stack].
  assert (Hstep : filepath.clean_step (filepath.rooted (y +:+ ".dump")) (dots, stack)
                    (e +:+ ".dump") = (dots, (e +:+ ".dump") :: stack)).
  { assert (Hlen : (5 <= String.length (e +:+ ".dump"))%nat)
      by (rewrite length_append; change (String.length ".dump") with 5%nat; lia).
    unfold filepath.clean_step.
    destruct (String.eqb_spec (e +:+ ".dump") "") as [H|_];
      [rewrite H in Hlen; cbv [String.length] in Hlen; lia|].
    destruct (String.eqb_spec (e +:+ ".dump") ".") as [H|_];
      [rewrite H in Hlen; cbv [String.length] in Hlen; lia|].
    destruct (String.eqb_spec (e +:+ ".dump") "..") as [H|_];
      [rewrite H in Hlen; cbv [String.length] in Hlen; lia|].
    done. }
  rewrite Hstep. cbn [rev]. rewrite app_assoc.
  destruct (join_with_snoc "/" (repeat ".." dots ++ rev stack) (e +:+ ".dump")) as [pre ->].
  destruct (filepath.rooted _).
  - exists ("/" +:+ pre +:+ e). by rewrite !append_assoc.
  - destruct (String.eqb_spec (pre +:+ e +:+ ".dump") "") as [Hempty|_].
    + apply (f_equal String.length) in Hempty. rewrite !length_append in Hempty.
      change (String.length ".dump") with 5%nat in Hempty.
      change (String.length "") with 0%nat in Hempty. lia.
    + exists (pre +:+ e). by rewrite append_assoc.
Qed.

Lemma backupFile_at_dump backupDir dbName now :
  exists q, backupFile_at backupDir dbName now = q +:+ ".dump".
Proof.
  unfold backupFile_at, filepath.Join.
  set (stamp := time.Format now "2006-01-02_150405").
  destruct (String.eqb backupDir "").
  - destruct (String.eqb_spec (dbName +:+ "_" +:+ stamp +:+ ".dump") "") as [Hempty|_].
    + apply (f_equal String.length) in Hempty. rewrite !length_append in Hempty.
      change (String.length ".dump") with 5%nat in Hempty.
      change (String.length "") with 0%nat in Hempty. lia.
    + replace (dbName +:+ "_" +:+ stamp +:+ ".dump")
        with ((dbName +:+ "_" +:+ stamp) +:+ ".dump") by (by rewrite !append_assoc).
      apply Clean_dump.
  - replace (backupDir +:+ "/" +:+ dbName +:+ "_" +:+ stamp +:+ ".dump")
      with ((backupDir +:+ "/" +:+ dbName +:+ "_" +:+ stamp) +:+ ".dump")
      by (by rewrite !append_assoc).
    apply Clean_dump.
Qed.

(** X1. Whatever the database name, the backup directory and the time, the
    dump file of a backup has the extension [.dump] and its compressed
    artifact the extension [.gz]: the retention sweep, which looks at files
    with the extension [.gz], considers every artifact and never a dump file
    that a failed run has left behind. *)
Theorem backup_names_and_sweep_extension backupDir dbName now :
  filepath.Ext (backupFile_at backupDir dbName now) = ".dump" /\
  filepath.Ext (compressedFile_of (backupFile_at backupDir dbName now)) = ".gz".
Proof.
  split; [|apply Ext_gz].
  destruct (backupFile_at_dump backupDir dbName now) as [q ->]. apply Ext_dump.
Qed.

Lemma substring_prefix p s : String.substring 0 (String.length p) (p +:+ s) = p.
Proof.
  induction p as [|c p IH].
  - by destruct s.
  - change (String c (String.substring 0 (String.length p) (p +:+ s)) = String c p).
    by rewrite IH.
Qed.

(** X2. The temporary file of the restore of an artifact is the dump file
    the artifact was compressed from: stripping the last three characters of
    [p.gz] gives [p], for every path [p]. *)
Theorem restore_temp_of_artifact_is_dump_path backupFile env w :
  slice_to (compressedFile_of backupFile)
    (Z.of_nat (String.length (compressedFile_of backupFile)) - 3) env w
  = (Ret backupFile, w).
Proof.
  unfold slice_to, compressedFile_of. rewrite length_append.
  change (String.length ".gz") with 3%nat.
  replace (Z.of_nat (String.length backupFile + 3) - 3)%Z
    with (Z.of_nat (String.length backupFile)) by lia.
  destruct (Z.ltb_spec (Z.of_nat (String.length backupFile)) 0); [lia|].
  destruct (Z.ltb_spec (Z.of_nat (String.length backupFile + 3))
              (Z.of_nat (String.length backupFile))); [lia|].
  cbn [orb]. unfold ret. by rewrite Nat2Z.id, substring_prefix.
Qed.

(** ** [compressFile] and [decompressFile] on their own *)

(** X3. [compressFile] always returns to its caller; it prints nothing,
    launches nothing, does not read the clock and changes no path other than
    its destination: the source, when it is another path, is as it was. *)
Theorem compressFile_touches_destination_only src dst env w :
  exists r w',
    compressFile src dst env w = (Ret r, w') /\
    events w' = events w /\
    ticks w' = ticks w /\
    forall p, p <> dst -> fs w' !! p = fs w !! p.
Proof.
  destruct (compressFile_evolves src dst env w) as (r & w' & Hrun & [He _ Hf] & Ht & _).
  exists r, w'. split_and!; [done|by rewrite He, app_nil_r|done|].
  intros p Hp. apply Hf. untouched.
Qed.

(** X4. When the source cannot be opened, or the destination cannot be
    created, [compressFile] returns that error and has changed nothing: no
    destination is left behind. *)
Theorem compressFile_early_failure_changes_nothing src dst env w e :
  open_error (fs w) src = Some e \/
  (open_error (fs w) src = None /\ write_error (fs w) dst = Some e) ->
  compressFile src dst env w = (Ret (Some e), w).
Proof.
  intros [Ho | [Ho Hw]]; unfold compressFile.
  - by rewrite (step_Open_err _ _ _ e).
  - rewrite step_Open_ok by done. by rewrite defer_Close, (step_Create_err _ _ _ e).
Qed.

Lemma compressFile_early_failure_witness :
  open_error (fs backup_dir_only) "/b/db.dump" = Some ENOENT /\
  compressFile "/b/db.dump" "/b/db.dump.gz" quiet_env backup_dir_only
  = (Ret (Some ENOENT), backup_dir_only).
Proof.
  assert (H : open_error (fs backup_dir_only) "/b/db.dump" = Some ENOENT)
    by (vm_compute; reflexivity).
  split; [exact H|].
  apply (compressFile_early_failure_changes_nothing "/b/db.dump" "/b/db.dump.gz"
           quiet_env backup_dir_only ENOENT).
  left. exact H.
Defined.

(** X5. When writing the compressed stream fails, [compressFile] returns
    the error of the write and does not remove what it has written: the
    destination stays on disk with the part of the stream that reached it,
    and without trailer. *)
Theorem compressFile_copy_failure_leaves_partial_file env w src dst n k e :
  open_error (fs w) src = None -> fs w !! src = Some n -> node_mode n = ModeRegular ->
  src <> dst ->
  write_error (fs w) dst = None ->
  copy_fault env dst = Some (k, e) ->
  exists w' n',
    compressFile src dst env w = (Ret (Some e), w') /\
    fs w' !! dst = Some n' /\
    node_mode n' = ModeRegular /\
    node_data n' = firstn k (gz_body (gzip env) (node_data n)).
Proof.
  intros Hsrc Hn Hmode Hneq Hdst Hcopy. unfold compressFile.
  rewrite step_Open_ok by done.
  rewrite defer_Close, step_Create_ok by done. rewrite defer_Close.
  unfold gzip_NewWriter, bind at 1. cbn [set_gzw set_fs fs ticks gzw events].
  rewrite defer_run. unfold io_Copy_to_gzip.
  erewrite regular_read_all; [|cbn; rewrite lookup_insert_ne by done; exact Hn|done].
  rewrite Hcopy. cbn. unfold gzip_Writer_Close, bind. cbn.
  rewrite lookup_insert_eq. cbn.
  eexists _, _. split; [reflexivity|]. cbn.
  split; [by rewrite lookup_alter_eq, lookup_insert_eq|done].
Qed.

Lemma compressFile_copy_failure_witness :
  let env := scenario_env None None (fun _ => Some (2%nat, ENOSPC)) no_fault in
  exists w' n',
    compressFile "/b/db.dump" "/b/db.dump.gz" env with_dump = (Ret (Some ENOSPC), w') /\
    fs w' !! "/b/db.dump.gz" = Some n' /\
    node_mode n' = ModeRegular /\
    node_data n' = [x1f; x8b].
Proof.
  intros env.
  exact (compressFile_copy_failure_leaves_partial_file env with_dump
           "/b/db.dump" "/b/db.dump.gz"
           (mkNode ModeRegular (list_byte_of_string "DUMP") last_week false) 2 ENOSPC
           eq_refl eq_refl eq_refl ltac:(discriminate) eq_refl eq_refl).
Defined.

(** What [decompressFile] does in general: it returns, prints and launches
    nothing, removes nothing, does not read the clock and touches its
    destination only; when it returns no error the destination is a file
    just written. *)
Lemma decompressFile_evolves src dst env w :
  exists r w', decompressFile src dst env w = (Ret r, w') /\
    evolves env w w' [] [dst] /\
    ticks w' = ticks w /\
    (r = None -> forall Q, stable_at env (ticks w) Q -> holds Q (fs w') dst).
Proof.
  assert (Hsame : evolves env w w [] [dst]).
  { split; [by rewrite app_nil_r|apply grows_refl|done]. }
  assert (Hwritten : forall data,
    evolves env w
      (set_fs (alter (append_node data (clock env (ticks w))) dst)
         (set_fs (insert dst (new_file (clock env (ticks w)))) w)) [] [dst]).
  { intros data. split; cbn.
    - by rewrite app_nil_r.
    - eapply grows_trans; [apply grows_insert | apply grows_alter].
    - intros p Hp. assert (dst <> p) by (intros ->; apply Hp, list_elem_of_here).
      by rewrite lookup_alter_ne, lookup_insert_ne. }
  unfold decompressFile.
  destruct (open_error (fs w) src) as [e|] eqn:Ho.
  { rewrite (step_Open_err _ _ _ e) by done. cbn. exists (Some e), w. by split_and!. }
  rewrite step_Open_ok by done. rewrite defer_Close.
  unfold bind at 1, gzip_NewReader.
  destruct (read_all src w) as [data|e] eqn:Hr; [|exists (Some e), w; by split_and!].
  destruct (gz_open (gzip env) data) as [e|]; [exists (Some e), w; by split_and!|].
  unfold gzip_Reader_Close. rewrite defer_run.
  destruct (write_error (fs w) dst) as [e|] eqn:Hw.
  { rewrite (step_Create_err _ _ _ e) by done. cbn. exists (Some e), w. by split_and!. }
  rewrite step_Create_ok by done. rewrite defer_Close.
  unfold io_Copy_from_gzip.
  match goal with |- context [read_all src ?W] => destruct (read_all src W) as [data'|e] eqn:Hr' end.
  2: { cbn. eexists _, _. split; [reflexivity|]. split_and!; [|done..].
       apply evolves_create. }
  destruct (gz_inflate (gzip env) data') as [plain_bytes err].
  destruct (copy_fault env dst) as [[k e]|]; cbn.
  - eexists _, _. split; [reflexivity|]. split_and!; [|done..]. apply Hwritten.
  - eexists _, _. split; [reflexivity|]. split_and!; [|done|].
    + apply Hwritten.
    + intros _ Q HQ. cbn. eapply holds_alter; [exact HQ|]. by apply holds_insert_eq.
Qed.

(** X6. [decompressFile] always returns to its caller; it prints nothing,
    launches nothing and changes no path other than its destination: the
    compressed source, when it is another path, is as it was. *)
Theorem decompressFile_touches_destination_only src dst env w :
  exists r w',
    decompressFile src dst env w = (Ret r, w') /\
    events w' = events w /\
    ticks w' = ticks w /\
    forall p, p <> dst -> fs w' !! p = fs w !! p.
Proof.
  destruct (decompressFile_evolves src dst env w) as (r & w' & Hrun & [He _ Hf] & Ht & _).
  exists r, w'. split_and!; [done|by rewrite He, app_nil_r|done|].
  intros p Hp. apply Hf. untouched.
Qed.

(** X7. The header of the stream is read before the destination is
    created: when the source cannot be opened or read, or is not accepted as
    a gzip stream, [decompressFile] returns that error and has changed
    nothing; an existing file at the destination is not truncated. *)
Theorem decompressFile_rejected_source_changes_nothing src dst env w e :
  open_error (fs w) src = Some e \/
  (open_error (fs w) src = None /\
   (read_all src w = inr e \/
    exists data, read_all src w = inl data /\ gz_open (gzip env) data = Some e)) ->
  decompressFile src dst env w = (Ret (Some e), w).
Proof.
  intros [Ho | [Ho Hread]]; unfold decompressFile.
  - by rewrite (step_Open_err _ _ _ e).
  - rewrite step_Open_ok by done. rewrite defer_Close.
    unfold bind at 1, gzip_NewReader.
    destruct Hread as [-> | (data & -> & ->)]; reflexivity.
Qed.

Lemma decompressFile_rejected_source_witness :
  let w :=
    empty_world
      (<[ "/b/notes.gz" := mkNode ModeRegular (list_byte_of_string "plain text") last_week false ]>
         (<[ "/b/notes" := mkNode ModeRegular (list_byte_of_string "kept") last_week false ]>
            {[ "/b" := mkNode ModeDir [] last_week false ]})) in
  gz_open (gzip quiet_env) (list_byte_of_string "plain text") = Some ErrHeader /\
  decompressFile "/b/notes.gz" "/b/notes" quiet_env w = (Ret (Some ErrHeader), w).
Proof.
  intros w. split; [reflexivity|].
  apply (decompressFile_rejected_source_changes_nothing "/b/notes.gz" "/b/notes"
           quiet_env w ErrHeader).
  right. split; [vm_compute; reflexivity|]. right.
  exists (list_byte_of_string "plain text"). split; vm_compute; reflexivity.
Defined.

(** X8. Once the header is accepted the destination is created, and what
    the reader delivers is written to it, also when the stream turns out to
    be cut short or corrupt: [decompressFile] then returns the error of the
    reader and leaves the destination on disk with the bytes delivered before
    the error. *)
Theorem decompressFile_writes_what_is_inflated env w src dst n plain_bytes err :
  open_error (fs w) src = None -> fs w !! src = Some n -> node_mode n = ModeRegular ->
  gz_open (gzip env) (node_data n) = None ->
  gz_inflate (gzip env) (node_data n) = (plain_bytes, err) ->
  src <> dst ->
  write_error (fs w) dst = None ->
  copy_fault env dst = None ->
  exists w' n',
    decompressFile src dst env w = (Ret err, w') /\
    fs w' !! dst = Some n' /\
    node_mode n' = ModeRegular /\
    node_data n' = plain_bytes.
Proof.
  intros Hsrc Hn Hmode Hopen Hinflate Hneq Hdst Hcopy. unfold decompressFile.
  rewrite step_Open_ok by done. rewrite defer_Close.
  unfold bind at 1, gzip_NewReader.
  rewrite (regular_read_all _ _ _ Hn Hmode), Hopen. unfold gzip_Reader_Close.
  rewrite defer_run, step_Create_ok by done. rewrite defer_Close.
  unfold io_Copy_from_gzip.
  erewrite regular_read_all; [|cbn; rewrite lookup_insert_ne by done; exact Hn|done].
  rewrite Hinflate, Hcopy. cbn.
  eexists _, _. split; [reflexivity|]. cbn.
  split; [by rewrite lookup_alter_eq, lookup_insert_eq|done].
Qed.

Lemma decompressFile_truncated_stream_witness :
  exists w' n',
    decompressFile "/b/db.dump.gz" "/b/db.dump" quiet_env with_truncated_artifact
    = (Ret (Some ErrUnexpectedEOF), w') /\
    fs w' !! "/b/db.dump" = Some n' /\
    node_mode n' = ModeRegular /\
    node_data n' = list_byte_of_string "DUMP".
Proof.
  exact (decompressFile_writes_what_is_inflated quiet_env with_truncated_artifact
           "/b/db.dump.gz" "/b/db.dump"
           (mkNode ModeRegular (stored_body (list_byte_of_string "DUMP")) last_week false)
           (list_byte_of_string "DUMP") (Some ErrUnexpectedEOF)
           eq_refl eq_refl eq_refl eq_refl eq_refl ltac:(discriminate) eq_refl eq_refl).
Defined.

(** ** Restore runs, path by path *)

Lemma write_sink_stdout_evolves data env w :
  exists w' out, write_sink SinkStdout data env w = (Ret tt, w') /\
    evolves env w w' out [] /\ Forall is_print out.
Proof.
  destruct data as [|b data]; cbn.
  - exists w, []. split_and!; [done| |constructor].
    split; [by rewrite app_nil_r|apply grows_refl|done].
  - eexists _, [_]. split_and!; [reflexivity|apply evolves_event|by repeat constructor].
Qed.

Lemma cmd_Run_stdout_evolves cmd f env w :
  cmd_stdout cmd = SinkStdout -> cmd_stderr cmd = SinkFile f ->
  exists w' out, cmd_Run cmd env w = (Ret (proc_err (run_program env cmd (fs w))), w') /\
    evolves env w w' (EvExec cmd (proc_err (run_program env cmd (fs w))) :: out) [f] /\
    Forall is_print out.
Proof.
  intros H1 H2. unfold cmd_Run. rewrite H1, H2. cbv zeta.
  set (r := run_program env cmd (fs w)).
  destruct (write_sink_stdout_evolves (proc_stdout r) env
              (add_event (EvExec cmd (proc_err r)) w)) as (w1 & out & Hr1 & He1 & Hout).
  destruct (write_sink_file_evolves f (proc_stderr r) env w1) as [w2 [Hr2 He2]].
  unfold bind. rewrite Hr1, Hr2. exists w2, out. split_and!; [done| |done].
  eapply evolves_seq; [apply evolves_event| |done..].
  eapply evolves_seq; [exact He1|exact He2|by rewrite app_nil_r|done].
Qed.

Lemma runRestore_paths dbName dbUser dbHost backupFile logFile env w o w' :
  runRestore dbName dbUser dbHost backupFile logFile env w = (o, w') ->
  exists tr, events w' = (events w ++ tr)%list /\
    RestorePath env w dbName dbUser dbHost backupFile logFile o w' tr.
Proof.
  unfold runRestore.
  destruct (String.eqb dbName "" || String.eqb backupFile "").
  { cbn. intros [= <- <-]. eexists. split; [done|]. apply RestoreRefused. }
  destruct (write_error (fs w) logFile) as [e|] eqn:Hlog.
  { rewrite (step_OpenFile_err _ _ _ e) by done. cbn. intros [= <- <-].
    eexists. split; [done|]. apply RestoreRefused. }
  rewrite step_OpenFile_ok by done. rewrite defer_Close.
  pose proof (evolves_create_missing env w logFile) as Hev1.
  set (w1 := set_fs _ w) in *. clearbody w1. unfold log_New.
  run_step (logger_Printf_evolves logFile
              ("INFO: Starting restore for database " +:+ quoted dbName +:+ " from "
               +:+ quoted backupFile +:+ ".") env w1) as w2 Hev2.
  run_step (fmt_Println_evolves
              ("Restoring database " +:+ quoted dbName +:+ " from "
               +:+ quoted backupFile +:+ "...") env w2) as w3 Hev3.
  fold (restoring_message dbName backupFile) in Hev3.
  pose proof (evolves_seq _ _ _ _ _ _ _ _ _ _ Hev1
    (evolves_seq _ _ _ _ _ _ _ _ _ _ Hev2 Hev3 eq_refl eq_refl) eq_refl eq_refl) as Hev.
  cbn [app] in Hev. clear Hev1 Hev2 Hev3 w1 w2.
  unfold bind at 1, slice_to.
  destruct (Z.ltb_spec (Z.of_nat (String.length backupFile) - 3) 0) as [Hshort|Hlong].
  { cbn. intros [= <- <-]. destruct Hev as [He _ Hf].
    eexists. split; [exact He|]. apply RestorePanicked; [lia|].
    intros p Hp. apply Hf. untouched. }
  destruct (Z.ltb_spec (Z.of_nat (String.length backupFile))
              (Z.of_nat (String.length backupFile) - 3)); [lia|].
  cbn [orb]. unfold ret at 1.
  replace (Z.to_nat (Z.of_nat (String.length backupFile) - 3))
    with (String.length backupFile - 3)%nat by lia.
  fold (tempFile_of backupFile). set (tempFile := tempFile_of backupFile).
  assert (Hlen : (3 <= String.length backupFile)%nat) by lia.
  destruct (decompressFile_evolves backupFile tempFile env w3)
    as (r & w4 & Hrun4 & Hev4 & Ht4 & Htemp).
  rewrite (step_bind _ _ _ _ _ _ Hrun4).
  pose proof (evolves_seq _ _ _ _ _ _ _ _ _ _ Hev Hev4 eq_refl eq_refl) as Hev'.
  cbn [app] in Hev'. clear Hev Hev4 Hrun4.
  destruct r as [e|].
  { (* the decompression failed *)
    run_step (logger_Printf_evolves logFile
                ("ERROR: Decompression failed: " +:+ error_string e) env w4) as w5 Hev5.
    run_step (fmt_Println_evolves "Decompression failed." env w5) as w6 Hev6.
    pose proof (evolves_seq _ _ _ _ _ _ _ _ _ _ Hev'
      (evolves_seq _ _ _ _ _ _ _ _ _ _ Hev5 Hev6 eq_refl eq_refl) eq_refl eq_refl)
      as [He _ Hf].
    cbn. intros [= <- <-].
    eexists. split; [exact He|]. apply DecompressFailed; [done|].
    intros p Hp1 Hp2. apply Hf. untouched. }
  (* the dump is decompressed *)
  pose proof (Htemp eq_refl plain (stable_plain env _)) as Hplain4. clear Htemp.
  rewrite defer_run.
  pose proof (with_password_child_env "pg_restore"
                ["-U"; dbUser; "-h"; dbHost; "-d"; dbName; "--clean"; tempFile]
                SinkStdout (SinkFile logFile) env w4) as Hpw.
  fold (restore_cmd env dbName dbUser dbHost tempFile logFile) in Hpw.
  set (cmd := restore_cmd env dbName dbUser dbHost tempFile logFile) in *.
  change (set_streams
            (exec_Command "pg_restore"
               ["-U"; dbUser; "-h"; dbHost; "-d"; dbName; "--clean"; tempFile])
            SinkStdout (SinkFile logFile))
    with (mkCmd "pg_restore" ["-U"; dbUser; "-h"; dbHost; "-d"; dbName; "--clean"; tempFile]
            None SinkStdout (SinkFile logFile)).
  rewrite (step_bind _ _ _ _ _ _ Hpw).
  destruct (cmd_Run_stdout_evolves cmd logFile env w4 eq_refl eq_refl)
    as (w5 & out & Hrun5 & Hev5 & Hout).
  rewrite (step_bind _ _ _ _ _ _ Hrun5).
  pose proof (ev_grows _ _ _ _ _ Hev5 _ _ (stable_plain env) Hplain4) as Hplain5.
  pose proof (evolves_seq _ _ _ _ _ _ _ _ _ _ Hev' Hev5 eq_refl eq_refl) as Hev.
  cbn [app] in Hev. clear Hev' Hev5 Hrun5 Hplain4 Hpw.
  destruct (proc_err (run_program env cmd (fs w4))) as [e|].
  { (* the restore failed *)
    run_step (logger_Printf_evolves logFile
                ("ERROR: Restore failed: " +:+ error_string e) env w5) as w6 Hev6.
    run_step (fmt_Println_evolves "Restore failed. Check log for details." env w6)
      as w7 Hev7.
    pose proof (ev_grows _ _ _ _ _ Hev7 _ _ (stable_plain env)
                  (ev_grows _ _ _ _ _ Hev6 _ _ (stable_plain env) Hplain5)) as Hplain7.
    pose proof (evolves_seq _ _ _ _ _ _ _ _ _ _ Hev
      (evolves_seq _ _ _ _ _ _ _ _ _ _ Hev6 Hev7 eq_refl eq_refl) eq_refl eq_refl)
      as [He _ Hf].
    cbn. intros [= <- <-].
    eexists. split; [exact He|].
    apply RestoreFailed; [done..|].
    intros p Hp1 Hp2. apply Hf. untouched. }
  run_step (logger_Printf_evolves logFile
              ("SUCCESS: Restore completed for database " +:+ quoted dbName +:+ ".") env w5)
    as w6 Hev6.
  pose proof (fmt_Println_evolves "Restore completed successfully." env w6)
    as (w7 & Hrun7 & Hev7).
  rewrite Hrun7.
  pose proof (ev_grows _ _ _ _ _ Hev7 _ _ (stable_plain env)
                (ev_grows _ _ _ _ _ Hev6 _ _ (stable_plain env) Hplain5)) as Hplain7.
  pose proof (evolves_seq _ _ _ _ _ _ _ _ _ _ Hev
    (evolves_seq _ _ _ _ _ _ _ _ _ _ Hev6 Hev7 eq_refl eq_refl) eq_refl eq_refl)
    as [He _ Hf].
  unfold bind. rewrite (os_Remove_plain _ _ _ Hplain7). cbn. intros [= <- <-].
  eexists. split; [|apply RestoreCompleted with (out := out); [done..| |]].
  - cbn. rewrite He, <- app_assoc. f_equal. cbn. by rewrite <- app_assoc.
  - cbn. apply lookup_delete_eq.
  - intros p Hp1 Hp2. cbn. rewrite lookup_delete_ne by done. apply Hf. untouched.
Qed.

(** ** Backup runs as a whole *)

(** X9. A backup run never panics and knows one failure status: it returns
    normally or exits with status 1. *)
Theorem backup_ends_normally_or_with_status_1
    dbName dbUser dbHost backupDir logFile retentionDays env w :
  let r := runBackup dbName dbUser dbHost backupDir logFile retentionDays env w in
  r.1 = Ret tt \/ r.1 = Exited 1.
Proof.
  intros r.
  destruct (runBackup_paths dbName dbUser dbHost backupDir logFile retentionDays env w
              r.1 r.2 (surjective_pairing _)) as (tr & _ & Hpath).
  destruct Hpath; auto.
Qed.

(** X10. The only process a backup run launches is [pg_dump -U user -h host
    -Fc db], with its standard output on the dump file and its standard
    error on the log file.  Its environment is that of the parent when
    [PGPASSWORD] is unset or empty, and otherwise the variables of the parent
    followed by [PGPASSWORD]. *)
Theorem backup_launches_pg_dump_only
    dbName dbUser dbHost backupDir logFile retentionDays env w o w' tr cmd err :
  runBackup dbName dbUser dbHost backupDir logFile retentionDays env w = (o, w') ->
  events w' = (events w ++ tr)%list ->
  In (EvExec cmd err) tr ->
  cmd = mkCmd "pg_dump" ["-U"; dbUser; "-h"; dbHost; "-Fc"; dbName]
          (if String.eqb (getenv env "PGPASSWORD") "" then None
           else Some (environ env ++ ["PGPASSWORD=" +:+ getenv env "PGPASSWORD"])%list)
          (SinkFile (backupFile_at backupDir dbName (clock env (ticks w))))
          (SinkFile logFile).
Proof.
  intros Hrun Hev Hin.
  destruct (runBackup_run _ _ _ _ _ _ _ _ _ _ Hrun) as (tr' & Hev' & _ & Hcmd).
  assert (tr' = tr) as -> by (apply (app_inv_head (events w)); congruence).
  exact (Hcmd _ _ Hin).
Qed.

(** An environment of the scenario in which the password is set. *)
Lemma backup_launches_pg_dump_witness :
  let env := mkEnv scenario_clock
               (fun k => if String.eqb k "PGPASSWORD" then "secret" else "")
               ["HOME=/root"] (run_program quiet_env) stored_codec
               no_fault no_fault no_fault no_fault in
  let r := runBackup "db" "postgres" "localhost" "/b" "/log" 7 env backup_dir_only in
  let cmd := mkCmd "pg_dump" ["-U"; "postgres"; "-h"; "localhost"; "-Fc"; "db"]
               (Some ["HOME=/root"; "PGPASSWORD=secret"])
               (SinkFile "/b/db_2025-08-09_114200.dump") (SinkFile "/log") in
  In (EvExec cmd None) (events r.2) /\
  forall cmd' err, In (EvExec cmd' err) (events r.2) -> cmd' = cmd.
Proof.
  intros env r cmd. split; [in_trace|].
  intros cmd' err Hin.
  exact (backup_launches_pg_dump_only "db" "postgres" "localhost" "/b" "/log" 7 env
           backup_dir_only r.1 r.2 (events r.2) cmd' err
           (surjective_pairing _) eq_refl Hin).
Defined.

(** X11. A backup run that launches no process has failed before the dump:
    it exits with status 1 and has changed no path other than the log
    file. *)
Theorem backup_without_launch_changes_log_only
    dbName dbUser dbHost backupDir logFile retentionDays env w o w' tr :
  runBackup dbName dbUser dbHost backupDir logFile retentionDays env w = (o, w') ->
  events w' = (events w ++ tr)%list ->
  (forall cmd err, ~ In (EvExec cmd err) tr) ->
  o = Exited 1 /\
  forall p, p <> logFile -> fs w' !! p = fs w !! p.
Proof.
  intros Hrun Hev Hnone.
  destruct (runBackup_paths _ _ _ _ _ _ _ _ _ _ Hrun) as (tr' & Hev' & Hpath).
  assert (tr' = tr) as -> by (apply (app_inv_head (events w)); congruence).
  destruct Hpath as [w' tr Hprint Hframe | w' cmd e s _ _ _ | w' cmd _ _ | w' cmd tr _ _ _ _].
  - done.
  - destruct (Hnone cmd (Some e)). cbn. auto.
  - destruct (Hnone cmd None). cbn. auto.
  - destruct (Hnone cmd None). cbn. auto.
Qed.

(** The backup directory is a regular file: the dump file cannot be
    created in it. *)
Lemma backup_without_launch_witness :
  let r := runBackup "db" "postgres" "localhost" "/b/db.dump" "/log" 7 quiet_env with_dump in
  (forall cmd err, ~ In (EvExec cmd err) (events r.2)) /\
  r.1 = Exited 1 /\
  forall p, p <> "/log" -> fs r.2 !! p = fs with_dump !! p.
Proof.
  intros r.
  assert (Hnone : forall cmd err, ~ In (EvExec cmd err) (events r.2)).
  { intros cmd err. vm_compute. intuition discriminate. }
  split; [exact Hnone|].
  exact (backup_without_launch_changes_log_only "db" "postgres" "localhost" "/b/db.dump"
           "/log" 7 quiet_env with_dump r.1 r.2 (events r.2)
           (surjective_pairing _) eq_refl Hnone).
Defined.

(** ** Restore runs as a whole *)

Lemma length_substring_le n s : (String.length (String.substring 0 n s) <= n)%nat.
Proof.
  revert s. induction n as [|n IH]; intros [|c s]; try (cbv; lia).
  change (String.substring 0 (S n) (String c s)) with (String c (String.substring 0 n s)).
  change (String.length (String c ?t)) with (S (String.length t)).
  specialize (IH s). lia.
Qed.

Lemma tempFile_neq backupFile :
  (3 <= String.length backupFile)%nat -> backupFile <> tempFile_of backupFile.
Proof.
  intros Hlen Heq. apply (f_equal String.length) in Heq. unfold tempFile_of in Heq.
  pose proof (length_substring_le (String.length backupFile - 3) backupFile). lia.
Qed.

(** X12. A restore never changes the artifact it restores from: whatever
    the outcome of the run, the backup file is afterwards what it was before
    (the log file apart, should it be the same path). *)
Theorem restore_keeps_artifact dbName dbUser dbHost backupFile logFile env w :
  backupFile <> logFile ->
  fs (runRestore dbName dbUser dbHost backupFile logFile env w).2 !! backupFile
  = fs w !! backupFile.
Proof.
  intros Hne.
  destruct (runRestore_paths dbName dbUser dbHost backupFile logFile env w _ _
              (surjective_pairing _)) as (tr & _ & Hpath).
  destruct Hpath as [msg | w' _ Hf | w' Hlen Hf | w' e out Hlen _ _ Hf | w' out Hlen _ _ Hf];
    [done|by apply Hf|apply Hf; [by apply tempFile_neq|done]..].
Qed.

Lemma restore_keeps_artifact_witness :
  "/b/db.dump.gz" <> "/log" /\
  fs (runRestore "db" "postgres" "localhost" "/b/db.dump.gz" "/log"
        failing_restore_env with_artifact).2 !! "/b/db.dump.gz"
  = fs with_artifact !! "/b/db.dump.gz".
Proof.
  assert (H : "/b/db.dump.gz" <> "/log") by discriminate.
  split; [exact H|].
  exact (restore_keeps_artifact "db" "postgres" "localhost" "/b/db.dump.gz" "/log"
           failing_restore_env with_artifact H).
Defined.

(** X13. The only process a restore run launches is [pg_restore -U user -h
    host -d db --clean] on the temporary file, with the standard output of
    the program and its standard error on the log file; its environment is
    that of the parent, followed by [PGPASSWORD] when the variable is set and
    not empty.  It is launched only for a backup file of three characters or
    more. *)
Theorem restore_launches_pg_restore_only
    dbName dbUser dbHost backupFile logFile env w o w' tr cmd err :
  runRestore dbName dbUser dbHost backupFile logFile env w = (o, w') ->
  events w' = (events w ++ tr)%list ->
  In (EvExec cmd err) tr ->
  (3 <= String.length backupFile)%nat /\
  cmd = mkCmd "pg_restore"
          ["-U"; dbUser; "-h"; dbHost; "-d"; dbName; "--clean"; tempFile_of backupFile]
          (if String.eqb (getenv env "PGPASSWORD") "" then None
           else Some (environ env ++ ["PGPASSWORD=" +:+ getenv env "PGPASSWORD"])%list)
          SinkStdout (SinkFile logFile).
Proof.
  intros Hrun Hev Hin.
  destruct (runRestore_paths _ _ _ _ _ _ _ _ _ Hrun) as (tr' & Hev' & Hpath).
  assert (tr' = tr) as -> by (apply (app_inv_head (events w)); congruence).
  destruct Hpath as [msg | w' _ _ | w' _ _ | w' e out Hlen Hout _ _ | w' out Hlen Hout _ _];
    cbn in Hin.
  - destruct Hin as [[=]|[]].
  - destruct Hin as [[=]|[]].
  - destruct Hin as [[=]|[[=]|[]]].
  - split; [done|]. destruct Hin as [[=]|[H|Hin]]; [by injection H|].
    apply in_app_or in Hin as [Hin|[[=]|[]]]. by apply (prints_launch_nothing out _ cmd err).
  - split; [done|]. destruct Hin as [[=]|[H|Hin]]; [by injection H|].
    apply in_app_or in Hin as [Hin|[[=]|[[=]|[]]]].
    by apply (prints_launch_nothing out _ cmd err).
Qed.

Lemma restore_launches_pg_restore_witness :
  let r := runRestore "db" "postgres" "localhost" "/b/db.dump.gz" "/log"
             quiet_env with_artifact in
  In (EvExec (scenario_restore_cmd "/b/db.dump") None) (events r.2) /\
  forall cmd err, In (EvExec cmd err) (events r.2) ->
    cmd = scenario_restore_cmd "/b/db.dump".
Proof.
  intros r. split; [in_trace|].
  intros cmd err Hin.
  exact (proj2 (restore_launches_pg_restore_only "db" "postgres" "localhost"
                  "/b/db.dump.gz" "/log" quiet_env with_artifact r.1 r.2 (events r.2)
                  cmd err (surjective_pairing _) eq_refl Hin)).
Defined.

(** X14. When [pg_restore] fails, in every restore run: the run exits with
    status 1 without attempting any removal, the deferred removal of the
    temporary file being skipped by the exit, and the temporary file stays on
    disk, a regular file. *)
Theorem failed_restore_attempts_no_removal
    dbName dbUser dbHost backupFile logFile env w o w' tr cmd e :
  runRestore dbName dbUser dbHost backupFile logFile env w = (o, w') ->
  events w' = (events w ++ tr)%list ->
  In (EvExec cmd (Some e)) tr ->
  o = Exited 1 /\
  (forall p err, ~ In (EvRemove p err) tr) /\
  holds plain (fs w') (tempFile_of backupFile).
Proof.
  intros Hrun Hev Hin.
  destruct (runRestore_paths _ _ _ _ _ _ _ _ _ Hrun) as (tr' & Hev' & Hpath).
  assert (tr' = tr) as -> by (apply (app_inv_head (events w)); congruence).
  destruct Hpath as [msg | w' _ _ | w' _ _ | w' e' out Hlen Hout Hplain _ | w' out Hlen Hout _ _];
    cbn in Hin.
  - destruct Hin as [[=]|[]].
  - destruct Hin as [[=]|[]].
  - destruct Hin as [[=]|[[=]|[]]].
  - split_and!; [done| |done].
    intros p err Hrm. cbn in Hrm. destruct Hrm as [[=]|[[=]|Hrm]].
    apply in_app_or in Hrm as [Hrm|[[=]|[]]].
    rewrite Forall_forall in Hout. apply list_elem_of_In in Hrm. destruct (Hout _ Hrm).
  - exfalso. destruct Hin as [[=]|[[=]|Hin]].
    apply in_app_or in Hin as [Hin|[[=]|[[=]|[]]]].
    by apply (prints_launch_nothing out _ cmd (Some e)).
Qed.

Lemma failed_restore_no_removal_witness :
  let r := runRestore "db" "postgres" "localhost" "/b/db.dump.gz" "/log"
             failing_restore_env with_artifact in
  In (EvExec (scenario_restore_cmd "/b/db.dump") (Some (ExitError 1))) (events r.2) /\
  r.1 = Exited 1 /\
  (forall p err, ~ In (EvRemove p err) (events r.2)) /\
  holds plain (fs r.2) (tempFile_of "/b/db.dump.gz").
Proof.
  intros r.
  assert (Hin : In (EvExec (scenario_restore_cmd "/b/db.dump") (Some (ExitError 1)))
                  (events r.2)) by in_trace.
  split; [exact Hin|].
  exact (failed_restore_attempts_no_removal "db" "postgres" "localhost" "/b/db.dump.gz"
           "/log" failing_restore_env with_artifact r.1 r.2 (events r.2) _ _
           (surjective_pairing _) eq_refl Hin).
Defined.

(** X15. A restore run that returns normally has launched [pg_restore],
    which succeeded, and the last thing it did was to remove the temporary
    file, with success: the temporary file is not on disk afterwards. *)
Theorem returned_restore_has_removed_temporary_file
    dbName dbUser dbHost backupFile logFile env w w' tr :
  runRestore dbName dbUser dbHost backupFile logFile env w = (Ret tt, w') ->
  events w' = (events w ++ tr)%list ->
  (exists cmd, In (EvExec cmd None) tr) /\
  (exists before, tr = (before ++ [EvRemove (tempFile_of backupFile) None])%list) /\
  fs w' !! tempFile_of backupFile = None.
Proof.
  intros Hrun Hev.
  destruct (runRestore_paths _ _ _ _ _ _ _ _ _ Hrun) as (tr' & Hev' & Hpath).
  assert (tr' = tr) as -> by (apply (app_inv_head (events w)); congruence).
  inversion Hpath as [| | | |w'' out Hlen Hout Hgone _]; subst.
  split_and!; [|
    |done].
  - eexists. cbn. right. left. reflexivity.
  - eexists (_ :: _ :: out ++ [_])%list. cbn. by rewrite <- app_assoc.
Qed.

Lemma returned_restore_witness :
  let r := runRestore "db" "postgres" "localhost" "/b/db.dump.gz" "/log"
             quiet_env with_artifact in
  r.1 = Ret tt /\
  (exists before, events r.2 = (before ++ [EvRemove (tempFile_of "/b/db.dump.gz") None])%list) /\
  fs r.2 !! tempFile_of "/b/db.dump.gz" = None.
Proof.
  intros r.
  assert (Hrun : runRestore "db" "postgres" "localhost" "/b/db.dump.gz" "/log"
                   quiet_env with_artifact = (Ret tt, r.2)) by (vm_compute; reflexivity).
  split; [vm_compute; reflexivity|].
  exact (proj2 (returned_restore_has_removed_temporary_file "db" "postgres" "localhost"
                  "/b/db.dump.gz" "/log" quiet_env with_artifact r.2 (events r.2)
                  Hrun eq_refl)).
Defined.

(** X16. A restore run that launches no process removes nothing and does
    not return normally; it has changed no path other than the log file and,
    for a backup file of three characters or more, the temporary file. *)
Theorem restore_without_launch_removes_nothing
    dbName dbUser dbHost backupFile logFile env w o w' tr :
  runRestore dbName dbUser dbHost backupFile logFile env w = (o, w') ->
  events w' = (events w ++ tr)%list ->
  (forall cmd err, ~ In (EvExec cmd err) tr) ->
  o <> Ret tt /\
  (forall p err, ~ In (EvRemove p err) tr) /\
  (forall p, p <> logFile -> p <> tempFile_of backupFile -> fs w' !! p = fs w !! p).
Proof.
  intros Hrun Hev Hnone.
  destruct (runRestore_paths _ _ _ _ _ _ _ _ _ Hrun) as (tr' & Hev' & Hpath).
  assert (tr' = tr) as -> by (apply (app_inv_head (events w)); congruence).
  destruct Hpath as [msg | w' _ Hf | w' _ Hf | w' e out _ _ _ _ | w' out _ _ _ _].
  - split_and!; [done| |done]. intros p err [[=]|[]].
  - split_and!; [done| |by intros p Hp _; apply Hf]. intros p err [[=]|[]].
  - split_and!; [done| |by intros p Hp1 Hp2; apply Hf]. intros p err [[=]|[[=]|[]]].
  - edestruct Hnone. cbn. right. left. reflexivity.
  - edestruct Hnone. cbn. right. left. reflexivity.
Qed.

Lemma restore_without_launch_witness :
  let r := runRestore "db" "postgres" "localhost" "/b/db.dump.gz" "/log"
             quiet_env with_truncated_artifact in
  (forall cmd err, ~ In (EvExec cmd err) (events r.2)) /\
  r.1 <> Ret tt /\
  (forall p err, ~ In (EvRemove p err) (events r.2)).
Proof.
  intros r.
  assert (Hnone : forall cmd err, ~ In (EvExec cmd err) (events r.2)).
  { intros cmd err. vm_compute. intuition discriminate. }
  split; [exact Hnone|].
  destruct (restore_without_launch_removes_nothing "db" "postgres" "localhost"
              "/b/db.dump.gz" "/log" quiet_env with_truncated_artifact r.1 r.2 (events r.2)
              (surjective_pairing _) eq_refl Hnone) as (Ho & Hrm & _).
  split; [exact Ho|exact Hrm].
Defined.

(** ** The log file *)



(** ** The retention sweep as a whole *)

Section Walk.
Context (env : Env) (cutoff : time.Time) (logger : string) (I : World -> Prop).
Hypothesis HI : walk_closed env cutoff logger I.

Lemma logger_Printf_kept msg w :
  I w -> exists w', logger_Printf logger msg env w = (Ret tt, w') /\ I w'.
Proof.
  intros Hw. destruct (logger_Printf_run logger msg env w) as [data ->].
  eexists. split; [done|]. eapply wc_log; [done|]. by eapply wc_tick.
Qed.

Lemma visit_kept p info err w :
  I w ->
  (err = None -> exists n, info = Some (info_of n) /\ fs w !! p = Some n) ->
  exists r w', cleanupOldBackups_visit cutoff logger p info err env w = (Ret r, w') /\ I w'.
Proof.
  intros Hw Hinfo. unfold cleanupOldBackups_visit.
  destruct err as [e|]; [by eexists _, _|].
  destruct Hinfo as [n [-> Hn]]; [done|].
  destruct (negb (IsDir (info_of n))) eqn:Hd; cbn [andb]; [|by eexists _, _].
  destruct (String.eqb_spec (filepath.Ext p) ".gz") as [Hext|]; [|by eexists _, _].
  destruct (time.Before (ModTime (info_of n)) cutoff) eqn:Hb; [|by eexists _, _].
  apply negb_true_iff in Hd.
  pose proof (wc_remove _ _ _ _ HI w p n Hw Hn Hd Hext Hb) as Hrm.
  unfold bind at 1. unfold os_Remove at 1. cbv beta iota.
  destruct (remove_result (fs w) p) as [e|].
  - edestruct logger_Printf_kept as [w' [Hrun Hw']]; [exact Hrm|].
    unfold bind. rewrite Hrun. by eexists _, _.
  - edestruct logger_Printf_kept as [w' [Hrun Hw']]; [exact Hrm|].
    unfold bind. rewrite Hrun. by eexists _, _.
Qed.

Lemma walk_loop_kept paths :
  forall skipped w, I w ->
  exists r w',
    walk_loop (cleanupOldBackups_visit cutoff logger) skipped paths env w = (Ret r, w') /\ I w'.
Proof.
  induction paths as [|p rest IH]; intros skipped w Hw.
  { by eexists _, _. }
  cbn [walk_loop]. destruct (existsb _ skipped); [by apply IH|].
  assert (Hgo : forall info err skipped',
    (err = None -> exists n, info = Some (info_of n) /\ fs w !! p = Some n) ->
    exists r w',
      bind (cleanupOldBackups_visit cutoff logger p info err)
        (fun r => match r with
                  | Some e' => ret (Some e')
                  | None => walk_loop (cleanupOldBackups_visit cutoff logger) skipped' rest
                  end) env w = (Ret r, w') /\ I w').
  { intros info err skipped' Hinfo.
    destruct (visit_kept p info err w Hw Hinfo) as (r & w1 & Hrun & Hw1).
    unfold bind. rewrite Hrun. destruct r; [by eexists _, _|by apply IH]. }
  destruct (lstat_fault env p) as [e|] eqn:Hl; [by apply Hgo|].
  destruct (fs w !! p) as [n|] eqn:Hn; [|by apply Hgo].
  destruct (IsDir (info_of n)) eqn:Hd; apply Hgo; eauto.
Qed.

Lemma filepath_Walk_kept root w :
  I w ->
  exists r w',
    filepath_Walk root (cleanupOldBackups_visit cutoff logger) env w = (Ret r, w') /\ I w'.
Proof. intros Hw. unfold filepath_Walk. by apply walk_loop_kept. Qed.

End Walk.

(** The sweep, around its walk: a line of the log and a printed line
    before, the same after.  The cutoff is computed from the second reading
    of the clock by the sweep. *)
Lemma cleanupOldBackups_run backupDir retentionDays logger env w :
  exists data1,
    let w2 := tick (add_event (EvStdout ("Cleaning up old backups..." +:+ NL))
                (set_fs (alter (append_node data1 (kernel_time env (tick w))) logger)
                   (tick w))) in
    forall r w3,
      filepath_Walk backupDir
        (cleanupOldBackups_visit (cutoff_at env retentionDays (S (ticks w))) logger) env w2
      = (Ret r, w3) ->
      exists data2,
        cleanupOldBackups backupDir retentionDays logger env w
        = (Ret tt,
           add_event (EvStdout ("Cleanup complete." +:+ NL))
             (set_fs (alter (append_node data2 (kernel_time env (tick w3))) logger)
                (tick w3))).
Proof.
  destruct (logger_Printf_run logger
              ("INFO: Cleaning up backups older than " +:+ time.appendInt retentionDays 0
               +:+ " days.") env w) as [data1 Hrun1].
  exists data1. intros w2 r w3 Hwalk. unfold cleanupOldBackups.
  rewrite (step_bind _ _ _ _ _ _ Hrun1).
  unfold bind at 1. cbn [fmt_Println fmt_Print]. unfold bind at 1. cbn [time_Now].
  unfold bind at 1. fold w2.
  change (time.AddDays (clock env (ticks (add_event _ _))) (neg_int retentionDays))
    with (cutoff_at env retentionDays (S (ticks w))).
  rewrite Hwalk.
  destruct (logger_Printf_run logger "SUCCESS: Cleanup complete." env w3) as [data2 Hrun2].
  exists data2. unfold logger_Println. by rewrite (step_bind _ _ _ _ _ _ Hrun2).
Qed.

Lemma lookup_remove_entry_ne m p q : p <> q -> remove_entry p m !! q = m !! q.
Proof.
  intros H. unfold remove_entry. destruct (remove_result m p); [done|].
  by rewrite lookup_delete_ne.
Qed.

(** X18. The sweep always returns to its caller, whatever the walk of the
    backup directory meets: it prints its first line, attempts removals, of
    paths with the extension [.gz] only, and prints its last line.  It
    launches no process. *)
Theorem sweep_reports_and_removes_gz_only backupDir retentionDays logger env w :
  let r := cleanupOldBackups backupDir retentionDays logger env w in
  r.1 = Ret tt /\
  exists tr,
    events r.2
    = (events w ++ [EvStdout ("Cleaning up old backups..." +:+ NL)] ++ tr
       ++ [EvStdout ("Cleanup complete." +:+ NL)])%list /\
    Forall removes_gz tr.
Proof.
  destruct (cleanupOldBackups_run backupDir retentionDays logger env w) as [data1 Hrun].
  cbv zeta in Hrun. set (w2 := tick _) in Hrun.
  set (I := fun v : World =>
              exists tr, events v = (events w2 ++ tr)%list /\ Forall removes_gz tr).
  assert (HI : walk_closed env (cutoff_at env retentionDays (S (ticks w))) logger I).
  { split.
    - by intros v H.
    - by intros v data H.
    - intros v p n (tr & Hev & Htr) _ _ Hext _.
      exists (tr ++ [EvRemove p (remove_result (fs v) p)])%list. cbn.
      split; [by rewrite Hev, app_assoc|].
      apply Forall_app. split; [done|]. by repeat constructor. }
  destruct (filepath_Walk_kept env _ logger I HI backupDir w2) as (r & w3 & Hwalk & tr & Hev & Htr).
  { exists []. split; [by rewrite app_nil_r|constructor]. }
  destruct (Hrun r w3 Hwalk) as [data2 ->]. cbn [fst snd].
  split; [done|]. exists tr. split; [|done].
  cbn. rewrite Hev. cbn. by rewrite <- !app_assoc.
Qed.

(** X19. The sweep leaves alone every directory, every file without the
    extension [.gz] and every file that was not modified before its cutoff,
    the second reading of the clock by the sweep less the retention: such an
    entry is afterwards what it was before (the log file apart, to which the
    sweep writes). *)
Theorem sweep_keeps_directories_and_recent_files
    backupDir retentionDays logger env w p n :
  fs w !! p = Some n ->
  p <> logger ->
  IsDir (info_of n) = true \/ filepath.Ext p <> ".gz" \/
    time.Before (node_mtime n) (cutoff_at env retentionDays (S (ticks w))) = false ->
  fs (cleanupOldBackups backupDir retentionDays logger env w).2 !! p = Some n.
Proof.
  intros Hn Hp Hkeep.
  destruct (cleanupOldBackups_run backupDir retentionDays logger env w) as [data1 Hrun].
  cbv zeta in Hrun. set (w2 := tick _) in Hrun.
  set (I := fun v : World => fs v !! p = Some n).
  assert (HI : walk_closed env (cutoff_at env retentionDays (S (ticks w))) logger I).
  { split; unfold I.
    - by intros v H.
    - intros v data H. cbn. by rewrite lookup_alter_ne.
    - intros v q n' H Hq Hdir Hext Hold. cbn.
      rewrite lookup_remove_entry_ne; [done|]. intros ->.
      assert (n' = n) as -> by congruence.
      destruct Hkeep as [?|[?|?]]; congruence. }
  destruct (filepath_Walk_kept env _ logger I HI backupDir w2) as (r & w3 & Hwalk & Hw3).
  { unfold I. cbn. by rewrite lookup_alter_ne. }
  destruct (Hrun r w3 Hwalk) as [data2 ->]. cbn. by rewrite lookup_alter_ne.
Qed.

Lemma sweep_keeps_witness :
  let w :=
    empty_world
      (<[ "/b/old.dump" := mkNode ModeRegular (list_byte_of_string "DUMP") last_week false ]>
         (<[ "/b/old.dump.gz" := mkNode ModeRegular [] last_week false ]>
            {[ "/b" := mkNode ModeDir [] last_week false ]})) in
  let r := cleanupOldBackups "/b" 7 "/log" quiet_env w in
  filepath.Ext "/b/old.dump" <> ".gz" /\
  fs r.2 !! "/b/old.dump"
  = Some (mkNode ModeRegular (list_byte_of_string "DUMP") last_week false) /\
  fs r.2 !! "/b/old.dump.gz" = None.
Proof.
  intros w r.
  assert (Hext : filepath.Ext "/b/old.dump" <> ".gz") by (vm_compute; discriminate).
  split; [exact Hext|]. split; [|vm_compute; reflexivity].
  apply (sweep_keeps_directories_and_recent_files "/b" 7 "/log" quiet_env w "/b/old.dump"
           (mkNode ModeRegular (list_byte_of_string "DUMP") last_week false));
    [vm_compute; reflexivity | discriminate | right; left; exact Hext].
Defined.

(** X20. The error of the walk is dropped: when the backup directory is
    missing or cannot be examined, the sweep removes nothing, changes no file
    other than the log file, and still reports that the cleanup is
    complete. *)
Theorem sweep_of_missing_directory_reports_completion
    backupDir retentionDays logger env w :
  lstat_fault env backupDir <> None \/ fs w !! backupDir = None ->
  let r := cleanupOldBackups backupDir retentionDays logger env w in
  r.1 = Ret tt /\
  events r.2
  = (events w ++ [EvStdout ("Cleaning up old backups..." +:+ NL);
                  EvStdout ("Cleanup complete." +:+ NL)])%list /\
  forall p, p <> logger -> fs r.2 !! p = fs w !! p.
Proof.
  intros Hmissing.
  destruct (cleanupOldBackups_run backupDir retentionDays logger env w) as [data1 Hrun].
  cbv zeta in Hrun. set (w2 := tick _) in Hrun.
  assert (Hwalk : exists e,
    filepath_Walk backupDir
      (cleanupOldBackups_visit (cutoff_at env retentionDays (S (ticks w))) logger) env w2
    = (Ret (Some e), w2)).
  { unfold filepath_Walk.
    destruct (lstat_fault env backupDir) as [e|] eqn:Hl.
    - exists e. cbn [walk_loop existsb]. by rewrite Hl.
    - destruct Hmissing as [?|Habs]; [done|]. exists ENOENT.
      assert (Habs2 : fs w2 !! backupDir = None) by (cbn; by apply lookup_alter_None).
      rewrite Habs2. cbn [walk_loop existsb]. by rewrite Hl, Habs2. }
  destruct Hwalk as [e Hwalk]. destruct (Hrun _ _ Hwalk) as [data2 ->]. cbn [fst snd].
  split_and!; [done|cbn; by rewrite <- app_assoc|].
  intros p Hp. cbn. by rewrite !lookup_alter_ne.
Qed.

Lemma sweep_of_missing_directory_witness :
  let r := cleanupOldBackups "/gone" 7 "/log" quiet_env with_artifact in
  fs with_artifact !! "/gone" = None /\
  r.1 = Ret tt /\
  events r.2 = [EvStdout ("Cleaning up old backups..." +:+ NL);
                EvStdout ("Cleanup complete." +:+ NL)].
Proof.
  intros r.
  assert (H : fs with_artifact !! "/gone" = None) by (vm_compute; reflexivity).
  split; [exact H|].
  destruct (sweep_of_missing_directory_reports_completion "/gone" 7 "/log" quiet_env
              with_artifact (or_intror H)) as (Ho & Hev & _).
  split; [exact Ho|exact Hev].
Defined.

(** *** Every expired artifact is reached *)









Section Reach.
Context (env : Env) (cutoff : time.Time) (logger : string).
Hypothesis Hlstat : forall q, lstat_fault env q = None.
Hypothesis Hreaddir : forall q, readdir_fault env q = None.



End Reach.



(** ** The command line *)

(** X22. Unless its first argument is [backup] or [restore], [main] does
    nothing but print: without a command it prints the usage line, with an
    unknown command it names the command and prints the usage line, and in
    both cases the process exits with status 1. *)
Theorem main_without_known_command_prints_usage args env w :
  (length args < 2)%nat \/
  (exists prog command rest,
     args = prog :: command :: rest /\ command <> "backup" /\ command <> "restore") ->
  let r := main args env w in
  r.1 = Exited 1 /\
  fs r.2 = fs w /\
  (exists before, events r.2 = (events w ++ before ++ [EvStdout (usage +:+ NL)])%list /\
     Forall is_print before).
Proof.
  intros [Hlen | (prog & command & rest & -> & Hb & Hr)].
  - destruct args as [|a [|b args]]; [| |cbn in Hlen; lia];
      (split_and!; [done..|]; exists []; by split).
  - unfold main.
    destruct (String.eqb_spec command "backup"); [done|].
    destruct (String.eqb_spec command "restore"); [done|].
    split_and!; [done..|].
    exists [EvStdout (("Unknown command: " +:+ command) +:+ NL)]. split.
    + cbn. by rewrite <- app_assoc.
    + by repeat constructor.
Qed.

Lemma main_without_known_command_witness :
  let r := main ["pgtool"; "dump"; "-db"; "x"] quiet_env with_artifact in
  r.1 = Exited 1 /\
  events r.2 = [EvStdout ("Unknown command: dump" +:+ NL); EvStdout (usage +:+ NL)].
Proof.
  intros r.
  destruct (main_without_known_command_prints_usage ["pgtool"; "dump"; "-db"; "x"]
              quiet_env with_artifact) as (Ho & _ & _).
  { right. exists "pgtool", "dump", ["-db"; "x"].
    split; [reflexivity|]. split; discriminate. }
  split; [exact Ho|reflexivity].
Defined.

(** X23. The defaults of the flags: a backup given its database only runs
    as user [postgres] on [localhost], with the backup directory
    [/var/backups/postgresql], the log file [/var/log/postgres_backup.log]
    and a retention of 7 days; a restore given its database and its file
    only runs as the same user on the same host with the same log file. *)
Theorem main_defaults prog db file env w :
  main [prog; "backup"; "-db"; db] env w
  = runBackup db "postgres" "localhost" "/var/backups/postgresql"
      "/var/log/postgres_backup.log" 7 env w /\
  main [prog; "restore"; "-db"; db; "-file"; file] env w
  = runRestore db "postgres" "localhost" file "/var/log/postgres_backup.log" env w.
Proof. split; reflexivity. Qed.

(** X24. Every flag of a backup reaches [runBackup]: the values given on
    the command line are the arguments of the run, the retention being the
    integer its text denotes. *)
Theorem main_backup_passes_flags prog db user host dir log s n env w :
  strconv.ParseInt s = inl n ->
  main [prog; "backup"; "-db"; db; "-user"; user; "-host"; host; "-backup-dir"; dir;
        "-log-file"; log; "-retention"; s] env w
  = runBackup db user host dir log n env w.
Proof.
  intros Hs. unfold main, flag_Parse, bind.
  assert (Hparse :
    flag.Parse backup_flags
      ["-db"; db; "-user"; user; "-host"; host; "-backup-dir"; dir; "-log-file"; log;
       "-retention"; s]
    = inl [("db", flag.StringValue db); ("user", flag.StringValue user);
           ("host", flag.StringValue host); ("backup-dir", flag.StringValue dir);
           ("log-file", flag.StringValue log); ("retention", flag.IntValue n)]).
  { cbv -[strconv.ParseInt]. by rewrite Hs. }
  change (String.eqb "backup" "backup") with true. cbv iota. by rewrite Hparse.
Qed.

Lemma main_backup_passes_flags_witness :
  strconv.ParseInt "30" = inl 30%Z /\
  main ["pgtool"; "backup"; "-db"; "db"; "-user"; "admin"; "-host"; "db1";
        "-backup-dir"; "/b"; "-log-file"; "/log"; "-retention"; "30"]
    quiet_env backup_dir_only
  = runBackup "db" "admin" "db1" "/b" "/log" 30 quiet_env backup_dir_only.
Proof.
  assert (H : strconv.ParseInt "30" = inl 30%Z) by (vm_compute; reflexivity).
  split; [exact H|].
  exact (main_backup_passes_flags "pgtool" "db" "admin" "db1" "/b" "/log" "30" 30
           quiet_env backup_dir_only H).
Defined.

(** X25. A retention that is not the text of a 64-bit integer stops a
    backup before it starts: the process exits with status 2, having printed
    nothing on its standard output and touched no file. *)
Theorem main_backup_rejects_invalid_retention prog db s e rest env w :
  strconv.ParseInt s = inr e ->
  main (prog :: "backup" :: "-db" :: db :: "-retention" :: s :: rest) env w = (Exited 2, w).
Proof.
  intros Hs. unfold main, flag_Parse, bind.
  assert (Hparse :
    flag.Parse backup_flags ("-db" :: db :: "-retention" :: s :: rest) = inr flag.ErrFailed).
  { cbv -[strconv.ParseInt]. by rewrite Hs. }
  change (String.eqb "backup" "backup") with true. cbv iota. by rewrite Hparse.
Qed.

Lemma main_backup_rejects_invalid_retention_witness :
  strconv.ParseInt "7d" = inr strconv.ErrSyntax /\
  strconv.ParseInt "9223372036854775808" = inr strconv.ErrRange /\
  main ["pgtool"; "backup"; "-db"; "db"; "-retention"; "7d"] quiet_env backup_dir_only
  = (Exited 2, backup_dir_only).
Proof.
  assert (H : strconv.ParseInt "7d" = inr strconv.ErrSyntax) by (vm_compute; reflexivity).
  split; [exact H|]. split; [vm_compute; reflexivity|].
  exact (main_backup_rejects_invalid_retention "pgtool" "db" "7d" strconv.ErrSyntax []
           quiet_env backup_dir_only H).
Defined.

Lemma classify_operand x : String.prefix "-" x = false -> flag.classify x = flag.NotFlag.
Proof.
  destruct x as [|c0 [|c1 x]]; [done..|]. unfold flag.classify.
  destruct (Ascii.eqb_spec c0 "-") as [->|_]; [by destruct c1|done].
Qed.

(** X26. The flags end at the first argument that is no flag: when the
    first argument after the command does not begin with a dash, whatever
    follows it is ignored, the database name stays empty and the run is
    refused with status 1. *)
Theorem main_ignores_flags_after_operand prog x rest env w :
  String.prefix "-" x = false ->
  main (prog :: "backup" :: x :: rest) env w
  = (Exited 1, add_event (EvStdout ("Error: Database name is required." +:+ NL)) w) /\
  main (prog :: "restore" :: x :: rest) env w
  = (Exited 1,
     add_event (EvStdout ("Error: Database name and backup file are required." +:+ NL)) w).
Proof.
  intros Hx. apply classify_operand in Hx.
  split; unfold main, flag_Parse, bind; cbn [flag.Parse]; rewrite Hx; reflexivity.
Qed.

Lemma main_ignores_flags_after_operand_witness :
  String.prefix "-" "mydb" = false /\
  main ["pgtool"; "backup"; "mydb"; "-db"; "mydb"] quiet_env backup_dir_only
  = (Exited 1,
     add_event (EvStdout ("Error: Database name is required." +:+ NL)) backup_dir_only).
Proof.
  assert (H : String.prefix "-" "mydb" = false) by reflexivity.
  split; [exact H|].
  exact (proj1 (main_ignores_flags_after_operand "pgtool" "mydb" ["-db"; "mydb"]
                  quiet_env backup_dir_only H)).
Defined.

(** Examples of the conversions and of the flag syntax. *)
Example ParseInt_examples :
  map strconv.ParseInt ["7"; "-1"; "+30"; "0x1F"; "0b101"; "017"; "1_000"; "0"; ""; "-";
                        "1__0"; "_1"; "7days"; "-9223372036854775808"]
  = [inl 7%Z; inl (-1)%Z; inl 30%Z; inl 31%Z; inl 5%Z; inl 15%Z; inl 1000%Z; inl 0%Z;
     inr strconv.ErrSyntax; inr strconv.ErrSyntax; inr strconv.ErrSyntax;
     inr strconv.ErrSyntax; inr strconv.ErrSyntax; inl (-9223372036854775808)%Z].
Proof. vm_compute. reflexivity. Qed.

Example classify_examples :
  map flag.classify ["-db"; "--db"; "-db=x"; "--"; "-"; "db"; "---db"; "-=x"; "-a=b=c"]
  = [flag.FlagArg "db" None; flag.FlagArg "db" None; flag.FlagArg "db" (Some "x");
     flag.Terminator; flag.NotFlag; flag.NotFlag; flag.BadSyntax; flag.BadSyntax;
     flag.FlagArg "a" (Some "b=c")].
Proof. reflexivity. Qed.
